(** * dog_patrol: a shallow embedding of the walk renamer

    The repository holds two Python programs that share one rule engine:

    - [main.py], a webhook handler that renames a freshly created outdoor
      walk (module [Main] below);
    - [backfill_activities.py], a batch script that walks over past
      activities with a rate-limit aware HTTP client (module [Backfill]).

    Python values that come from JSON are modelled by [json]; exceptions by
    [exn] and the [result] type; the outside world (the provider's HTTP
    answers, the wall clock, the Firestore document) by the record [World],
    threaded through a small state-and-exception monad. *)

From Stdlib Require Import ZArith Ascii String Bool Lia.
From Stdlib Require DecimalString DecimalZ.
From stdpp Require Import gmap strings list.

Set Warnings "-register-all".
Set Default Proof Using "Type".
Open Scope Z_scope.

(** ** Python values *)

(** The values [json.loads] can produce.  Numbers are integers here: every
    number the programs look at (status codes, counters, identifiers) is
    one.  A JSON object keeps its items as an association list. *)
Inductive json : Type :=
| JNull
| JBool (b : bool)
| JNum (n : Z)
| JStr (s : string)
| JArr (items : list json)
| JObj (fields : list (string * json)).

(** [dict.get(k)] on the items of a dict. *)
Fixpoint assoc_get {V : Type} (k : string) (d : list (string * V)) : option V :=
  match d with
  | [] => None
  | (k', v) :: d' => if String.eqb k k' then Some v else assoc_get k d'
  end.

(** Python truthiness, as used by [if x:] and [not x]. *)
Definition truthy (v : json) : bool :=
  match v with
  | JNull => false
  | JBool b => b
  | JNum n => negb (n =? 0)
  | JStr s => negb (String.eqb s "")
  | JArr items => match items with [] => false | _ => true end
  | JObj fields => match fields with [] => false | _ => true end
  end.

(** Python [==] on JSON values: [True == 1], containers compare by
    content, dicts regardless of item order. *)
Fixpoint py_eq (a b : json) {struct a} : bool :=
  match a, b with
  | JNull, JNull => true
  | JBool x, JBool y => Bool.eqb x y
  | JBool x, JNum n => n =? (if x then 1 else 0)
  | JNum n, JBool x => n =? (if x then 1 else 0)
  | JNum x, JNum y => x =? y
  | JStr x, JStr y => String.eqb x y
  | JArr xs, JArr ys =>
      (fix go (xs ys : list json) : bool :=
         match xs, ys with
         | [], [] => true
         | x :: xs', y :: ys' => py_eq x y && go xs' ys'
         | _, _ => false
         end) xs ys
  | JObj xs, JObj ys =>
      Nat.eqb (List.length xs) (List.length ys)
      && (fix go (xs : list (string * json)) : bool :=
            match xs with
            | [] => true
            | (k, v) :: xs' =>
                match assoc_get k ys with
                | Some v' => py_eq v v'
                | None => false
                end && go xs'
            end) xs
  | _, _ => false
  end.

(** [v == s] for a Python [str] [s]. *)
Definition eq_str (v : json) (s : string) : bool := py_eq v (JStr s).

(** ** Exceptions *)

Inductive exn : Type :=
| ValueError
| IndexError
| KeyError
| AttributeError
| TypeError
| UnboundLocalError
| ConnectionError          (* any exception raised by [requests] itself *)
| FirestoreError           (* any exception raised by the Firestore client *)
| Failure (what : string) (status : Z).  (* [raise Exception(f"...: {status}")] *)

Inductive result (A : Type) : Type :=
| Ok (a : A)
| Raise (e : exn).
Arguments Ok {A} a.
Arguments Raise {A} e.

(** ** Strings *)

(** A [string] is the UTF-8 text of a Python [str]; the operations below
    work on its bytes, which are its characters as long as the text is
    ASCII, as timestamps and header values are. *)

Definition chars (s : string) : list ascii := list_ascii_of_string s.
Definition text (cs : list ascii) : string := string_of_list_ascii cs.

(** [s.replace(c, "")] for a one-character [c]: every occurrence goes. *)
Definition str_remove (c : ascii) (s : string) : string :=
  text (List.filter (fun x => negb (Ascii.eqb x c)) (chars s)).

(** [s.split(sep)] for a one-character separator. *)
Fixpoint split_chars (sep : ascii) (cs cur : list ascii) : list string :=
  match cs with
  | [] => [text (rev cur)]
  | c :: cs' =>
      if Ascii.eqb c sep then text (rev cur) :: split_chars sep cs' []
      else split_chars sep cs' (c :: cur)
  end.

Definition str_split (sep : ascii) (s : string) : list string :=
  split_chars sep (chars s) [].

Definition digit_value (c : ascii) : option Z :=
  let n := Z.of_N (N_of_ascii c) in
  if (48 <=? n) && (n <=? 57) then Some (n - 48) else None.

(** The white space [int()] skips, within ASCII. *)
Definition is_space (c : ascii) : bool :=
  let n := Z.of_N (N_of_ascii c) in
  ((9 <=? n) && (n <=? 13)) || ((28 <=? n) && (n <=? 32)).

(** Decimal digits with single underscores between digits. *)
Fixpoint int_digits (cs : list ascii) (acc : Z) (after_digit : bool) : option Z :=
  match cs with
  | [] => if after_digit then Some acc else None
  | c :: cs' =>
      match digit_value c with
      | Some d => int_digits cs' (10 * acc + d) true
      | None =>
          if Ascii.eqb c "_" && after_digit then int_digits cs' acc false
          else None
      end
  end.

Fixpoint drop_spaces (cs : list ascii) : list ascii :=
  match cs with
  | c :: cs' => if is_space c then drop_spaces cs' else cs
  | [] => []
  end.

Definition strip (cs : list ascii) : list ascii :=
  rev (drop_spaces (rev (drop_spaces cs))).

(** [int(s)] for a [str]: surrounding white space, an optional sign, then
    decimal digits.  Digits and white space outside ASCII are not modelled
    (such a string counts as malformed here), nor is the limit on the
    number of digits. *)
Definition py_int (s : string) : result Z :=
  let body := strip (chars s) in
  let '(neg, ds) :=
    match body with
    | c :: ds => if Ascii.eqb c "-" then (true, ds)
                 else if Ascii.eqb c "+" then (false, ds)
                 else (false, body)
    | [] => (false, body)
    end in
  match int_digits ds 0 false with
  | Some n => Ok (if neg then - n else n)
  | None => Raise ValueError
  end.

(** ** Naive date-times *)

(** A [datetime] without time zone: the day as its proleptic Gregorian
    ordinal ([toordinal()]) and the wall-clock fields.  The bound of the
    year 9999 on [datetime] arithmetic is not modelled. *)
Record datetime : Type := mk_datetime {
  toordinal : Z;
  hour : Z;
  minute : Z;
  second : Z;
  microsecond : Z
}.

Definition is_leap (y : Z) : bool :=
  (y mod 4 =? 0) && (negb (y mod 100 =? 0) || (y mod 400 =? 0)).

Definition days_in_month (y m : Z) : Z :=
  if m =? 2 then (if is_leap y then 29 else 28)
  else if (m =? 4) || (m =? 6) || (m =? 9) || (m =? 11) then 30
  else 31.

Definition days_before_year (y : Z) : Z :=
  let p := y - 1 in p * 365 + p / 4 - p / 100 + p / 400.

Fixpoint days_before_month_from (y : Z) (k : nat) : Z :=
  match k with
  | O => 0
  | S k' => days_before_month_from y k' + days_in_month y (Z.of_nat k)
  end.

Definition days_before_month (y m : Z) : Z :=
  days_before_month_from y (Z.to_nat (m - 1)).

Definition ymd2ord (y m d : Z) : Z :=
  days_before_year y + days_before_month y m + d.

(** The constructor [datetime(y, m, d, hh, mm, ss, us)] with its range
    checks. *)
Definition make_datetime (y m d hh mm ss us : Z) : result datetime :=
  if (1 <=? y) && (y <=? 9999) && (1 <=? m) && (m <=? 12)
     && (1 <=? d) && (d <=? days_in_month y m)
     && (0 <=? hh) && (hh <? 24) && (0 <=? mm) && (mm <? 60)
     && (0 <=? ss) && (ss <? 60) && (0 <=? us) && (us <? 1000000)
  then Ok (mk_datetime (ymd2ord y m d) hh mm ss us)
  else Raise ValueError.

Fixpoint digits_value (cs : list ascii) (acc : Z) : option Z :=
  match cs with
  | [] => Some acc
  | c :: cs' =>
      match digit_value c with
      | Some d => digits_value cs' (10 * acc + d)
      | None => None
      end
  end.

(** The time part [HH], [HH:MM], [HH:MM:SS], [HH:MM:SS.fff] or
    [HH:MM:SS.ffffff]. *)
Definition parse_isoformat_time (cs : list ascii) : option (Z * Z * Z * Z) :=
  let colon := Ascii.eqb ":" in
  match cs with
  | [h1; h2] =>
      hh ← digits_value [h1; h2] 0; Some (hh, 0, 0, 0)
  | [h1; h2; c1; m1; m2] =>
      if colon c1 then
        hh ← digits_value [h1; h2] 0; mm ← digits_value [m1; m2] 0;
        Some (hh, mm, 0, 0)
      else None
  | h1 :: h2 :: c1 :: m1 :: m2 :: c2 :: s1 :: s2 :: frac =>
      if colon c1 && colon c2 then
        hh ← digits_value [h1; h2] 0; mm ← digits_value [m1; m2] 0;
        ss ← digits_value [s1; s2] 0;
        match frac with
        | [] => Some (hh, mm, ss, 0)
        | [p; f1; f2; f3] =>
            if Ascii.eqb p "." then
              us ← digits_value [f1; f2; f3] 0; Some (hh, mm, ss, us * 1000)
            else None
        | [p; f1; f2; f3; f4; f5; f6] =>
            if Ascii.eqb p "." then
              us ← digits_value [f1; f2; f3; f4; f5; f6] 0; Some (hh, mm, ss, us)
            else None
        | _ => None
        end
      else None
  | _ => None
  end.

(** [datetime.fromisoformat]: the date [YYYY-MM-DD], then nothing, or one
    separator character of any kind and the time part.  These are the
    shapes every version of the function reads the same way; a string of
    another shape (a UTC offset, the basic format) is a [ValueError]
    here. *)
Definition fromisoformat (s : string) : result datetime :=
  match chars s with
  | y1 :: y2 :: y3 :: y4 :: c1 :: m1 :: m2 :: c2 :: d1 :: d2 :: rest =>
      if Ascii.eqb c1 "-" && Ascii.eqb c2 "-" then
        match digits_value [y1; y2; y3; y4] 0,
              digits_value [m1; m2] 0, digits_value [d1; d2] 0 with
        | Some y, Some m, Some d =>
            match rest with
            | [] => make_datetime y m d 0 0 0 0
            | _sep :: tstr =>
                match parse_isoformat_time tstr with
                | Some (hh, mm, ss, us) => make_datetime y m d hh mm ss us
                | None => Raise ValueError
                end
            end
        | _, _, _ => Raise ValueError
        end
      else Raise ValueError
  | _ => Raise ValueError
  end.

(** Microseconds since the start of ordinal day 0, and back. *)
Definition to_us (dt : datetime) : Z :=
  (((toordinal dt * 24 + hour dt) * 60 + minute dt) * 60 + second dt) * 1000000
  + microsecond dt.

Definition of_us (t : Z) : datetime :=
  {| toordinal := t / 86400000000;
     hour := (t / 3600000000) mod 24;
     minute := (t / 60000000) mod 60;
     second := (t / 1000000) mod 60;
     microsecond := t mod 1000000 |}.

(** [dt + timedelta(microseconds = d)]. *)
Definition dt_add (dt : datetime) (d : Z) : datetime := of_us (to_us dt + d).

(** [int((a - b).total_seconds())]: the difference is a whole number of
    microseconds, and [int] truncates towards zero. *)
Definition int_total_seconds (a b : datetime) : Z :=
  Z.quot (to_us a - to_us b) 1000000.

(** ** Effects: state and exceptions *)

#[global] Instance result_ret : MRet result := fun A a => Ok a.
#[global] Instance result_bind : MBind result := fun A B f r =>
  match r with
  | Ok a => f a
  | Raise e => Raise e
  end.

(** A computation over a state [St] that returns or raises. *)
Definition M (St A : Type) : Type := St -> St * result A.

#[global] Instance M_ret {St} : MRet (M St) := fun A a s => (s, Ok a).
#[global] Instance M_bind {St} : MBind (M St) := fun A B f m s =>
  match m s with
  | (s', Ok a) => f a s'
  | (s', Raise e) => (s', Raise e)
  end.

Definition raise {St A} (e : exn) : M St A := fun s => (s, Raise e).
Definition lift {St A} (r : result A) : M St A := fun s => (s, r).
Definition gets {St A} (f : St -> A) : M St A := fun s => (s, Ok (f s)).
Definition modify {St} (f : St -> St) : M St unit := fun s => (f s, Ok tt).

(** [try: m  except ...: h e]; the handler re-raises what it does not
    catch. *)
Definition try_except {St A} (m : M St A) (h : exn -> M St A) : M St A :=
  fun s =>
    match m s with
    | (s', Ok a) => (s', Ok a)
    | (s', Raise e) => h e s'
    end.

(** [v.get(k, dflt)]: only a dict has the method. *)
Definition py_get (v : json) (k : string) (dflt : json) : result json :=
  match v with
  | JObj fields => Ok (default dflt (assoc_get k fields))
  | _ => Raise AttributeError
  end.

(** ** The outside world *)

Inductive url : Type :=
| TokenUrl                         (* STRAVA_TOKEN_URL *)
| AthleteActivitiesUrl             (* {STRAVA_API_BASE}/athlete/activities *)
| ActivityUrl (activity_id : json). (* {STRAVA_API_BASE}/activities/{activity_id} *)

Record Request : Type := mk_request {
  rq_method : string;
  rq_url : url;
  rq_bearer : option json;           (* headers = {"Authorization": f"Bearer {token}"} *)
  rq_data : list (string * json);    (* data = form fields *)
  rq_params : list (string * json);  (* params = query string *)
  rq_json : list (string * json)     (* json = body *)
}.

Record Response : Type := mk_response {
  status_code : Z;
  headers : gmap string string;      (* under the names the code asks for *)
  payload : option json              (* [None]: the body is not JSON *)
}.

Inductive outcome : Type :=
| Responds (r : Response)
| Unreachable.                       (* [requests] raises *)

Inductive event : Type :=
| Sent (rq : Request)
| Slept (us : Z)
| Stored (field : string) (value : json).

(** What a run sees of its environment: the answers the provider will
    give, in order (a request beyond them finds the network down); the
    wall clock, in microseconds, moved on by sleeping only; the Firestore
    document [auth/strava_config] with the calls that will fail; and the
    effects performed so far, oldest first. *)
Record World : Type := mk_world {
  provider : list outcome;
  clock : Z;
  firestore_doc : option (gmap string json);
  firestore_faults : list bool;
  trace : list event
}.

(** The world once a request has gone out: the provider's next answer is
    used up. *)
Definition after_send (rq : Request) (w : World) : World :=
  {| provider := tail (provider w); clock := clock w;
     firestore_doc := firestore_doc w; firestore_faults := firestore_faults w;
     trace := trace w ++ [Sent rq] |}.

(** The world once the program has slept. *)
Definition after_sleep (us : Z) (w : World) : World :=
  {| provider := provider w; clock := clock w + us;
     firestore_doc := firestore_doc w; firestore_faults := firestore_faults w;
     trace := trace w ++ [Slept us] |}.

(** [requests.request(method, url, **kwargs)]. *)
Definition requests_request (rq : Request) : M World Response :=
  fun w =>
    (after_send rq w,
     match provider w with
     | Responds r :: _ => Ok r
     | Unreachable :: _ => Raise ConnectionError
     | [] => Raise ConnectionError
     end).

(** [response.json()]. *)
Definition response_json (r : Response) : result json :=
  match payload r with
  | Some v => Ok v
  | None => Raise ValueError
  end.

(** [datetime.now()]. *)
Definition datetime_now : M World datetime := gets (fun w => of_us (clock w)).

(** [time.sleep] of a number of microseconds. *)
Definition time_sleep (us : Z) : M World unit := modify (after_sleep us).

(** The requests of a trace, oldest first. *)
Definition requests_of (tr : list event) : list Request :=
  omap (fun e => match e with Sent rq => Some rq | _ => None end) tr.

(** The rename writes of a trace. *)
Definition writes_of (tr : list event) : list Request :=
  List.filter (fun rq => String.eqb (rq_method rq) "PUT") (requests_of tr).

(** ** What the two programs write alike *)

(** The hour test of [determine_activity_name], the same in both files
    up to the three labels. *)
Definition name_for_hour (morning lunch evening : string) (hour : Z) : string :=
  if (4 <=? hour) && (hour <? 11) then morning
  else if (11 <=? hour) && (hour <? 14) then lunch
  else evening.

(** The rename write: [PUT {STRAVA_API_BASE}/activities/{activity_id}] with
    the bearer token and the body [{"name": new_name}]. *)
Definition rename_request (tok activity_id : json) (new_name : string) : Request :=
  {| rq_method := "PUT"; rq_url := ActivityUrl activity_id; rq_bearer := Some tok;
     rq_data := []; rq_params := []; rq_json := [("name", JStr new_name)] |}.

(** ** backfill_activities.py *)

Module Backfill.

(** [REQUEST_DELAY = 0.2] seconds, in microseconds. *)
Definition REQUEST_DELAY : Z := 200000.
Definition MAX_RETRIES : nat := 3.
Definition RATE_LIMIT_BUFFER : Z := 5.

Record Stats : Type := mk_stats {
  total_fetched : Z;
  walks_found : Z;
  already_named : Z;
  to_rename : Z;
  renamed : Z;
  errors : Z
}.

Record Backfiller : Type := mk_backfiller {
  client_id : string;
  client_secret : string;
  refresh_token : string;
  timezone : string;
  dry_run : bool;
  access_token : json;
  stats : Stats
}.

(** [StravaBackfiller.__init__]. *)
Definition __init__ (client_id client_secret refresh_token timezone : string)
    (dry_run : bool) : Backfiller :=
  {| client_id := client_id; client_secret := client_secret;
     refresh_token := refresh_token; timezone := timezone;
     dry_run := dry_run; access_token := JNull;
     stats := mk_stats 0 0 0 0 0 0 |}.

(** The object and the world it runs in. *)
Record Run : Type := mk_run {
  self : Backfiller;
  world : World
}.

Definition with_world (w : World) (r : Run) : Run :=
  {| self := self r; world := w |}.

(** A computation on the world alone, run inside a method. *)
Definition io {A} (m : M World A) : M Run A :=
  fun r => let '(w, a) := m (world r) in (with_world w r, a).

(** [self.stats[...] = ...], through a function on the counters. *)
Definition with_stats (f : Stats -> Stats) (r : Run) : Run :=
  let b := self r in
  {| self := {| client_id := client_id b; client_secret := client_secret b;
                refresh_token := refresh_token b; timezone := timezone b;
                dry_run := dry_run b; access_token := access_token b;
                stats := f (stats b) |};
     world := world r |}.

Definition set_stats (f : Stats -> Stats) : M Run unit := modify (with_stats f).

(** [self.access_token = tok]. *)
Definition with_access_token (tok : json) (r : Run) : Run :=
  let b := self r in
  {| self := {| client_id := client_id b; client_secret := client_secret b;
                refresh_token := refresh_token b; timezone := timezone b;
                dry_run := dry_run b; access_token := tok;
                stats := stats b |};
     world := world r |}.

Definition set_access_token (tok : json) : M Run unit := modify (with_access_token tok).

Definition bump_walks_found (s : Stats) : Stats :=
  mk_stats (total_fetched s) (walks_found s + 1) (already_named s)
           (to_rename s) (renamed s) (errors s).
Definition bump_already_named (s : Stats) : Stats :=
  mk_stats (total_fetched s) (walks_found s) (already_named s + 1)
           (to_rename s) (renamed s) (errors s).
Definition bump_to_rename (s : Stats) : Stats :=
  mk_stats (total_fetched s) (walks_found s) (already_named s)
           (to_rename s + 1) (renamed s) (errors s).
Definition bump_renamed (s : Stats) : Stats :=
  mk_stats (total_fetched s) (walks_found s) (already_named s)
           (to_rename s) (renamed s + 1) (errors s).
Definition bump_errors (s : Stats) : Stats :=
  mk_stats (total_fetched s) (walks_found s) (already_named s)
           (to_rename s) (renamed s) (errors s + 1).
Definition with_total_fetched (n : Z) (s : Stats) : Stats :=
  mk_stats n (walks_found s) (already_named s)
           (to_rename s) (renamed s) (errors s).

(** *** Rate-limit headers *)

(** [result[k] = v] on the snapshot being built. *)
Definition record_field (k : string) (v : Z) : M (gmap string Z) unit :=
  modify (fun result => <[k := v]> result).

(** [xs[i]] on a list. *)
Definition subscript (xs : list string) (i : nat) : result string :=
  match xs !! i with
  | Some x => Ok x
  | None => Raise IndexError
  end.

(** One of the four blocks of [_parse_rate_limit_headers]: read the
    header, and when it is not empty store its two numbers. *)
Definition parse_pair (headers : gmap string string) (name k0 k1 : string)
  : M (gmap string Z) unit :=
  let value := default "" (headers !! name) in
  if negb (String.eqb value "") then
    let parts := str_split "," value in
    p0 ← lift (subscript parts 0);
    n0 ← lift (py_int p0);
    record_field k0 n0;;
    p1 ← lift (subscript parts 1);
    n1 ← lift (py_int p1);
    record_field k1 n1
  else mret tt.

(** [StravaBackfiller._parse_rate_limit_headers]: the four blocks inside
    one [try], and [except (ValueError, IndexError): pass]. *)
Definition _parse_rate_limit_headers (headers : gmap string string)
  : result (gmap string Z) :=
  let body : M (gmap string Z) unit :=
    parse_pair headers "X-RateLimit-Limit"
               "overall_15min_limit" "overall_daily_limit";;
    parse_pair headers "X-RateLimit-Usage"
               "overall_15min_usage" "overall_daily_usage";;
    parse_pair headers "X-ReadRateLimit-Limit"
               "read_15min_limit" "read_daily_limit";;
    parse_pair headers "X-ReadRateLimit-Usage"
               "read_15min_usage" "read_daily_usage" in
  let handler (e : exn) : M (gmap string Z) unit :=
    match e with
    | ValueError | IndexError => mret tt
    | _ => raise e
    end in
  let '(result, r) := try_except body handler ∅ in
  _ ← r; Ok result.

(** *** The reset window *)

Definition next_reset_minute_of (current_minute : Z) : Z :=
  if current_minute <? 15 then 15
  else if current_minute <? 30 then 30
  else if current_minute <? 45 then 45
  else 0.

(** [now.replace(minute=m, second=0, microsecond=0)]. *)
Definition replace_minute (now : datetime) (m : Z) : datetime :=
  {| toordinal := toordinal now; hour := hour now;
     minute := m; second := 0; microsecond := 0 |}.

(** The body of [_calculate_next_reset_time] once the clock is read. *)
Definition next_reset_from (now : datetime) : datetime * Z :=
  let current_minute := minute now in
  let next_reset_minute := next_reset_minute_of current_minute in
  let next_reset :=
    if next_reset_minute =? 0
    then dt_add (replace_minute now 0) 3600000000   (* + timedelta(hours=1) *)
    else replace_minute now next_reset_minute in
  (next_reset, int_total_seconds next_reset now).

(** [StravaBackfiller._calculate_next_reset_time]. *)
Definition _calculate_next_reset_time : M World (datetime * Z) :=
  now ← datetime_now;
  mret (next_reset_from now).

(** *** Requests with retry *)

(** [d[k]] on the snapshot. *)
Definition item (d : gmap string Z) (k : string) : result Z :=
  match d !! k with
  | Some v => Ok v
  | None => Raise KeyError
  end.

(** The three conditional progress lines printed on a 429: each looks at
    a usage field with [.get] and then formats usage and limit with
    [limits[...]]. *)
Definition print_limits (limits : gmap string Z) : result unit :=
  (if bool_decide (is_Some (limits !! "overall_15min_usage")) then
     _ ← item limits "overall_15min_usage";
     _ ← item limits "overall_15min_limit"; Ok tt
   else Ok tt);;
  (if bool_decide (is_Some (limits !! "read_15min_usage")) then
     _ ← item limits "read_15min_usage";
     _ ← item limits "read_15min_limit"; Ok tt
   else Ok tt);;
  (if bool_decide (is_Some (limits !! "read_daily_usage")) then
     _ ← item limits "read_daily_usage";
     _ ← item limits "read_daily_limit"; Ok tt
   else Ok tt).

(** The loop [for attempt in range(MAX_RETRIES)]; [last] is the variable
    [response] as the previous round left it. *)
Fixpoint retry_loop (attempts : list nat) (last : option Response)
    (rq : Request) : M World Response :=
  match attempts with
  | [] =>
      match last with
      | Some response => mret response
      | None => raise UnboundLocalError
      end
  | _attempt :: rest =>
      response ← requests_request rq;
      if status_code response =? 429 then
        limits ← lift (_parse_rate_limit_headers (headers response));
        '(next_reset, seconds_until_reset) ← _calculate_next_reset_time;
        let wait_time := seconds_until_reset + RATE_LIMIT_BUFFER in
        _now ← datetime_now;
        lift (print_limits limits);;
        time_sleep (wait_time * 1000000);;
        retry_loop rest (Some response) rq
      else mret response
  end.

(** [StravaBackfiller._make_request_with_retry]. *)
Definition _make_request_with_retry (rq : Request) : M World Response :=
  retry_loop (seq 0 MAX_RETRIES) None rq.

(** *** Token, listing, naming, renaming *)

(** [StravaBackfiller.get_access_token]. *)
Definition get_access_token : M Run json :=
  b ← gets self;
  response ← io (_make_request_with_retry
    {| rq_method := "POST"; rq_url := TokenUrl; rq_bearer := None;
       rq_data := [("client_id", JStr (client_id b));
                   ("client_secret", JStr (client_secret b));
                   ("grant_type", JStr "refresh_token");
                   ("refresh_token", JStr (refresh_token b))];
       rq_params := []; rq_json := [] |});
  if negb (status_code response =? 200) then
    raise (Failure "Failed to refresh token" (status_code response))
  else
    token_data ← lift (response_json response);
    tok ← lift (py_get token_data "access_token" JNull);
    set_access_token tok;;
    mret tok.

(** The request one round of [fetch_activities] sends. *)
Definition page_request (tok : json) (after_timestamp per_page page : Z) : Request :=
  {| rq_method := "GET"; rq_url := AthleteActivitiesUrl; rq_bearer := Some tok;
     rq_data := [];
     rq_params := [("after", JNum after_timestamp); ("per_page", JNum per_page);
                   ("page", JNum page)];
     rq_json := [] |}.

(** [activities.extend(page_activities)]: a list gives its items, a dict
    its keys, a string its characters; nothing else can be iterated. *)
Definition extend (activities : list json) (page_activities : json)
  : result (list json) :=
  match page_activities with
  | JArr items => Ok (activities ++ items)
  | JObj fields => Ok (activities ++ List.map (fun kv => JStr (fst kv)) fields)
  | JStr s => Ok (activities ++ List.map (fun c => JStr (String c "")) (chars s))
  | _ => Raise TypeError
  end.

(** One round of the [while True] loop of [fetch_activities]: [inr] is the
    [break], [inl] carries the list on to the next round. *)
Definition fetch_round (after_timestamp per_page page : Z) (activities : list json)
  : M Run (list json + list json) :=
  tok ← gets (fun r => access_token (self r));
  response ← io (_make_request_with_retry
                   (page_request tok after_timestamp per_page page));
  if negb (status_code response =? 200) then
    raise (Failure "Failed to fetch activities" (status_code response))
  else
    page_activities ← lift (response_json response);
    if negb (truthy page_activities) then mret (inr activities)
    else
      activities' ← lift (extend activities page_activities);
      io (time_sleep REQUEST_DELAY);;
      mret (inl activities').

(** The loop itself; [None] when the rounds allowed by [fuel] are used
    up. *)
Fixpoint fetch_loop (fuel : nat) (after_timestamp per_page page : Z)
    (activities : list json) (r : Run) : option (Run * result (list json)) :=
  match fuel with
  | O => None
  | S fuel' =>
      match fetch_round after_timestamp per_page page activities r with
      | (r', Ok (inl activities')) =>
          fetch_loop fuel' after_timestamp per_page (page + 1) activities' r'
      | (r', Ok (inr final)) => Some (r', Ok final)
      | (r', Raise e) => Some (r', Raise e)
      end
  end.

(** [StravaBackfiller.fetch_activities]; [after_timestamp] is
    [int(after.timestamp())]. *)
Definition fetch_activities (fuel : nat) (after_timestamp per_page : Z) (r : Run)
  : option (Run * result (list json)) :=
  match fetch_loop fuel after_timestamp per_page 1 [] r with
  | None => None
  | Some (r', Raise e) => Some (r', Raise e)
  | Some (r', Ok activities) =>
      Some ((set_stats (with_total_fetched (Z.of_nat (List.length activities)));;
             mret activities) r')
  end.

(** The default of the parameter [per_page]. *)
Definition default_per_page : Z := 100.

Definition MORNING : string := "Morning Shakeout 🐕‍🦺".
Definition LUNCH : string := "Lunch Break Sniffari 👃🐕‍🦺".
Definition EVENING : string := "Evening Patrol 🐕‍🦺".

(** [StravaBackfiller.determine_activity_name]; the argument is what
    [activity.get("start_date_local")] gave, and only a [str] has
    [.replace]. *)
Definition determine_activity_name (start_date_local : json) : result string :=
  match start_date_local with
  | JStr s =>
      dt ← fromisoformat (str_remove "Z" s);
      Ok (name_for_hour MORNING LUNCH EVENING (hour dt))
  | _ => Raise AttributeError
  end.

(** [StravaBackfiller.is_already_dog_named]: one of the keywords occurs in
    the name.  Nothing calls it. *)
Definition is_already_dog_named (name : string) : bool :=
  let dog_keywords := ["Dog Patrol"; "Sniffari"; "🐕"; "👃"] in
  existsb (fun keyword => bool_decide (is_Some (String.index 0 keyword name))) dog_keywords.

(** [StravaBackfiller.update_activity_name]. *)
Definition update_activity_name (activity_id : json) (new_name : string) : M Run bool :=
  tok ← gets (fun r => access_token (self r));
  response ← io (_make_request_with_retry (rename_request tok activity_id new_name));
  if negb (status_code response =? 200) then mret false else mret true.

(** The body of the [for] loop of [process_activities]. *)
Definition process_activity (activity : json) : M Run unit :=
  activity_id ← lift (py_get activity "id" JNull);
  activity_type ← lift (py_get activity "type" JNull);
  trainer ← lift (py_get activity "trainer" (JBool false));
  old_name ← lift (py_get activity "name" (JStr "Unnamed"));
  start_date ← lift (py_get activity "start_date_local" JNull);
  if negb (eq_str activity_type "Walk") then mret tt
  else
    set_stats bump_walks_found;;
    if truthy trainer then mret tt
    else
      new_name ← lift (determine_activity_name start_date);
      if eq_str old_name new_name then set_stats bump_already_named
      else
        _dt ← lift (match start_date with
                    | JStr s => fromisoformat (str_remove "Z" s)
                    | _ => Raise AttributeError
                    end);
        set_stats bump_to_rename;;
        dry ← gets (fun r => dry_run (self r));
        if negb dry then
          ok ← update_activity_name activity_id new_name;
          (if (ok : bool) then set_stats bump_renamed else set_stats bump_errors);;
          io (time_sleep REQUEST_DELAY)
        else mret tt.

(** [StravaBackfiller.process_activities]. *)
Fixpoint process_activities (activities : list json) : M Run unit :=
  match activities with
  | [] => mret tt
  | activity :: rest => process_activity activity;; process_activities rest
  end.

(** *** The run *)

(** [main], from the construction of the object on: the body of its last
    [try], lines 453 to 491.  The credentials are the ones [main] has
    settled on, [after_timestamp] is [int(after.timestamp())]; the result
    [Raise] is the branch that prints the error and exits with status 1.
    [print_summary] only prints. *)
Definition main_run (fuel : nat) (client_id client_secret refresh_token timezone : string)
    (dry_run : bool) (after_timestamp : Z) (w : World) : option (Run * result unit) :=
  let backfiller := __init__ client_id client_secret refresh_token timezone dry_run in
  match get_access_token (mk_run backfiller w) with
  | (r1, Raise e) => Some (r1, Raise e)
  | (r1, Ok _) =>
      match fetch_activities fuel after_timestamp default_per_page r1 with
      | None => None
      | Some (r2, Raise e) => Some (r2, Raise e)
      | Some (r2, Ok activities) =>
          if negb (truthy (JArr activities)) then Some (r2, Ok tt)
          else Some (process_activities activities r2)
      end
  end.

End Backfill.

(** ** main.py *)

Module Main.

(** The three labels, byte for byte as the file has them. *)
Definition MORNING : string := "Morning Shakeout ğŸ•â€ğŸ¦º".
Definition LUNCH : string := "Lunch Break Sniffari ğŸ‘ƒğŸ•â€ğŸ¦º".
Definition EVENING : string := "Evening Patrol ğŸ•â€ğŸ¦º".

(** [determine_activity_name]. *)
Definition determine_activity_name (start_date_local : json) : result string :=
  match start_date_local with
  | JStr s =>
      dt ← fromisoformat (str_remove "Z" s);
      Ok (name_for_hour MORNING LUNCH EVENING (hour dt))
  | _ => Raise AttributeError
  end.

(** The inbound HTTP request: [request.method], [request.args] and
    [request.get_json(silent=True)], which is [None] when there is no
    JSON body. *)
Record HttpRequest : Type := mk_http_request {
  http_method : string;
  args : gmap string string;
  get_json : json
}.

Inductive body : Type :=
| Text (s : string)
| JsonDumps (fields : list (string * json)).

(** The tuple a handler returns: body and status. *)
Definition Reply : Type := body * Z.

Definition OK : Reply := (Text "OK", 200).

(** The world once a Firestore call has been made: its fault flag is
    used up. *)
Definition after_firestore_call (w : World) : World :=
  {| provider := provider w; clock := clock w;
     firestore_doc := firestore_doc w; firestore_faults := tail (firestore_faults w);
     trace := trace w |}.

(** One call to the Firestore client, which may fail. *)
Definition firestore_call : M World unit :=
  fun w =>
    (after_firestore_call w,
     match firestore_faults w with
     | true :: _ => Raise FirestoreError
     | _ => Ok tt
     end).

(** [get_firestore_config]. *)
Definition get_firestore_config : M World (gmap string json) :=
  firestore_call;;
  doc ← gets firestore_doc;
  match doc with
  | Some config => mret config
  | None => raise ValueError
  end.

(** The world once a field of the document has been written. *)
Definition after_store (field : string) (value : json) (config : gmap string json)
    (w : World) : World :=
  {| provider := provider w; clock := clock w;
     firestore_doc := Some (<[field := value]> config);
     firestore_faults := firestore_faults w;
     trace := trace w ++ [Stored field value] |}.

(** [update_firestore_config]. *)
Definition update_firestore_config (field : string) (value : json) : M World unit :=
  firestore_call;;
  doc ← gets firestore_doc;
  match doc with
  | Some config => modify (after_store field value config)
  | None => raise FirestoreError
  end.

Section Environment.

(** [os.environ.get("STRAVA_CLIENT_ID")] and
    [os.environ.get("STRAVA_CLIENT_SECRET")], read once at import. *)
Variables STRAVA_CLIENT_ID STRAVA_CLIENT_SECRET : option string.

Definition env_json (v : option string) : json :=
  match v with
  | Some s => JStr s
  | None => JNull
  end.

(** [get_access_token]. *)
Definition get_access_token : M World json :=
  config ← get_firestore_config;
  let refresh_token := default JNull (config !! "refresh_token") in
  if negb (truthy refresh_token) then raise ValueError
  else if negb (truthy (env_json STRAVA_CLIENT_ID))
          || negb (truthy (env_json STRAVA_CLIENT_SECRET)) then raise ValueError
  else
    response ← requests_request
      {| rq_method := "POST"; rq_url := TokenUrl; rq_bearer := None;
         rq_data := [("client_id", env_json STRAVA_CLIENT_ID);
                     ("client_secret", env_json STRAVA_CLIENT_SECRET);
                     ("grant_type", JStr "refresh_token");
                     ("refresh_token", refresh_token)];
         rq_params := []; rq_json := [] |};
    if negb (status_code response =? 200) then
      raise (Failure "Failed to refresh token" (status_code response))
    else
      token_data ← lift (response_json response);
      new_access_token ← lift (py_get token_data "access_token" JNull);
      new_refresh_token ← lift (py_get token_data "refresh_token" JNull);
      (if truthy new_refresh_token && negb (py_eq new_refresh_token refresh_token)
       then update_firestore_config "refresh_token" new_refresh_token
       else mret tt);;
      mret new_access_token.

(** [get_activity_details]. *)
Definition get_activity_details (activity_id access_token : json) : M World json :=
  response ← requests_request
    {| rq_method := "GET"; rq_url := ActivityUrl activity_id;
       rq_bearer := Some access_token;
       rq_data := []; rq_params := []; rq_json := [] |};
  if negb (status_code response =? 200) then
    raise (Failure "Failed to fetch activity" (status_code response))
  else lift (response_json response).

(** [update_activity_name]. *)
Definition update_activity_name (activity_id : json) (new_name : string)
    (access_token : json) : M World unit :=
  response ← requests_request
    (rename_request access_token activity_id new_name);
  if negb (status_code response =? 200) then
    raise (Failure "Failed to update activity" (status_code response))
  else mret tt.

(** [request.args.get(k)] seen as a Python value. *)
Definition arg (request : HttpRequest) (k : string) : json :=
  env_json (args request !! k).

(** [handle_webhook_verification]. *)
Definition handle_webhook_verification (request : HttpRequest) : M World Reply :=
  let hub_mode := arg request "hub.mode" in
  let hub_challenge := arg request "hub.challenge" in
  let hub_verify_token := arg request "hub.verify_token" in
  if negb (truthy hub_mode && truthy hub_challenge && truthy hub_verify_token)
  then mret (Text "Bad Request", 400)
  else
    try_except
      (config ← get_firestore_config;
       let stored_verify_token := default JNull (config !! "verify_token") in
       if negb (truthy stored_verify_token)
       then mret (Text "Internal Server Error", 500)
       else if negb (py_eq hub_verify_token stored_verify_token)
       then mret (Text "Forbidden", 403)
       else mret (JsonDumps [("hub.challenge", hub_challenge)], 200))
      (fun _ => mret (Text "Internal Server Error", 500)).

(** [handle_event_processing].  A [try] whose [except] returns is a
    computation that yields [None] for the early return. *)
Definition handle_event_processing (request : HttpRequest) : M World Reply :=
  try_except
    (let event_data := get_json request in
     if negb (truthy event_data) then mret OK
     else
       aspect_type ← lift (py_get event_data "aspect_type" JNull);
       if negb (eq_str aspect_type "create") then mret OK
       else
         object_id ← lift (py_get event_data "object_id" JNull);
         if negb (truthy object_id) then mret OK
         else
           got_token ← try_except (tok ← get_access_token; mret (Some tok))
                                  (fun _ => mret None);
           match got_token with
           | None => mret OK
           | Some access_token =>
               got_activity ←
                 try_except (a ← get_activity_details object_id access_token;
                             mret (Some a))
                            (fun _ => mret None);
               match got_activity with
               | None => mret OK
               | Some activity =>
                   activity_type ← lift (py_get activity "type" JNull);
                   if negb (eq_str activity_type "Walk") then mret OK
                   else
                     trainer ← lift (py_get activity "trainer" (JBool false));
                     if truthy trainer then mret OK
                     else
                       _old_name ← lift (py_get activity "name" (JStr "Unnamed"));
                       start_date_local ←
                         lift (py_get activity "start_date_local" JNull);
                       if negb (truthy start_date_local) then mret OK
                       else
                         new_name ← lift (determine_activity_name start_date_local);
                         try_except
                           (update_activity_name object_id new_name access_token;;
                            mret OK)
                           (fun _ => mret OK)
               end
           end)
    (fun _ => mret OK).

(** [strava_webhook]. *)
Definition strava_webhook (request : HttpRequest) : M World Reply :=
  try_except
    (if String.eqb (http_method request) "GET"
     then handle_webhook_verification request
     else if String.eqb (http_method request) "POST"
     then handle_event_processing request
     else mret (Text "Method not allowed", 405))
    (fun _ => mret OK).

End Environment.

End Main.

(** * The command line of [backfill_activities.py] *)

Module Script.

(** What [argparse] gives for the three credential flags: [None] for a
    flag that is not there. *)
Record Args : Type := mk_args {
  arg_client_id : option string;
  arg_client_secret : option string;
  arg_refresh_token : option string
}.

(** The dict [get_credentials_from_firestore] returns. *)
Record Credentials : Type := mk_credentials {
  refresh_token : json;
  client_id : option string;
  client_secret : option string
}.

(** [a or b]. *)
Definition py_or (a b : json) : json := if truthy a then a else b.

Section Environment.

(** Whether the Firestore library could be imported, and
    [os.environ.get] of the two variables. *)
Variable FIRESTORE_AVAILABLE : bool.
Variables STRAVA_CLIENT_ID STRAVA_CLIENT_SECRET : option string.

(** [get_credentials_from_firestore]; [None] when it raises, and its one
    caller treats every exception alike.  Making the client and reading
    the document are the two calls that can fail. *)
Definition get_credentials_from_firestore (w : World) : World * option Credentials :=
  if negb FIRESTORE_AVAILABLE then (w, None)
  else
    match Main.firestore_call w with
    | (w1, Raise _) => (w1, None)
    | (w1, Ok _) =>
        match Main.firestore_call w1 with
        | (w2, Raise _) => (w2, None)
        | (w2, Ok _) =>
            match firestore_doc w2 with
            | None => (w2, None)
            | Some config =>
                (w2, Some {| refresh_token := default JNull (config !! "refresh_token");
                             client_id := STRAVA_CLIENT_ID;
                             client_secret := STRAVA_CLIENT_SECRET |})
            end
        end
    end.

(** The credentials block of [main], lines 427 to 450: the three values
    the run is started with, or [None] where the script leaves with
    [sys.exit(1)]. *)
Definition main_credentials (args : Args) (w : World)
  : World * option (json * json * json) :=
  let flag_id := Main.env_json (arg_client_id args) in
  let flag_secret := Main.env_json (arg_client_secret args) in
  let flag_token := Main.env_json (arg_refresh_token args) in
  if truthy flag_id && truthy flag_secret && truthy flag_token then
    (w, Some (flag_id, flag_secret, flag_token))
  else
    match get_credentials_from_firestore w with
    | (w', None) => (w', None)
    | (w', Some creds) =>
        let client_id := py_or flag_id (Main.env_json (client_id creds)) in
        let client_secret := py_or flag_secret (Main.env_json (client_secret creds)) in
        let refresh_token := py_or flag_token (refresh_token creds) in
        if negb (truthy client_id && truthy client_secret && truthy refresh_token)
        then (w', None)
        else (w', Some (client_id, client_secret, refresh_token))
    end.

End Environment.

End Script.

(** ** Timestamps as the provider writes them *)

Definition digit_char (d : Z) : ascii := ascii_of_N (Z.to_N (48 + d)).

(** [YYYY-MM-DDTHH:MM:SS], with the trailing [Z] when [z] is set. *)
Definition isoformat (y m d hh mm ss : Z) (z : bool) : string :=
  text ([digit_char (y / 1000); digit_char (y / 100 mod 10);
         digit_char (y / 10 mod 10); digit_char (y mod 10); "-"%char;
         digit_char (m / 10); digit_char (m mod 10); "-"%char;
         digit_char (d / 10); digit_char (d mod 10); "T"%char;
         digit_char (hh / 10); digit_char (hh mod 10); ":"%char;
         digit_char (mm / 10); digit_char (mm mod 10); ":"%char;
         digit_char (ss / 10); digit_char (ss mod 10)]
        ++ (if z then ["Z"%char] else [])).

(** What makes [y-m-d hh:mm:ss] a date and time of the calendar. *)
Definition valid_timestamp (y m d hh mm ss : Z) : Prop :=
  1 <= y <= 9999 /\ 1 <= m <= 12 /\ 1 <= d <= days_in_month y m
  /\ 0 <= hh < 24 /\ 0 <= mm < 60 /\ 0 <= ss < 60.

(** A naming function that answers by the hour alone, with the three
    half-open ranges of the policy. *)
Definition names_by_hour (name : result string) (morning lunch evening : string)
    (h : Z) : Prop :=
  exists label, name = Ok label
    /\ (label = morning <-> 4 <= h < 11)
    /\ (label = lunch <-> 11 <= h < 14)
    /\ (label = evening <-> (0 <= h < 4 \/ 14 <= h < 24)).

(** ** Reading one rate-limit header *)

(** What a header value holds for the parser: nothing, two numbers, or
    something else. *)
Inductive reading : Type :=
| Absent
| Pair (n0 n1 : Z)
| Malformed.

Definition reading_of (value : string) : reading :=
  if String.eqb value "" then Absent
  else
    match str_split "," value with
    | p0 :: p1 :: _ =>
        match py_int p0, py_int p1 with
        | Ok n0, Ok n1 => Pair n0 n1
        | _, _ => Malformed
        end
    | _ => Malformed
    end.

Definition header_reading (hs : gmap string string) (name : string) : reading :=
  reading_of (default "" (hs !! name)).

(** The four headers in the order the parser reads them, each with the
    two snapshot fields it fills. *)
Definition header_pairs : list (string * string * string) :=
  [("X-RateLimit-Limit", "overall_15min_limit", "overall_daily_limit");
   ("X-RateLimit-Usage", "overall_15min_usage", "overall_daily_usage");
   ("X-ReadRateLimit-Limit", "read_15min_limit", "read_daily_limit");
   ("X-ReadRateLimit-Usage", "read_15min_usage", "read_daily_usage")].

(** ** The quarter-hour window, as a specification *)

(** [nr] is the first quarter-hour boundary after the minute of [now]:
    minute 15, 30 or 45 of the same hour, or the top of the next hour. *)
Definition next_quarter (now nr : datetime) : Prop :=
  second nr = 0 /\ microsecond nr = 0
  /\ (minute now < 15 ->
      toordinal nr = toordinal now /\ hour nr = hour now /\ minute nr = 15)
  /\ (15 <= minute now < 30 ->
      toordinal nr = toordinal now /\ hour nr = hour now /\ minute nr = 30)
  /\ (30 <= minute now < 45 ->
      toordinal nr = toordinal now /\ hour nr = hour now /\ minute nr = 45)
  /\ (45 <= minute now ->
      minute nr = 0 /\ hour nr = (hour now + 1) mod 24
      /\ to_us nr = to_us (mk_datetime (toordinal now) (hour now) 0 0 0) + 3600000000).

(** The parse and the progress lines a 429 answer goes through before the
    sleep. *)
Definition diagnostics (r : Response) : result unit :=
  limits ← Backfill._parse_rate_limit_headers (headers r);
  Backfill.print_limits limits.

(** The seconds slept on a 429 seen at clock [c]. *)
Definition wait_time_at (c : Z) : Z :=
  snd (Backfill.next_reset_from (of_us c)) + Backfill.RATE_LIMIT_BUFFER.

(** The world after one 429 round: the request went out, then the sleep. *)
Definition backoff (rq : Request) (w : World) : World :=
  after_sleep (wait_time_at (clock w) * 1000000) (after_send rq w).

(** What any run of the retry loop does to the world: it sends the same
    request between once and once per attempt, uses up as many provider
    answers, only moves the clock forward and never touches Firestore. *)
Definition retry_frame (rq : Request) (budget : nat) (w w' : World) : Prop :=
  exists n : nat,
    (n <= budget)%nat
    /\ (0 < budget -> 0 < n)%nat
    /\ requests_of (trace w') = requests_of (trace w) ++ replicate n rq
    /\ provider w' = drop n (provider w)
    /\ firestore_doc w' = firestore_doc w
    /\ firestore_faults w' = firestore_faults w
    /\ clock w <= clock w'.

(** ** Reading the batch processor *)

(** [activity.get(k, dflt)] on the items of an activity. *)
Definition field (fields : list (string * json)) (k : string) (dflt : json) : json :=
  default dflt (assoc_get k fields).

(** The counters of a run. *)
Definition stats_of (r : Backfill.Run) : Backfill.Stats := Backfill.stats (Backfill.self r).
(** ** Reading the event path *)

(** The inbound event announces the creation of the object [object_id]. *)
Definition create_event (request : Main.HttpRequest) (object_id : json) : Prop :=
  exists ev,
    Main.get_json request = JObj ev
    /\ eq_str (field ev "aspect_type" JNull) "create" = true
    /\ field ev "object_id" JNull = object_id
    /\ truthy object_id = true.

(** ** Run statistics, as a specification *)

(** Counters as a run finds them before processing: the five processing
    counters at zero ([total_fetched] may already hold the number
    fetched). *)
Definition fresh_stats (s : Backfill.Stats) : Prop :=
  0 <= Backfill.total_fetched s /\ Backfill.walks_found s = 0
  /\ Backfill.already_named s = 0 /\ Backfill.to_rename s = 0
  /\ Backfill.renamed s = 0 /\ Backfill.errors s = 0.

(** No counter of [s'] is below its value in [s]. *)
Definition stats_le (s s' : Backfill.Stats) : Prop :=
  Backfill.total_fetched s <= Backfill.total_fetched s'
  /\ Backfill.walks_found s <= Backfill.walks_found s'
  /\ Backfill.already_named s <= Backfill.already_named s'
  /\ Backfill.to_rename s <= Backfill.to_rename s'
  /\ Backfill.renamed s <= Backfill.renamed s'
  /\ Backfill.errors s <= Backfill.errors s'.

(** The relations between the counters after [n] activities. *)
Definition stats_inv (n : Z) (s : Backfill.Stats) : Prop :=
  0 <= Backfill.total_fetched s /\ 0 <= Backfill.walks_found s
  /\ 0 <= Backfill.already_named s /\ 0 <= Backfill.to_rename s
  /\ 0 <= Backfill.renamed s /\ 0 <= Backfill.errors s
  /\ Backfill.already_named s + Backfill.to_rename s <= Backfill.walks_found s
  /\ Backfill.walks_found s <= n
  /\ Backfill.renamed s + Backfill.errors s <= Backfill.to_rename s.

(** How the counters may move while [k] activities are processed. *)
Definition stats_step (k : Z) (s s' : Backfill.Stats) : Prop :=
  Backfill.total_fetched s' = Backfill.total_fetched s
  /\ stats_le s s'
  /\ Backfill.walks_found s' - Backfill.walks_found s <= k
  /\ (Backfill.already_named s' - Backfill.already_named s)
     + (Backfill.to_rename s' - Backfill.to_rename s)
     <= Backfill.walks_found s' - Backfill.walks_found s
  /\ (Backfill.renamed s' - Backfill.renamed s)
     + (Backfill.errors s' - Backfill.errors s)
     <= Backfill.to_rename s' - Backfill.to_rename s.

(** ** Pages, as a specification *)

(** The answer that carries one page of activities. *)
Definition page_response (hs : gmap string string) (items : list json) : Response :=
  mk_response 200 hs (Some (JArr items)).

(** The provider's script for a listing: the pages in order, each with
    its headers, then the empty page. *)
Definition listing (pages : list (gmap string string * list json))
    (hs_last : gmap string string) (rest : list outcome) : list outcome :=
  List.map (fun p => Responds (page_response p.1 p.2)) pages
  ++ Responds (page_response hs_last []) :: rest.

(** The requests for pages [first], [first + 1], ... ([count] of them). *)
Definition page_requests (tok : json) (after_timestamp per_page first : Z) (count : nat)
  : list Request :=
  List.map (fun i => Backfill.page_request tok after_timestamp per_page (first + Z.of_nat i))
           (seq 0 count).

(** ** Reading the token refresh *)

(** The form the event path posts to the token endpoint. *)
Definition token_request (cid sec : option string) (refresh_token : json) : Request :=
  {| rq_method := "POST"; rq_url := TokenUrl; rq_bearer := None;
     rq_data := [("client_id", Main.env_json cid);
                 ("client_secret", Main.env_json sec);
                 ("grant_type", JStr "refresh_token");
                 ("refresh_token", refresh_token)];
     rq_params := []; rq_json := [] |}.

(** The refresh token the provider sent back is one to keep: it is there
    and it is not the one that was sent. *)
Definition rotated (returned sent : json) : bool :=
  truthy returned && negb (py_eq returned sent).

(** ** The acknowledgment, as a specification *)

(** A handler that, when it returns at all, returns [("OK", 200)]. *)
Definition answers_OK (m : M World Main.Reply) : Prop :=
  forall w : World,
    match (m w).2 with
    | Ok reply => reply = Main.OK
    | Raise _ => True
    end.

(** ** Reading the webhook *)

(** The subscription handshake carries all it needs for the challenge
    [challenge] to be echoed: three non-empty parameters, a Firestore
    read that works, and a stored [verify_token] equal to the one sent. *)
Definition handshake_ok (request : Main.HttpRequest) (w : World) (challenge : string)
  : Prop :=
  exists (mode token : string) (config : gmap string json),
    Main.args request !! "hub.mode" = Some mode /\ mode <> ""
    /\ Main.args request !! "hub.challenge" = Some challenge /\ challenge <> ""
    /\ Main.args request !! "hub.verify_token" = Some token /\ token <> ""
    /\ head (firestore_faults w) <> Some true
    /\ firestore_doc w = Some config
    /\ config !! "verify_token" = Some (JStr token).

(** The object a POST announces as created, if it does: the body is a
    dict, its [aspect_type] is ["create"] and its [object_id] is truthy. *)
Definition event_object (request : Main.HttpRequest) : option json :=
  match Main.get_json request with
  | JObj ev =>
      if eq_str (field ev "aspect_type" JNull) "create"
         && truthy (field ev "object_id" JNull)
      then Some (field ev "object_id" JNull)
      else None
  | _ => None
  end.

(** The request [get_activity_details] sends. *)
Definition details_request (tok activity_id : json) : Request :=
  {| rq_method := "GET"; rq_url := ActivityUrl activity_id; rq_bearer := Some tok;
     rq_data := []; rq_params := []; rq_json := [] |}.

(** ** Reading the retry wrapper *)


(** The answer carries both limit headers, with some content. *)
Definition advertises_limits (r : Response) : Prop :=
  (exists v, headers r !! "X-RateLimit-Limit" = Some v /\ v <> "")
  /\ (exists v, headers r !! "X-ReadRateLimit-Limit" = Some v /\ v <> "").

(** Every answer the provider has in store carries both limit headers. *)
Definition provider_advertises_limits (w : World) : Prop :=
  forall r, Responds r ∈ provider w -> advertises_limits r.

(** ** Reading a batch *)

(** The activity is a dict whose type is exactly ["Walk"]. *)
Definition is_walk (a : json) : bool :=
  match a with
  | JObj fields => eq_str (field fields "type" JNull) "Walk"
  | _ => false
  end.

(** The activity is a walk whose indoor flag is not set. *)
Definition is_outdoor_walk (a : json) : bool :=
  match a with
  | JObj fields =>
      eq_str (field fields "type" JNull) "Walk"
      && negb (truthy (field fields "trainer" (JBool false)))
  | _ => false
  end.

(** [rq] renames, with the token [tok], an outdoor walk of [l] to the
    name computed for it, which its current name is not. *)
Definition renames_one_of (tok : json) (l : list json) (rq : Request) : Prop :=
  exists (fields : list (string * json)) (name : string),
    JObj fields ∈ l
    /\ is_outdoor_walk (JObj fields) = true
    /\ Backfill.determine_activity_name (field fields "start_date_local" JNull) = Ok name
    /\ eq_str (field fields "name" (JStr "Unnamed")) name = false
    /\ name ∈ [Backfill.MORNING; Backfill.LUNCH; Backfill.EVENING]
    /\ rq = rename_request tok (field fields "id" JNull) name.

(** ** Reading a run of the batch script *)

(** The form the batch script posts to the token endpoint. *)
Definition backfill_token_request (b : Backfill.Backfiller) : Request :=
  {| rq_method := "POST"; rq_url := TokenUrl; rq_bearer := None;
     rq_data := [("client_id", JStr (Backfill.client_id b));
                 ("client_secret", JStr (Backfill.client_secret b));
                 ("grant_type", JStr "refresh_token");
                 ("refresh_token", JStr (Backfill.refresh_token b))];
     rq_params := []; rq_json := [] |}.


(** ** Header values, written out *)




(** ** Reading the command line *)

(** The three credential flags are all there and none is empty. *)
Definition flags_complete (args : Script.Args) : bool :=
  truthy (Main.env_json (Script.arg_client_id args))
  && truthy (Main.env_json (Script.arg_client_secret args))
  && truthy (Main.env_json (Script.arg_refresh_token args)).

(** The refresh token the Firestore document holds, [None] without one. *)
Definition stored_refresh_token (w : World) : json :=
  match firestore_doc w with
  | Some config => default JNull (config !! "refresh_token")
  | None => JNull
  end.

(** * Properties *)

(** [lia] with division and modulo by literals. *)
Ltac Zify.zify_post_hook ::= Z.to_euclidean_division_equations.

(** ** Naming policy *)

Example backfill_name_0730 :
  Backfill.determine_activity_name (JStr "2024-12-26T07:30:00Z") = Ok Backfill.MORNING.
Proof. reflexivity. Qed.

Example theme_labels_are_dog_named :
  List.map Backfill.is_already_dog_named
    [Backfill.MORNING; Backfill.LUNCH; Backfill.EVENING; "Morning Walk"]
  = [true; true; true; false].
Proof. reflexivity. Qed.

Example main_name_0730 :
  Main.determine_activity_name (JStr "2024-12-26T07:30:00") = Ok Main.MORNING.
Proof. reflexivity. Qed.

Example backfill_name_boundaries :
  List.map (fun s => Backfill.determine_activity_name (JStr s))
    ["2024-12-26T03:59:59Z"; "2024-12-26T04:00:00Z"; "2024-12-26T10:59:59Z";
     "2024-12-26T11:00:00Z"; "2024-12-26T13:59:59Z"; "2024-12-26T14:00:00Z";
     "2024-12-26T23:59:59Z"; "2024-12-26T00:00:00Z"]
  = List.map Ok [Backfill.EVENING; Backfill.MORNING; Backfill.MORNING;
                 Backfill.LUNCH; Backfill.LUNCH; Backfill.EVENING;
                 Backfill.EVENING; Backfill.EVENING].
Proof. reflexivity. Qed.

Lemma digit_cases (d : Z) :
  0 <= d <= 9 ->
  d = 0 \/ d = 1 \/ d = 2 \/ d = 3 \/ d = 4 \/ d = 5 \/ d = 6 \/ d = 7 \/ d = 8 \/ d = 9.
Proof. lia. Qed.

Lemma digit_value_digit_char (d : Z) :
  0 <= d <= 9 -> digit_value (digit_char d) = Some d.
Proof.
  intros H. destruct (digit_cases d H) as [E|[E|[E|[E|[E|[E|[E|[E|[E|E]]]]]]]]];
    subst d; reflexivity.
Qed.

Lemma chars_text (cs : list ascii) : chars (text cs) = cs.
Proof. apply list_ascii_of_string_of_list_ascii. Qed.

Lemma days_in_month_le (y m : Z) : 28 <= days_in_month y m <= 31.
Proof.
  unfold days_in_month.
  repeat match goal with |- context [if ?b then _ else _] => destruct b end; lia.
Qed.

Lemma make_datetime_valid (y m d hh mm ss : Z) :
  valid_timestamp y m d hh mm ss ->
  make_datetime y m d hh mm ss 0 = Ok (mk_datetime (ymd2ord y m d) hh mm ss 0).
Proof.
  intros (Hy & Hm & Hd & Hh & Hmi & Hs). unfold make_datetime.
  assert (E : ((1 <=? y) && (y <=? 9999) && (1 <=? m) && (m <=? 12)
     && (1 <=? d) && (d <=? days_in_month y m)
     && (0 <=? hh) && (hh <? 24) && (0 <=? mm) && (mm <? 60)
     && (0 <=? ss) && (ss <? 60) && (0 <=? 0) && (0 <? 1000000)) = true).
  { rewrite !andb_true_iff, !Z.leb_le, !Z.ltb_lt. lia. }
  rewrite E. reflexivity.
Qed.

Lemma digit_value_not_Z (c : ascii) (v : Z) :
  digit_value c = Some v -> Ascii.eqb c "Z" = false.
Proof.
  intros H. destruct (Ascii.eqb_spec c "Z") as [->|]; [discriminate H | reflexivity].
Qed.

Lemma filter_keep (c : ascii) (l : list ascii) :
  Ascii.eqb c "Z" = false ->
  List.filter (fun x => negb (Ascii.eqb x "Z")) (c :: l)
  = c :: List.filter (fun x => negb (Ascii.eqb x "Z")) l.
Proof. intros H. cbn [List.filter]. now rewrite H. Qed.

Lemma str_remove_stamp
    (y1 y2 y3 y4 m1 m2 d1 d2 h1 h2 mi1 mi2 s1 s2 : ascii)
    (a1 a2 a3 a4 b1 b2 c1 c2 e1 e2 f1 f2 g1 g2 : Z) (z : bool) :
  digit_value y1 = Some a1 -> digit_value y2 = Some a2 ->
  digit_value y3 = Some a3 -> digit_value y4 = Some a4 ->
  digit_value m1 = Some b1 -> digit_value m2 = Some b2 ->
  digit_value d1 = Some c1 -> digit_value d2 = Some c2 ->
  digit_value h1 = Some e1 -> digit_value h2 = Some e2 ->
  digit_value mi1 = Some f1 -> digit_value mi2 = Some f2 ->
  digit_value s1 = Some g1 -> digit_value s2 = Some g2 ->
  str_remove "Z"
    (text ([y1; y2; y3; y4; "-"%char; m1; m2; "-"%char; d1; d2; "T"%char;
            h1; h2; ":"%char; mi1; mi2; ":"%char; s1; s2]
           ++ (if z then ["Z"%char] else [])))
  = text [y1; y2; y3; y4; "-"%char; m1; m2; "-"%char; d1; d2; "T"%char;
            h1; h2; ":"%char; mi1; mi2; ":"%char; s1; s2].
Proof.
  intros Y1 Y2 Y3 Y4 M1 M2 D1 D2 H1 H2 F1 F2 G1 G2.
  unfold str_remove. rewrite chars_text. f_equal.
  cbn [app].
  repeat (rewrite filter_keep by (reflexivity || eauto using digit_value_not_Z)).
  destruct z; reflexivity.
Qed.

Lemma fromisoformat_stamp
    (y1 y2 y3 y4 m1 m2 d1 d2 h1 h2 mi1 mi2 s1 s2 : ascii)
    (a1 a2 a3 a4 b1 b2 c1 c2 e1 e2 f1 f2 g1 g2 : Z) :
  digit_value y1 = Some a1 -> digit_value y2 = Some a2 ->
  digit_value y3 = Some a3 -> digit_value y4 = Some a4 ->
  digit_value m1 = Some b1 -> digit_value m2 = Some b2 ->
  digit_value d1 = Some c1 -> digit_value d2 = Some c2 ->
  digit_value h1 = Some e1 -> digit_value h2 = Some e2 ->
  digit_value mi1 = Some f1 -> digit_value mi2 = Some f2 ->
  digit_value s1 = Some g1 -> digit_value s2 = Some g2 ->
  fromisoformat
    (text [y1; y2; y3; y4; "-"%char; m1; m2; "-"%char; d1; d2; "T"%char;
            h1; h2; ":"%char; mi1; mi2; ":"%char; s1; s2])
  = make_datetime (10 * (10 * (10 * (10 * 0 + a1) + a2) + a3) + a4)
      (10 * (10 * 0 + b1) + b2) (10 * (10 * 0 + c1) + c2)
      (10 * (10 * 0 + e1) + e2) (10 * (10 * 0 + f1) + f2)
      (10 * (10 * 0 + g1) + g2) 0.
Proof.
  intros Y1 Y2 Y3 Y4 M1 M2 D1 D2 H1 H2 F1 F2 G1 G2.
  unfold fromisoformat. rewrite chars_text.
  cbv beta iota.
  change (Ascii.eqb "-" "-") with true. cbv beta iota delta [andb].
  cbn [digits_value].
  rewrite Y1, Y2, Y3, Y4, M1, M2, D1, D2.
  cbv beta iota.
  unfold parse_isoformat_time.
  cbv beta iota.
  change (Ascii.eqb ":" ":") with true. cbv beta iota delta [andb].
  cbn [digits_value mbind option_bind].
  rewrite H1, H2, F1, F2, G1, G2.
  cbv beta iota. reflexivity.
Qed.

(** Removing [Z] and parsing reads back the fields that were written. *)
Lemma fromisoformat_isoformat (y m d hh mm ss : Z) (z : bool) :
  valid_timestamp y m d hh mm ss ->
  fromisoformat (str_remove "Z" (isoformat y m d hh mm ss z))
  = Ok (mk_datetime (ymd2ord y m d) hh mm ss 0).
Proof.
  intros V. pose proof V as (Hy & Hm & Hd & Hh & Hmi & Hs).
  pose proof (days_in_month_le y m) as Hdim.
  rewrite <- (make_datetime_valid _ _ _ _ _ _ V).
  assert (D : forall n, 0 <= n <= 9 -> digit_value (digit_char n) = Some n)
    by exact digit_value_digit_char.
  unfold isoformat.
  erewrite str_remove_stamp by (apply D; lia).
  erewrite fromisoformat_stamp by (apply D; lia).
  f_equal; lia.
Qed.

Lemma labels_distinct :
  Backfill.MORNING <> Backfill.LUNCH /\ Backfill.MORNING <> Backfill.EVENING
  /\ Backfill.LUNCH <> Backfill.EVENING
  /\ Main.MORNING <> Main.LUNCH /\ Main.MORNING <> Main.EVENING
  /\ Main.LUNCH <> Main.EVENING.
Proof. repeat split; discriminate. Qed.

Lemma name_for_hour_spec (morning lunch evening : string) (h : Z) :
  morning <> lunch -> morning <> evening -> lunch <> evening ->
  0 <= h < 24 ->
  names_by_hour (Ok (name_for_hour morning lunch evening h))
    morning lunch evening h.
Proof.
  intros N1 N2 N3 Hh. unfold names_by_hour, name_for_hour.
  eexists; split; [reflexivity|].
  destruct (4 <=? h) eqn:E1, (h <? 11) eqn:E2, (11 <=? h) eqn:E3, (h <? 14) eqn:E4;
    cbn [andb]; repeat split; intros; try lia; try congruence.
Qed.

(** C2. For every calendar timestamp [YYYY-MM-DDTHH:MM:SS], written with
    or without the trailing [Z], both naming functions drop the marker,
    read the hour [hh] as written and answer the morning label exactly
    when [4 <= hh < 11], the lunch label exactly when [11 <= hh < 14] and
    the evening label exactly for the other hours. *)
Theorem determine_activity_name_by_hour (y m d hh mm ss : Z) (z : bool) :
  valid_timestamp y m d hh mm ss ->
  names_by_hour (Backfill.determine_activity_name (JStr (isoformat y m d hh mm ss z)))
    Backfill.MORNING Backfill.LUNCH Backfill.EVENING hh
  /\ names_by_hour (Main.determine_activity_name (JStr (isoformat y m d hh mm ss z)))
       Main.MORNING Main.LUNCH Main.EVENING hh.
Proof.
  intros V. pose proof V as (_ & _ & _ & Hh & _ & _).
  destruct labels_distinct as (N1 & N2 & N3 & N4 & N5 & N6).
  unfold Backfill.determine_activity_name, Main.determine_activity_name.
  rewrite (fromisoformat_isoformat _ _ _ _ _ _ z V).
  split; apply name_for_hour_spec; assumption.
Qed.

Lemma determine_activity_name_by_hour_witness :
  names_by_hour (Backfill.determine_activity_name (JStr "2024-12-26T07:30:00Z"))
    Backfill.MORNING Backfill.LUNCH Backfill.EVENING 7
  /\ names_by_hour (Main.determine_activity_name (JStr "2024-12-26T07:30:00Z"))
       Main.MORNING Main.LUNCH Main.EVENING 7.
Proof.
  apply (determine_activity_name_by_hour 2024 12 26 7 30 0 true).
  unfold valid_timestamp. change (days_in_month 2024 12) with 31. lia.
Defined.

Example main_name_boundaries :
  List.map (fun s => Main.determine_activity_name (JStr s))
    ["2024-12-26T03:59:59Z"; "2024-12-26T04:00:00Z"; "2024-12-26T10:59:59Z";
     "2024-12-26T11:00:00Z"; "2024-12-26T13:59:59Z"; "2024-12-26T14:00:00Z";
     "2024-12-26T23:59:59Z"; "2024-12-26T00:00:00Z"]
  = List.map Ok [Main.EVENING; Main.MORNING; Main.MORNING;
                 Main.LUNCH; Main.LUNCH; Main.EVENING;
                 Main.EVENING; Main.EVENING].
Proof. reflexivity. Qed.

(** ** Rate-limit headers *)

Lemma bind_run {St A B} (m : M St A) (f : A -> M St B) (s : St) :
  (m ≫= f) s
  = match m s with
    | (s', Ok a) => f a s'
    | (s', Raise e) => (s', Raise e)
    end.
Proof. reflexivity. Qed.

Lemma py_int_raises (s : string) (e : exn) : py_int s = Raise e -> e = ValueError.
Proof.
  unfold py_int. intros H.
  repeat match type of H with context [match ?x with _ => _ end] => destruct x end;
    congruence.
Qed.

Ltac malformed_case := split; [reflexivity | split; [auto | eauto]].

(** One block of the parser, by what the header holds. *)
Lemma parse_pair_run (hs : gmap string string) (name k0 k1 : string)
    (snap : gmap string Z) :
  match header_reading hs name with
  | Absent => Backfill.parse_pair hs name k0 k1 snap = (snap, Ok tt)
  | Pair n0 n1 =>
      Backfill.parse_pair hs name k0 k1 snap = (<[k1 := n1]> (<[k0 := n0]> snap), Ok tt)
  | Malformed =>
      exists snap' e,
        Backfill.parse_pair hs name k0 k1 snap = (snap', Raise e)
        /\ (e = ValueError \/ e = IndexError)
        /\ (snap' = snap \/ exists n0, snap' = <[k0 := n0]> snap)
  end.
Proof.
  unfold header_reading, reading_of, Backfill.parse_pair.
  destruct (String.eqb (default "" (hs !! name)) "") eqn:E; cbn [negb]; [reflexivity|].
  destruct (str_split "," (default "" (hs !! name))) as [|p0 [|p1 rest]] eqn:S;
    rewrite !bind_run; unfold lift, Backfill.subscript, Backfill.record_field, modify;
    cbn [lookup list_lookup].
  - exists snap, IndexError. malformed_case.
  - destruct (py_int p0) as [n0|e0] eqn:P0.
    + exists (<[k0 := n0]> snap), IndexError. rewrite !bind_run. malformed_case.
    + exists snap, e0. apply py_int_raises in P0. malformed_case.
  - destruct (py_int p0) as [n0|e0] eqn:P0.
    + rewrite !bind_run. cbn [lookup list_lookup].
      destruct (py_int p1) as [n1|e1] eqn:P1.
      * reflexivity.
      * exists (<[k0 := n0]> snap), e1. apply py_int_raises in P1. malformed_case.
    + exists snap, e0. apply py_int_raises in P0. malformed_case.
Qed.

(** Run the next block of the parser, splitting on what its header
    holds. *)
Ltac parse_step hs :=
  try rewrite bind_run;
  lazymatch goal with
  | |- context [Backfill.parse_pair hs ?name ?k0 ?k1 ?snap] =>
      let P := fresh "P" in
      let R := fresh "R" in
      pose proof (parse_pair_run hs name k0 k1 snap) as P;
      destruct (header_reading hs name) eqn:R;
      [ rewrite P; clear P
      | rewrite P; clear P
      | let snap' := fresh "snap'" in
        let e := fresh "e" in
        destruct P as (snap' & e & -> & [-> | ->] & [-> | [? ->]]) ]
  end.

(** The parser never raises, whatever the headers. *)
Lemma parse_rate_limit_headers_total (hs : gmap string string) :
  exists snap, Backfill._parse_rate_limit_headers hs = Ok snap.
Proof.
  unfold Backfill._parse_rate_limit_headers, try_except.
  repeat parse_step hs; eexists; reflexivity.
Qed.

(** C9 (amended). Parsing the rate-limit headers never raises.  The four
    headers are read in a fixed order; a missing or empty header leaves
    its two fields out and the parse goes on; the pair of a well-formed
    header is in the snapshot whenever no header before it is malformed;
    a malformed header ends the parse, so its second field and both
    fields of every later header are left out. *)
Theorem parse_rate_limit_headers_prefix (hs : gmap string string) :
  exists snap,
    Backfill._parse_rate_limit_headers hs = Ok snap
    /\ forall (i : nat) (name k0 k1 : string),
        header_pairs !! i = Some (name, k0, k1) ->
        (forall (j : nat) (name' k0' k1' : string),
            (j < i)%nat -> header_pairs !! j = Some (name', k0', k1') ->
            header_reading hs name' <> Malformed) ->
        match header_reading hs name with
        | Pair n0 n1 => snap !! k0 = Some n0 /\ snap !! k1 = Some n1
        | Absent => snap !! k0 = None /\ snap !! k1 = None
        | Malformed =>
            snap !! k1 = None
            /\ forall (j : nat) (name' k0' k1' : string),
                (i < j)%nat -> header_pairs !! j = Some (name', k0', k1') ->
                snap !! k0' = None /\ snap !! k1' = None
        end.
Proof.
  unfold Backfill._parse_rate_limit_headers, try_except.
  repeat parse_step hs.
  all: eexists; split; [reflexivity|].
  all: intros i name k0 k1 Hi Hprev.
  all: destruct i as [|[|[|[|i]]]]; try discriminate Hi.
  all: injection Hi as <- <- <-.
  all: try (exfalso; apply (Hprev 0%nat _ _ _ ltac:(lia) eq_refl); assumption).
  all: try (exfalso; apply (Hprev 1%nat _ _ _ ltac:(lia) eq_refl); assumption).
  all: try (exfalso; apply (Hprev 2%nat _ _ _ ltac:(lia) eq_refl); assumption).
  all: clear Hprev.
  all: repeat match goal with R : header_reading _ ?n = _ |- context [header_reading _ ?n] => rewrite R end.
  all: try (split; [by simplify_map_eq | by simplify_map_eq]).
  all: split; [by simplify_map_eq|].
  all: intros j name' k0' k1' Hj Hl.
  all: destruct j as [|[|[|[|j]]]]; try discriminate Hl; try lia.
  all: injection Hl as <- <- <-; split; by simplify_map_eq.
Qed.

Lemma parse_rate_limit_headers_prefix_witness :
  exists snap,
    Backfill._parse_rate_limit_headers
      (list_to_map [("X-RateLimit-Limit", "200,2000"); ("X-ReadRateLimit-Usage", "100,342")])
    = Ok snap
    /\ snap !! "read_15min_usage" = Some 100 /\ snap !! "read_daily_usage" = Some 342.
Proof.
  destruct (parse_rate_limit_headers_prefix
    (list_to_map [("X-RateLimit-Limit", "200,2000"); ("X-ReadRateLimit-Usage", "100,342")]))
    as (snap & E & H).
  exists snap. split; [exact E|].
  apply (H 3%nat "X-ReadRateLimit-Usage" "read_15min_usage" "read_daily_usage" eq_refl).
  intros j name' k0' k1' Hj Hl.
  destruct j as [|[|[|j]]]; [| | |lia]; injection Hl as <- _ _; discriminate.
Defined.

(** C9, as stated, fails: a malformed first header makes the parser drop
    the well-formed pair of a later header. *)
Lemma parse_rate_limit_headers_not_per_field :
  let hs : gmap string string :=
    list_to_map [("X-RateLimit-Limit", "abc"); ("X-ReadRateLimit-Limit", "100,1000")] in
  header_reading hs "X-ReadRateLimit-Limit" = Pair 100 1000
  /\ exists snap,
       Backfill._parse_rate_limit_headers hs = Ok snap
       /\ snap !! "read_15min_limit" = None /\ snap !! "read_daily_limit" = None.
Proof.
  split; [reflexivity|]. eexists. split; [vm_compute; reflexivity|]. split; reflexivity.
Qed.

(** ** The reset window *)

Lemma to_us_of_us (c : Z) : to_us (of_us c) = c.
Proof. unfold to_us, of_us; cbn [toordinal hour minute second microsecond]. lia. Qed.

Lemma of_us_fields (c : Z) :
  0 <= hour (of_us c) < 24 /\ 0 <= minute (of_us c) < 60
  /\ 0 <= second (of_us c) < 60 /\ 0 <= microsecond (of_us c) < 1000000.
Proof. unfold of_us; cbn [hour minute second microsecond]. lia. Qed.

(** The window computed from a clock reading with fields in range. *)
Lemma next_reset_from_spec (now : datetime) :
  0 <= hour now < 24 -> 0 <= minute now < 60 ->
  0 <= second now < 60 -> 0 <= microsecond now < 1000000 ->
  let '(nr, secs) := Backfill.next_reset_from now in
  next_quarter now nr
  /\ to_us now < to_us nr <= to_us now + 900000000
  /\ secs * 1000000 <= to_us nr - to_us now < (secs + 1) * 1000000.
Proof.
  intros Hh Hm Hs Hu.
  unfold Backfill.next_reset_from, Backfill.next_reset_minute_of, int_total_seconds.
  destruct now as [o h m s u]; cbn [toordinal hour minute second microsecond] in *.
  destruct (m <? 15) eqn:E1; [|destruct (m <? 30) eqn:E2; [|destruct (m <? 45) eqn:E3]];
    cbn [Z.eqb Pos.eqb];
    unfold next_quarter, Backfill.replace_minute, dt_add;
    cbn [toordinal hour minute second microsecond].
  - rewrite Z.quot_div_nonneg by (unfold to_us; cbn [toordinal hour minute second microsecond]; lia).
    unfold to_us; cbn [toordinal hour minute second microsecond]. lia.
  - rewrite Z.quot_div_nonneg by (unfold to_us; cbn [toordinal hour minute second microsecond]; lia).
    unfold to_us; cbn [toordinal hour minute second microsecond]. lia.
  - rewrite Z.quot_div_nonneg by (unfold to_us; cbn [toordinal hour minute second microsecond]; lia).
    unfold to_us; cbn [toordinal hour minute second microsecond]. lia.
  - rewrite Z.quot_div_nonneg
      by (rewrite ?to_us_of_us; unfold to_us; cbn [toordinal hour minute second microsecond]; lia).
    rewrite !to_us_of_us.
    unfold of_us, to_us; cbn [toordinal hour minute second microsecond]. lia.
Qed.

(** ** One round of the retry loop *)

Lemma retry_loop_cons (a : nat) (attempts : list nat) (last : option Response)
    (rq : Request) (w : World) :
  Backfill.retry_loop (a :: attempts) last rq w
  = match provider w with
    | Responds r :: _ =>
        if status_code r =? 429 then
          match diagnostics r with
          | Ok _ => Backfill.retry_loop attempts (Some r) rq (backoff rq w)
          | Raise e => (after_send rq w, Raise e)
          end
        else (after_send rq w, Ok r)
    | _ => (after_send rq w, Raise ConnectionError)
    end.
Proof.
  cbn [Backfill.retry_loop]. rewrite bind_run. unfold requests_request.
  destruct (provider w) as [|[r|] rest]; try reflexivity.
  destruct (status_code r =? 429); [|reflexivity].
  unfold diagnostics.
  rewrite bind_run. unfold lift at 1.
  destruct (Backfill._parse_rate_limit_headers (headers r)) as [limits|e]; [|reflexivity].
  cbn [mbind result_bind].
  rewrite bind_run. unfold Backfill._calculate_next_reset_time.
  rewrite bind_run. unfold datetime_now at 1, gets at 1.
  unfold mret at 1, M_ret at 1.
  destruct (Backfill.next_reset_from (of_us (clock (after_send rq w)))) as [nr secs] eqn:E.
  rewrite bind_run. unfold datetime_now at 1, gets at 1.
  rewrite bind_run. unfold lift at 1.
  destruct (Backfill.print_limits limits) as [[]|e]; [|reflexivity].
  rewrite bind_run. unfold time_sleep, modify.
  unfold backoff, wait_time_at. cbn [clock after_send] in E |- *. rewrite E. reflexivity.
Qed.

Lemma requests_of_app (tr1 tr2 : list event) :
  requests_of (tr1 ++ tr2) = requests_of tr1 ++ requests_of tr2.
Proof. unfold requests_of. apply omap_app. Qed.

Lemma wait_time_nonneg (c : Z) : 0 <= wait_time_at c.
Proof.
  unfold wait_time_at, Backfill.RATE_LIMIT_BUFFER.
  pose proof (next_reset_from_spec (of_us c)) as H.
  destruct (of_us_fields c) as (H1 & H2 & H3 & H4).
  specialize (H H1 H2 H3 H4).
  destruct (Backfill.next_reset_from (of_us c)) as [nr secs]. cbn [snd].
  destruct H as (_ & H & H'). lia.
Qed.

Lemma retry_loop_frame (attempts : list nat) (last : option Response)
    (rq : Request) (w : World) :
  retry_frame rq (List.length attempts) w (Backfill.retry_loop attempts last rq w).1.
Proof.
  revert last w. induction attempts as [|a attempts IH]; intros last w.
  - exists 0%nat. cbn. destruct last; cbn; rewrite ?app_nil_r; repeat split; auto; lia.
  - rewrite retry_loop_cons.
    assert (Stop : forall res : result Response,
               retry_frame rq (List.length (a :: attempts)) w (after_send rq w, res).1).
    { intros res. exists 1%nat. cbn [fst after_send trace provider firestore_doc
        firestore_faults clock List.length].
      rewrite requests_of_app. cbn.
      repeat split; auto; lia. }
    destruct (provider w) as [|[r|] rest] eqn:P; try apply Stop.
    destruct (status_code r =? 429); [|apply Stop].
    destruct (diagnostics r); [|apply Stop].
    destruct (IH (Some r) (backoff rq w)) as (n & Hn & _ & Htr & Hp & Hd & Hf & Hc).
    exists (S n). rewrite Htr, Hp, Hd, Hf.
    unfold backoff in *. cbn [after_sleep after_send trace provider firestore_doc
      firestore_faults clock List.length] in *.
    rewrite !requests_of_app. cbn. rewrite P. cbn.
    pose proof (wait_time_nonneg (clock w)).
    repeat split; auto; try lia. by rewrite app_nil_r, <- app_assoc.
Qed.

(** C5. On a 429 seen at any clock reading, the window computed is the
    first quarter-hour boundary after the current minute (minute 15, 30
    or 45 of the same hour, or the top of the next hour from minute 45
    on), it lies strictly after the reading and at most a quarter of an
    hour away, the seconds counted are the whole seconds up to it, and
    the loop sleeps those seconds plus the buffer of 5 before the next
    attempt. *)
Theorem backoff_targets_next_quarter (w : World) :
  exists (nr : datetime) (secs : Z),
    Backfill._calculate_next_reset_time w = (w, Ok (nr, secs))
    /\ next_quarter (of_us (clock w)) nr
    /\ clock w < to_us nr <= clock w + 900000000
    /\ secs * 1000000 <= to_us nr - clock w < (secs + 1) * 1000000
    /\ forall (rq : Request) (r : Response) (rest : list outcome)
         (a : nat) (attempts : list nat) (last : option Response),
        provider w = Responds r :: rest ->
        status_code r = 429 ->
        diagnostics r = Ok tt ->
        Backfill.retry_loop (a :: attempts) last rq w
        = Backfill.retry_loop attempts (Some r) rq
            (after_sleep ((secs + 5) * 1000000) (after_send rq w)).
Proof.
  pose proof (next_reset_from_spec (of_us (clock w))) as H.
  destruct (of_us_fields (clock w)) as (H1 & H2 & H3 & H4).
  specialize (H H1 H2 H3 H4). rewrite to_us_of_us in H.
  destruct (Backfill.next_reset_from (of_us (clock w))) as [nr secs] eqn:E.
  destruct H as (Hq & Hlt & Hs).
  exists nr, secs. split.
  { unfold Backfill._calculate_next_reset_time. rewrite bind_run.
    unfold datetime_now, gets. cbn. by rewrite E. }
  split; [exact Hq|]. split; [lia|]. split; [lia|].
  intros rq r rest a attempts last P S D.
  rewrite retry_loop_cons, P, S, D. cbn [Z.eqb Pos.eqb].
  unfold backoff, wait_time_at. by rewrite E.
Qed.

Lemma backoff_targets_next_quarter_witness :
  let r := mk_response 429 ∅ None in
  let rq := mk_request "GET" AthleteActivitiesUrl (Some (JStr "token")) [] [] [] in
  let w := mk_world [Responds r] (to_us (mk_datetime 739246 10 7 30 250000)) None [] [] in
  exists secs : Z,
    Backfill.retry_loop [0%nat] None rq w
    = Backfill.retry_loop [] (Some r) rq
        (after_sleep ((secs + 5) * 1000000) (after_send rq w)).
Proof.
  intros r rq w.
  destruct (backoff_targets_next_quarter w) as (nr & secs & _ & _ & _ & _ & H).
  exists secs. apply (H rq r [] 0%nat [] None); reflexivity.
Defined.

(** The clock of the two cases the specification names: 10:07:30.25 and
    23:46:10 on ordinal day 739246. *)
Example backoff_at_minute_7 :
  Backfill.next_reset_from (mk_datetime 739246 10 7 30 250000)
  = (mk_datetime 739246 10 15 0 0, 449)
  /\ wait_time_at (to_us (mk_datetime 739246 10 7 30 250000)) = 454.
Proof. split; reflexivity. Qed.

Example backoff_at_minute_46 :
  Backfill.next_reset_from (mk_datetime 739246 23 46 10 0)
  = (mk_datetime 739247 0 0 0 0, 830)
  /\ wait_time_at (to_us (mk_datetime 739246 23 46 10 0)) = 835.
Proof. split; reflexivity. Qed.

(** ** The retry budget *)

(** Whatever the provider does, one call sends the request at least once
    and at most three times. *)
Lemma retry_at_most_three (rq : Request) (w : World) :
  retry_frame rq 3 w (Backfill._make_request_with_retry rq w).1.
Proof. apply (retry_loop_frame (seq 0 Backfill.MAX_RETRIES) None rq w). Qed.

(** An answer other than 429 goes back to the caller at once. *)
Lemma retry_passes_other (rq : Request) (w : World) (r : Response) (rest : list outcome) :
  provider w = Responds r :: rest ->
  status_code r <> 429 ->
  Backfill._make_request_with_retry rq w = (after_send rq w, Ok r).
Proof.
  intros P S. unfold Backfill._make_request_with_retry. cbn [seq Backfill.MAX_RETRIES].
  rewrite retry_loop_cons, P. apply Z.eqb_neq in S. by rewrite S.
Qed.

(** Three 429 answers in a row whose progress lines can be printed: three
    attempts, three sleeps, and the third answer is returned. *)
Lemma retry_exhausted (rq : Request) (w : World) (r1 r2 r3 : Response)
    (rest : list outcome) :
  provider w = Responds r1 :: Responds r2 :: Responds r3 :: rest ->
  status_code r1 = 429 -> status_code r2 = 429 -> status_code r3 = 429 ->
  diagnostics r1 = Ok tt -> diagnostics r2 = Ok tt -> diagnostics r3 = Ok tt ->
  Backfill._make_request_with_retry rq w
  = (backoff rq (backoff rq (backoff rq w)), Ok r3).
Proof.
  intros P S1 S2 S3 D1 D2 D3.
  unfold Backfill._make_request_with_retry. cbn [seq Backfill.MAX_RETRIES].
  rewrite retry_loop_cons, P, S1, D1. cbn [Z.eqb Pos.eqb].
  rewrite retry_loop_cons. cbn [backoff after_sleep after_send provider].
  rewrite P. cbn [tail]. rewrite S2, D2. cbn [Z.eqb Pos.eqb].
  rewrite retry_loop_cons. cbn [backoff after_sleep after_send provider].
  rewrite P. cbn [tail]. rewrite S3, D3. cbn [Z.eqb Pos.eqb].
  reflexivity.
Qed.

(** C4, at the failing input: a 429 answer that carries the usage header
    without the limit header.  The progress line indexes the missing
    limit, and the call ends in [KeyError] after one attempt, with two
    answers of the provider still unread. *)
Theorem retry_raises_on_usage_without_limit :
  let r := mk_response 429 (list_to_map [("X-RateLimit-Usage", "105,408")]) None in
  let rq := mk_request "GET" AthleteActivitiesUrl (Some (JStr "token")) [] [] [] in
  let w := mk_world [Responds r; Responds r; Responds r] 0 None [] [] in
  Backfill._parse_rate_limit_headers (headers r)
    = Ok (list_to_map [("overall_15min_usage", 105); ("overall_daily_usage", 408)])
  /\ (Backfill._make_request_with_retry rq w).2 = Raise KeyError
  /\ trace (Backfill._make_request_with_retry rq w).1 = [Sent rq]
  /\ provider (Backfill._make_request_with_retry rq w).1 = [Responds r; Responds r].
Proof. repeat split; vm_compute; reflexivity. Qed.

(** ** The batch processor, one activity at a time *)

Lemma update_activity_name_run (activity_id : json) (new_name : string) (r : Backfill.Run) :
  Backfill.update_activity_name activity_id new_name r
  = match Backfill._make_request_with_retry
            (rename_request (Backfill.access_token (Backfill.self r)) activity_id new_name)
            (Backfill.world r) with
    | (w', Ok response) => (Backfill.with_world w' r, Ok (status_code response =? 200))
    | (w', Raise e) => (Backfill.with_world w' r, Raise e)
    end.
Proof.
  unfold Backfill.update_activity_name. rewrite bind_run. unfold gets at 1.
  rewrite bind_run. unfold Backfill.io.
  destruct (Backfill._make_request_with_retry _ (Backfill.world r)) as [w' [response|e]];
    [|reflexivity].
  by destruct (status_code response =? 200).
Qed.

Lemma determine_then_parse (start_date : json) (name : string) :
  Backfill.determine_activity_name start_date = Ok name ->
  exists dt,
    match start_date with
    | JStr s => fromisoformat (str_remove "Z" s)
    | _ => Raise AttributeError
    end = Ok dt.
Proof.
  unfold Backfill.determine_activity_name.
  destruct start_date; try discriminate.
  destruct (fromisoformat (str_remove "Z" s)) as [dt|e]; [eauto|discriminate].
Qed.

(** Everything [process_activity] can do, case by case. *)
Lemma process_activity_run (a : json) (r : Backfill.Run) :
  Backfill.process_activity a r
  = match a with
    | JObj fields =>
        if negb (eq_str (field fields "type" JNull) "Walk") then (r, Ok tt)
        else
          let r1 := Backfill.with_stats Backfill.bump_walks_found r in
          if truthy (field fields "trainer" (JBool false)) then (r1, Ok tt)
          else
            match Backfill.determine_activity_name (field fields "start_date_local" JNull) with
            | Raise e => (r1, Raise e)
            | Ok new_name =>
                if eq_str (field fields "name" (JStr "Unnamed")) new_name
                then (Backfill.with_stats Backfill.bump_already_named r1, Ok tt)
                else
                  let r2 := Backfill.with_stats Backfill.bump_to_rename r1 in
                  if Backfill.dry_run (Backfill.self r) then (r2, Ok tt)
                  else
                    match Backfill._make_request_with_retry
                            (rename_request (Backfill.access_token (Backfill.self r))
                               (field fields "id" JNull) new_name)
                            (Backfill.world r) with
                    | (w', Raise e) => (Backfill.with_world w' r2, Raise e)
                    | (w', Ok response) =>
                        (Backfill.with_world (after_sleep Backfill.REQUEST_DELAY w')
                           (Backfill.with_stats
                              (if status_code response =? 200
                               then Backfill.bump_renamed else Backfill.bump_errors) r2),
                         Ok tt)
                    end
            end
    | _ => (r, Raise AttributeError)
    end.
Proof.
  destruct a as [| | | | |fields]; try reflexivity.
  unfold Backfill.process_activity, field.
  cbv beta iota delta [mbind M_bind lift py_get gets modify Backfill.set_stats mret M_ret].
  destruct (eq_str (default JNull (assoc_get "type" fields)) "Walk"); cbn [negb];
    [|reflexivity].
  destruct (truthy (default (JBool false) (assoc_get "trainer" fields))); [reflexivity|].
  destruct (Backfill.determine_activity_name
              (default JNull (assoc_get "start_date_local" fields)))
    as [new_name|e] eqn:D; [|reflexivity].
  destruct (eq_str (default (JStr "Unnamed") (assoc_get "name" fields)) new_name);
    [reflexivity|].
  destruct (determine_then_parse _ _ D) as [dt ->].
  cbn [Backfill.dry_run Backfill.self Backfill.with_stats].
  destruct (Backfill.dry_run (Backfill.self r)); cbn [negb]; [reflexivity|].
  rewrite update_activity_name_run.
  cbn [Backfill.world Backfill.self Backfill.with_stats Backfill.access_token].
  destruct (Backfill._make_request_with_retry _ (Backfill.world r)) as [w' [response|e]];
    [|reflexivity].
  destruct (status_code response =? 200); reflexivity.
Qed.
(** ** The event path after a successful fetch *)

(** Everything [handle_event_processing] does once the token and the
    activity are there. *)
Lemma handle_event_processing_run (cid sec : option string)
    (request : Main.HttpRequest) (object_id tok : json)
    (fields : list (string * json)) (w w1 w2 : World) :
  create_event request object_id ->
  Main.get_access_token cid sec w = (w1, Ok tok) ->
  Main.get_activity_details object_id tok w1 = (w2, Ok (JObj fields)) ->
  Main.handle_event_processing cid sec request w
  = if negb (eq_str (field fields "type" JNull) "Walk") then (w2, Ok Main.OK)
    else if truthy (field fields "trainer" (JBool false)) then (w2, Ok Main.OK)
    else if negb (truthy (field fields "start_date_local" JNull)) then (w2, Ok Main.OK)
    else
      match Main.determine_activity_name (field fields "start_date_local" JNull) with
      | Raise _ => (w2, Ok Main.OK)
      | Ok new_name => (after_send (rename_request tok object_id new_name) w2, Ok Main.OK)
      end.
Proof.
  intros (ev & Hj & Hc & Ho & Ht) Htok Hact.
  unfold Main.handle_event_processing, field in *.
  rewrite Hj. cbn [truthy]. destruct ev as [|kv ev]; [discriminate Hc|]. cbn [negb].
  cbv beta iota delta [mbind M_bind lift py_get try_except mret M_ret].
  rewrite Hc. cbn [negb]. rewrite Ho, Ht. cbn [negb].
  rewrite Htok, Hact.
  destruct (eq_str (default JNull (assoc_get "type" fields)) "Walk"); cbn [negb];
    [|reflexivity].
  destruct (truthy (default (JBool false) (assoc_get "trainer" fields))); [reflexivity|].
  destruct (truthy (default JNull (assoc_get "start_date_local" fields))); cbn [negb];
    [|reflexivity].
  destruct (Main.determine_activity_name _) as [new_name|e]; [|reflexivity].
  unfold Main.update_activity_name.
  cbv beta iota delta [mbind M_bind requests_request mret M_ret raise].
  destruct (provider w2) as [|[r|] rest]; try reflexivity.
  destruct (status_code r =? 200); reflexivity.
Qed.

(** ** Eligibility *)

Example run_is_skipped (r : Backfill.Run) :
  Backfill.process_activity
    (JObj [("id", JNum 7); ("type", JStr "Run"); ("trainer", JBool false);
           ("name", JStr "Morning Run"); ("start_date_local", JStr "2024-12-26T07:30:00Z")]) r
  = (r, Ok tt).
Proof. reflexivity. Qed.

Example lower_case_walk_is_skipped (r : Backfill.Run) :
  Backfill.process_activity
    (JObj [("id", JNum 7); ("type", JStr "walk"); ("trainer", JBool false);
           ("name", JStr "Morning Walk"); ("start_date_local", JStr "2024-12-26T07:30:00Z")]) r
  = (r, Ok tt).
Proof. reflexivity. Qed.

(** C6. The filter runs in a fixed order and stops at the first failure.
    In the batch, an activity whose type is not exactly ["Walk"] leaves
    the run as it was, whatever its other fields; a walk with the indoor
    flag set adds one to [walks_found] and changes nothing else.  In the
    event path, an activity of either kind ends the handler in the world
    the fetch left: no request follows. *)
Theorem eligibility_filter :
  (forall (fields : list (string * json)) (r : Backfill.Run),
      eq_str (field fields "type" JNull) "Walk" = false ->
      Backfill.process_activity (JObj fields) r = (r, Ok tt))
  /\ (forall (fields : list (string * json)) (r : Backfill.Run),
      eq_str (field fields "type" JNull) "Walk" = true ->
      truthy (field fields "trainer" (JBool false)) = true ->
      Backfill.process_activity (JObj fields) r
      = (Backfill.with_stats Backfill.bump_walks_found r, Ok tt))
  /\ (forall (cid sec : option string) (request : Main.HttpRequest)
        (object_id tok : json) (fields : list (string * json)) (w w1 w2 : World),
      create_event request object_id ->
      Main.get_access_token cid sec w = (w1, Ok tok) ->
      Main.get_activity_details object_id tok w1 = (w2, Ok (JObj fields)) ->
      eq_str (field fields "type" JNull) "Walk" = false
      \/ truthy (field fields "trainer" (JBool false)) = true ->
      Main.handle_event_processing cid sec request w = (w2, Ok Main.OK)).
Proof.
  split; [|split].
  - intros fields r T. rewrite process_activity_run, T. reflexivity.
  - intros fields r T I. rewrite process_activity_run, T, I. reflexivity.
  - intros cid sec request object_id tok fields w w1 w2 Hev Htok Hact H.
    rewrite (handle_event_processing_run _ _ _ _ _ _ _ _ _ Hev Htok Hact).
    destruct H as [T | I].
    + rewrite T. reflexivity.
    + rewrite I. by destruct (eq_str _ "Walk").
Qed.

Lemma eligibility_filter_witness :
  let indoor := [("id", JNum 7); ("type", JStr "Walk"); ("trainer", JBool true);
                 ("name", JStr "Treadmill"); ("start_date_local", JStr "2024-12-26T07:30:00Z")] in
  let r := Backfill.mk_run (Backfill.__init__ "id" "secret" "refresh" "UTC" false)
                           (mk_world [] 0 None [] []) in
  stats_of (Backfill.process_activity (JObj indoor) r).1 = Backfill.mk_stats 0 1 0 0 0 0
  /\ Backfill.world (Backfill.process_activity (JObj indoor) r).1 = Backfill.world r.
Proof.
  intros indoor r. destruct eligibility_filter as (_ & H & _).
  rewrite (H indoor r eq_refl eq_refl). split; reflexivity.
Defined.

(** ** Names that are already right *)

(** C1 (amended). In the batch, an outdoor walk whose computed name is
    its current name is counted as already correct and the world is left
    untouched, so no request goes out; this is what a second pass finds
    once the name has been set to the computed one.  The event path does
    not compare names: for every outdoor walk with a readable timestamp
    it sends the rename write, whatever the current name. *)
Theorem already_correct_is_skipped_in_batch :
  (forall (fields : list (string * json)) (name : string) (r : Backfill.Run),
      eq_str (field fields "type" JNull) "Walk" = true ->
      truthy (field fields "trainer" (JBool false)) = false ->
      Backfill.determine_activity_name (field fields "start_date_local" JNull) = Ok name ->
      (eq_str (field fields "name" (JStr "Unnamed")) name = true ->
       Backfill.process_activity (JObj fields) r
       = (Backfill.with_stats Backfill.bump_already_named
            (Backfill.with_stats Backfill.bump_walks_found r), Ok tt))
      /\ Backfill.process_activity (JObj (("name", JStr name) :: fields)) r
         = (Backfill.with_stats Backfill.bump_already_named
              (Backfill.with_stats Backfill.bump_walks_found r), Ok tt))
  /\ (forall (cid sec : option string) (request : Main.HttpRequest)
        (object_id tok : json) (fields : list (string * json)) (name : string)
        (w w1 w2 : World),
      create_event request object_id ->
      Main.get_access_token cid sec w = (w1, Ok tok) ->
      Main.get_activity_details object_id tok w1 = (w2, Ok (JObj fields)) ->
      eq_str (field fields "type" JNull) "Walk" = true ->
      truthy (field fields "trainer" (JBool false)) = false ->
      truthy (field fields "start_date_local" JNull) = true ->
      Main.determine_activity_name (field fields "start_date_local" JNull) = Ok name ->
      Main.handle_event_processing cid sec request w
      = (after_send (rename_request tok object_id name) w2, Ok Main.OK)).
Proof.
  split.
  - intros fields name r T I D. split.
    + intros E. rewrite process_activity_run, T, I, D, E. reflexivity.
    + rewrite process_activity_run.
      change (field (("name", JStr name) :: fields) "type" JNull)
        with (field fields "type" JNull).
      change (field (("name", JStr name) :: fields) "trainer" (JBool false))
        with (field fields "trainer" (JBool false)).
      change (field (("name", JStr name) :: fields) "start_date_local" JNull)
        with (field fields "start_date_local" JNull).
      change (field (("name", JStr name) :: fields) "name" (JStr "Unnamed"))
        with (JStr name).
      rewrite T, I, D. unfold eq_str. cbn [py_eq negb]. rewrite String.eqb_refl.
      reflexivity.
  - intros cid sec request object_id tok fields name w w1 w2 Hev Htok Hact T I S D.
    rewrite (handle_event_processing_run _ _ _ _ _ _ _ _ _ Hev Htok Hact).
    rewrite T, I, S, D. reflexivity.
Qed.

Lemma already_correct_is_skipped_in_batch_witness :
  let walk := [("id", JNum 7); ("type", JStr "Walk"); ("trainer", JBool false);
               ("name", JStr "Morning Walk");
               ("start_date_local", JStr "2024-12-26T07:30:00Z")] in
  let r := Backfill.mk_run (Backfill.__init__ "id" "secret" "refresh" "UTC" false)
                           (mk_world [] 0 None [] []) in
  let r' := (Backfill.process_activity (JObj (("name", JStr Backfill.MORNING) :: walk)) r).1 in
  stats_of r' = Backfill.mk_stats 0 1 1 0 0 0 /\ Backfill.world r' = Backfill.world r.
Proof.
  intros walk r. destruct already_correct_is_skipped_in_batch as (H & _).
  destruct (H walk Backfill.MORNING r eq_refl eq_refl eq_refl) as (_ & E).
  cbv zeta. rewrite E. split; reflexivity.
Defined.

(** A live pass renames the walk; a second pass over the renamed walk
    sends nothing. *)
Example second_pass_sends_nothing :
  let walk := fun name : string =>
    JObj [("id", JNum 7); ("type", JStr "Walk"); ("trainer", JBool false);
          ("name", JStr name); ("start_date_local", JStr "2024-12-26T07:30:00Z")] in
  let b := Backfill.__init__ "id" "secret" "refresh" "UTC" false in
  let w := mk_world [Responds (mk_response 200 ∅ None)] 0 None [] [] in
  let r1 := (Backfill.process_activities [walk "Morning Walk"] (Backfill.mk_run b w)).1 in
  let r2 := (Backfill.process_activities [walk Backfill.MORNING] r1).1 in
  writes_of (trace (Backfill.world r1)) = [rename_request JNull (JNum 7) Backfill.MORNING]
  /\ Backfill.world r2 = Backfill.world r1
  /\ stats_of r2 = Backfill.mk_stats 0 2 1 1 1 0.
Proof. repeat split; vm_compute; reflexivity. Qed.

(** C1, as stated, fails on the event path: the fetched walk already has
    the morning label as its name, and the handler still sends the
    rename write. *)
Lemma event_path_rewrites_correct_name :
  let start := JStr "2024-12-26T07:30:00Z" in
  let walk := JObj [("id", JNum 42); ("type", JStr "Walk"); ("trainer", JBool false);
                    ("name", JStr Main.MORNING); ("start_date_local", start)] in
  let w := mk_world
    [Responds (mk_response 200 ∅ (Some (JObj [("access_token", JStr "tok")])));
     Responds (mk_response 200 ∅ (Some walk));
     Responds (mk_response 200 ∅ None)]
    0 (Some (list_to_map [("refresh_token", JStr "r0")])) [] [] in
  let request := Main.mk_http_request "POST" ∅
    (JObj [("aspect_type", JStr "create"); ("object_id", JNum 42)]) in
  Main.determine_activity_name start = Ok Main.MORNING
  /\ writes_of (trace (Main.strava_webhook (Some "id") (Some "secret") request w).1)
     = [rename_request (JStr "tok") (JNum 42) Main.MORNING].
Proof. split; vm_compute; reflexivity. Qed.

(** ** Run statistics *)

Lemma stats_step_refl (s : Backfill.Stats) : stats_step 0 s s.
Proof. unfold stats_step, stats_le. lia. Qed.

Lemma stats_step_trans (k1 k2 : Z) (s1 s2 s3 : Backfill.Stats) :
  stats_step k1 s1 s2 -> stats_step k2 s2 s3 -> stats_step (k1 + k2) s1 s3.
Proof. unfold stats_step, stats_le. lia. Qed.

Lemma stats_step_weaken (k k' : Z) (s s' : Backfill.Stats) :
  k <= k' -> stats_step k s s' -> stats_step k' s s'.
Proof. unfold stats_step, stats_le. lia. Qed.

(** What one activity does to the counters, and what dry-run mode keeps
    fixed. *)
Lemma process_activity_step (a : json) (r : Backfill.Run) :
  let r' := (Backfill.process_activity a r).1 in
  stats_step 1 (stats_of r) (stats_of r')
  /\ Backfill.dry_run (Backfill.self r') = Backfill.dry_run (Backfill.self r)
  /\ (Backfill.dry_run (Backfill.self r) = true ->
      Backfill.world r' = Backfill.world r
      /\ Backfill.renamed (stats_of r') = Backfill.renamed (stats_of r)
      /\ Backfill.errors (stats_of r') = Backfill.errors (stats_of r)).
Proof.
  rewrite process_activity_run.
  destruct r as [b w]. unfold stats_of, stats_step, stats_le.
  destruct a as [| | | | |fields]; cbn [fst]; try (cbn; split; [lia|auto]).
  repeat match goal with
         | |- context [if ?c then _ else _] => destruct c eqn:?
         | |- context [match ?x with Ok _ => _ | Raise _ => _ end] => destruct x
         | |- context [match ?x with (_, _) => _ end] => destruct x
         end;
    cbn in *; (split; [lia|split; [congruence|intros; try congruence; auto]]).
Qed.

Lemma process_activities_cons (a : json) (l : list json) (r : Backfill.Run) :
  Backfill.process_activities (a :: l) r
  = match Backfill.process_activity a r with
    | (r', Ok _) => Backfill.process_activities l r'
    | (r', Raise e) => (r', Raise e)
    end.
Proof. reflexivity. Qed.

(** Processing a list is processing a first part and, unless that
    raised, the rest. *)
Lemma process_activities_app (l1 l2 : list json) (r : Backfill.Run) :
  Backfill.process_activities (l1 ++ l2) r
  = match Backfill.process_activities l1 r with
    | (r1, Ok _) => Backfill.process_activities l2 r1
    | (r1, Raise e) => (r1, Raise e)
    end.
Proof.
  revert r. induction l1 as [|a l1 IH]; intros r; [reflexivity|].
  rewrite <- app_comm_cons, !process_activities_cons.
  destruct (Backfill.process_activity a r) as [r' [[]|e]]; [apply IH|reflexivity].
Qed.

Lemma process_activities_steps (l : list json) (r : Backfill.Run) :
  let r' := (Backfill.process_activities l r).1 in
  stats_step (Z.of_nat (List.length l)) (stats_of r) (stats_of r')
  /\ Backfill.dry_run (Backfill.self r') = Backfill.dry_run (Backfill.self r)
  /\ (Backfill.dry_run (Backfill.self r) = true ->
      Backfill.world r' = Backfill.world r
      /\ Backfill.renamed (stats_of r') = Backfill.renamed (stats_of r)
      /\ Backfill.errors (stats_of r') = Backfill.errors (stats_of r)).
Proof.
  revert r. induction l as [|a l IH]; intros r.
  - cbn. split; [apply stats_step_refl|]. auto.
  - rewrite process_activities_cons.
    destruct (process_activity_step a r) as (S1 & D1 & W1).
    destruct (Backfill.process_activity a r) as [r1 [[]|e]]; cbn [fst] in *.
    + destruct (IH r1) as (S2 & D2 & W2). cbn zeta in *.
      split; [|split].
      * replace (Z.of_nat (List.length (a :: l))) with (1 + Z.of_nat (List.length l))
          by (cbn [List.length]; lia).
        eapply stats_step_trans; eassumption.
      * congruence.
      * intros Hd. destruct (W1 Hd) as (? & ? & ?).
        destruct W2 as (? & ? & ?); [congruence|]. repeat split; congruence.
    + split; [|split; assumption].
      apply (stats_step_weaken 1); [cbn [List.length]; lia|assumption].
Qed.

(** C10. From counters at zero, after any list of activities and at
    every point on the way: no counter is negative or has gone down,
    already-named plus to-rename is at most walks-found, walks-found is
    at most the number of activities, renamed plus errors is at most
    to-rename; in dry-run mode renamed and errors stay at zero and the
    world is untouched, so no request was sent. *)
Theorem batch_statistics (b : Backfill.Backfiller) (w : World) (l1 l2 : list json) :
  fresh_stats (Backfill.stats b) ->
  let r0 := Backfill.mk_run b w in
  let r1 := (Backfill.process_activities l1 r0).1 in
  let r2 := (Backfill.process_activities (l1 ++ l2) r0).1 in
  stats_inv (Z.of_nat (List.length (l1 ++ l2))) (stats_of r2)
  /\ stats_le (Backfill.stats b) (stats_of r1)
  /\ stats_le (stats_of r1) (stats_of r2)
  /\ (Backfill.dry_run b = true ->
      Backfill.renamed (stats_of r2) = 0 /\ Backfill.errors (stats_of r2) = 0
      /\ Backfill.world r2 = w).
Proof.
  intros F r0 r1 r2.
  destruct (process_activities_steps (l1 ++ l2) r0) as (S2 & _ & W2).
  destruct (process_activities_steps l1 r0) as (S1 & D1 & _).
  fold r1 in S1, D1. fold r2 in S2, W2.
  assert (S12 : stats_le (stats_of r1) (stats_of r2)).
  { subst r2. rewrite process_activities_app. fold r1.
    destruct (Backfill.process_activities l1 r0) as [r1' [[]|e]] eqn:E; cbn [fst] in *;
      subst r1; cbn [fst].
    - destruct (process_activities_steps l2 r1') as (S & _). apply S.
    - unfold stats_le. lia. }
  unfold fresh_stats, stats_inv, stats_step, stats_le, stats_of in *.
  cbn [Backfill.self Backfill.world r0] in *.
  split; [lia|]. split; [lia|]. split; [lia|].
  intros Hd. destruct (W2 Hd) as (Hw & Hr & He).
  split; [lia|]. split; [lia|exact Hw].
Qed.

Lemma batch_statistics_witness :
  let walk := JObj [("id", JNum 7); ("type", JStr "Walk"); ("trainer", JBool false);
                    ("name", JStr "Morning Walk");
                    ("start_date_local", JStr "2024-12-26T07:30:00Z")] in
  let b := Backfill.__init__ "id" "secret" "refresh" "UTC" true in
  let w := mk_world [] 0 None [] [] in
  let r2 := (Backfill.process_activities ([walk] ++ [walk]) (Backfill.mk_run b w)).1 in
  stats_inv 2 (stats_of r2) /\ Backfill.world r2 = w.
Proof.
  intros walk b w.
  assert (F : fresh_stats (Backfill.stats b)) by (unfold fresh_stats; cbn; lia).
  destruct (batch_statistics b w [walk] [walk] F) as (I & _ & _ & D).
  split; [exact I|]. apply (D eq_refl).
Defined.

Example batch_statistics_live_run :
  let walk := JObj [("id", JNum 7); ("type", JStr "Walk"); ("trainer", JBool false);
                    ("name", JStr "Morning Walk");
                    ("start_date_local", JStr "2024-12-26T07:30:00Z")] in
  let indoor := JObj [("id", JNum 8); ("type", JStr "Walk"); ("trainer", JBool true)] in
  let run := JObj [("id", JNum 9); ("type", JStr "Run")] in
  let named := JObj [("id", JNum 10); ("type", JStr "Walk");
                     ("name", JStr Backfill.EVENING);
                     ("start_date_local", JStr "2024-12-26T19:00:00Z")] in
  let b := Backfill.__init__ "id" "secret" "refresh" "UTC" false in
  let w := mk_world [Responds (mk_response 200 ∅ None); Responds (mk_response 500 ∅ None)]
                    0 None [] [] in
  stats_of (Backfill.process_activities [walk; indoor; run; named; walk]
              (Backfill.mk_run b w)).1
  = Backfill.mk_stats 0 4 1 2 1 1.
Proof. vm_compute. reflexivity. Qed.

(** ** Pagination *)

Lemma fetch_round_page (after_timestamp per_page page : Z) (acc : list json)
    (r : Backfill.Run) (hs : gmap string string) (items : list json) (rest : list outcome) :
  provider (Backfill.world r) = Responds (page_response hs items) :: rest ->
  let rq := Backfill.page_request (Backfill.access_token (Backfill.self r))
              after_timestamp per_page page in
  Backfill.fetch_round after_timestamp per_page page acc r
  = match items with
    | [] => (Backfill.with_world (after_send rq (Backfill.world r)) r, Ok (inr acc))
    | _ :: _ =>
        (Backfill.with_world
           (after_sleep Backfill.REQUEST_DELAY (after_send rq (Backfill.world r))) r,
         Ok (inl (acc ++ items)))
    end.
Proof.
  intros P rq. unfold Backfill.fetch_round.
  cbv beta iota delta [mbind M_bind gets Backfill.io].
  fold rq. rewrite (retry_passes_other rq _ _ _ P) by (cbn; lia).
  destruct items; reflexivity.
Qed.

Lemma length_concat_pages (pages : list (gmap string string * list json)) :
  List.length (concat (List.map snd pages))
  = sum_list_with (fun p => List.length p.2) pages.
Proof.
  induction pages as [|p pages IH]; [reflexivity|].
  cbn. rewrite length_app, IH. reflexivity.
Qed.

Lemma requests_of_sent (rq : Request) : requests_of [Sent rq] = [rq].
Proof. reflexivity. Qed.

Lemma requests_of_slept (us : Z) : requests_of [Slept us] = [].
Proof. reflexivity. Qed.

Lemma page_requests_S (tok : json) (after_timestamp per_page first : Z) (n : nat) :
  page_requests tok after_timestamp per_page first (S n)
  = Backfill.page_request tok after_timestamp per_page first
    :: page_requests tok after_timestamp per_page (first + 1) n.
Proof.
  unfold page_requests. cbn [seq List.map]. rewrite Z.add_0_r. f_equal.
  rewrite <- seq_shift, List.map_map. apply List.map_ext. intros i. f_equal. lia.
Qed.

(** The loop over a listing: it asks for one page after the other, adds
    what it gets and stops at the empty page. *)
Lemma fetch_loop_listing (pages : list (gmap string string * list json))
    (hs_last : gmap string string) (rest : list outcome)
    (fuel : nat) (after_timestamp per_page page : Z) (acc : list json)
    (r : Backfill.Run) :
  Forall (fun p => p.2 <> []) pages ->
  provider (Backfill.world r) = listing pages hs_last rest ->
  (List.length pages < fuel)%nat ->
  exists r',
    Backfill.fetch_loop fuel after_timestamp per_page page acc r
    = Some (r', Ok (acc ++ concat (List.map snd pages)))
    /\ Backfill.self r' = Backfill.self r
    /\ provider (Backfill.world r') = rest
    /\ requests_of (trace (Backfill.world r'))
       = requests_of (trace (Backfill.world r))
         ++ page_requests (Backfill.access_token (Backfill.self r))
              after_timestamp per_page page (S (List.length pages)).
Proof.
  revert fuel page acc r.
  induction pages as [|[hs items] pages IH]; intros fuel page acc r Hne P Hfuel.
  - destruct fuel as [|fuel]; [cbn in Hfuel; lia|].
    cbn [Backfill.fetch_loop]. rewrite (fetch_round_page _ _ _ _ _ _ _ _ P).
    eexists. split; [by rewrite app_nil_r|].
    cbn. rewrite requests_of_app, Z.add_0_r, P. auto.
  - destruct fuel as [|fuel]; [cbn in Hfuel; lia|].
    apply Forall_cons in Hne as [Hi Hne]. cbn [snd] in Hi.
    cbn [Backfill.fetch_loop]. rewrite (fetch_round_page _ _ _ _ _ _ _ _ P).
    destruct items as [|a items]; [congruence|]. cbn [snd fst]. cbv beta iota zeta.
    lazymatch goal with
    | |- context [Backfill.fetch_loop _ _ _ _ _ ?R] =>
        destruct (IH fuel (page + 1) (acc ++ a :: items) R Hne) as (r' & E & Hs & Hp & Hr)
    end.
    { cbn. rewrite P. reflexivity. }
    { cbn in Hfuel. lia. }
    exists r'. rewrite E. split; [|split; [|split]].
    + cbn [List.map concat snd]. by rewrite app_assoc.
    + rewrite Hs. reflexivity.
    + exact Hp.
    + rewrite Hr. cbn [Backfill.world Backfill.with_world after_sleep after_send trace
        Backfill.self Backfill.access_token].
      rewrite !requests_of_app, requests_of_sent, requests_of_slept, app_nil_r, <- app_assoc.
      f_equal. cbn [List.length]. by rewrite (page_requests_S _ _ _ page).
Qed.

(** A call that returns an answer has used up at least one of the
    provider's answers. *)
Lemma retry_loop_consumes (attempts : list nat) (last : option Response)
    (rq : Request) (w : World) (response : Response) :
  attempts <> [] ->
  (Backfill.retry_loop attempts last rq w).2 = Ok response ->
  (List.length (provider (Backfill.retry_loop attempts last rq w).1)
   < List.length (provider w))%nat.
Proof.
  revert last w. induction attempts as [|a attempts IH]; intros last w Hne; [congruence|].
  rewrite retry_loop_cons.
  destruct (provider w) as [|[r|] rest] eqn:P; cbn [snd]; try discriminate.
  destruct (status_code r =? 429).
  - destruct (diagnostics r); cbn [snd]; [|discriminate].
    destruct attempts as [|a' attempts].
    + cbn. rewrite P. cbn. lia.
    + intros H. specialize (IH (Some r) (backoff rq w) ltac:(congruence) H).
      cbn [backoff after_sleep after_send provider] in IH. rewrite P in IH.
      cbn [tail List.length] in *. lia.
  - cbn. rewrite P. cbn. lia.
Qed.

Lemma fetch_round_consumes (after_timestamp per_page page : Z) (acc acc' : list json)
    (r : Backfill.Run) :
  (Backfill.fetch_round after_timestamp per_page page acc r).2 = Ok (inl acc') ->
  (List.length (provider (Backfill.world
      (Backfill.fetch_round after_timestamp per_page page acc r).1))
   < List.length (provider (Backfill.world r)))%nat.
Proof.
  unfold Backfill.fetch_round.
  cbv beta iota delta [mbind M_bind gets Backfill.io lift raise mret M_ret].
  pose proof (retry_loop_consumes (seq 0 Backfill.MAX_RETRIES) None
    (Backfill.page_request (Backfill.access_token (Backfill.self r))
       after_timestamp per_page page) (Backfill.world r)) as C.
  fold (Backfill._make_request_with_retry
    (Backfill.page_request (Backfill.access_token (Backfill.self r))
       after_timestamp per_page page)) in C.
  destruct (Backfill._make_request_with_retry _ (Backfill.world r)) as [w' [response|e]];
    cbn [fst snd] in *; [|discriminate].
  specialize (C response ltac:(discriminate) eq_refl).
  destruct (status_code response =? 200); cbn [negb snd]; [|discriminate].
  destruct (response_json response) as [page_activities|e]; cbn [snd]; [|discriminate].
  destruct (truthy page_activities); cbn [negb snd]; [|discriminate].
  destruct (Backfill.extend acc page_activities); cbn [snd fst]; [|discriminate].
  intros _. exact C.
Qed.

(** With more fuel than the provider has answers, the loop comes to an
    end, however the provider answers. *)
Lemma fetch_loop_total (fuel : nat) (after_timestamp per_page page : Z)
    (acc : list json) (r : Backfill.Run) :
  (List.length (provider (Backfill.world r)) < fuel)%nat ->
  is_Some (Backfill.fetch_loop fuel after_timestamp per_page page acc r).
Proof.
  revert page acc r. induction fuel as [|fuel IH]; intros page acc r H; [lia|].
  cbn [Backfill.fetch_loop].
  pose proof (fetch_round_consumes after_timestamp per_page page acc) as C.
  destruct (Backfill.fetch_round after_timestamp per_page page acc r)
    as [r' [[acc'|final]|e]] eqn:E; try (eexists; reflexivity).
  apply IH. specialize (C acc' r). rewrite E in C. cbn [fst snd] in C.
  specialize (C eq_refl). lia.
Qed.


(** C7. Against a provider that serves non-empty pages and then an empty
    one, the fetch asks for pages 1, 2, ... with [per_page] 100, one
    request per page, ends with the request that brings the empty page,
    returns the pages joined in the order received and records their
    total size. *)
Theorem fetch_activities_pagination (b : Backfill.Backfiller) (w : World)
    (pages : list (gmap string string * list json)) (hs_last : gmap string string)
    (rest : list outcome) (fuel : nat) (after_timestamp : Z) :
  Forall (fun p => p.2 <> []) pages ->
  provider w = listing pages hs_last rest ->
  (List.length pages < fuel)%nat ->
  exists r',
    Backfill.fetch_activities fuel after_timestamp Backfill.default_per_page
      (Backfill.mk_run b w)
    = Some (r', Ok (concat (List.map snd pages)))
    /\ Backfill.total_fetched (stats_of r')
       = Z.of_nat (sum_list_with (fun p => List.length p.2) pages)
    /\ provider (Backfill.world r') = rest
    /\ requests_of (trace (Backfill.world r'))
       = requests_of (trace w)
         ++ page_requests (Backfill.access_token b) after_timestamp 100 1
              (S (List.length pages)).
Proof.
  intros Hne P Hfuel.
  destruct (fetch_loop_listing pages hs_last rest fuel after_timestamp
              Backfill.default_per_page 1 [] (Backfill.mk_run b w) Hne P Hfuel)
    as (r' & E & Hs & Hp & Hr).
  unfold Backfill.fetch_activities. rewrite E. cbn [app].
  eexists. split; [reflexivity|].
  cbn. rewrite length_concat_pages. auto.
Qed.

Lemma fetch_activities_pagination_witness :
  let a := fun n : Z => JObj [("id", JNum n); ("type", JStr "Walk")] in
  let pages : list (gmap string string * list json) := [(∅, [a 1; a 2]); (∅, [a 3])] in
  let b := Backfill.__init__ "id" "secret" "refresh" "UTC" false in
  let w := mk_world (listing pages ∅ [Unreachable]) 0 None [] [] in
  exists r',
    Backfill.fetch_activities 3 1700000000 Backfill.default_per_page (Backfill.mk_run b w)
    = Some (r', Ok [a 1; a 2; a 3])
    /\ Backfill.total_fetched (stats_of r') = 3
    /\ provider (Backfill.world r') = [Unreachable].
Proof.
  intros a pages b w.
  destruct (fetch_activities_pagination b w pages ∅ [Unreachable] 3 1700000000)
    as (r' & E & T & P & _).
  - repeat constructor; discriminate.
  - reflexivity.
  - cbn. lia.
  - exists r'. split; [exact E|]. split; [exact T|exact P].
Defined.

(** ** Token refresh *)

Ltac world_norm :=
  cbv beta;
  cbn [firestore_doc firestore_faults provider trace clock tail negb py_get
       Main.after_firestore_call Main.after_store after_send after_sleep].

(** Everything the event path's [get_access_token] can do. *)
Lemma main_get_access_token_run (cid sec : option string) (w : World) :
  Main.get_access_token cid sec w
  = let w0 := Main.after_firestore_call w in
    match firestore_faults w with
    | true :: _ => (w0, Raise FirestoreError)
    | _ =>
        match firestore_doc w with
        | None => (w0, Raise ValueError)
        | Some config =>
            let sent := default JNull (config !! "refresh_token") in
            if negb (truthy sent) then (w0, Raise ValueError)
            else if negb (truthy (Main.env_json cid)) || negb (truthy (Main.env_json sec))
            then (w0, Raise ValueError)
            else
              let w1 := after_send (token_request cid sec sent) w0 in
              match provider w with
              | Responds response :: _ =>
                  if negb (status_code response =? 200)
                  then (w1, Raise (Failure "Failed to refresh token" (status_code response)))
                  else
                    match payload response with
                    | Some (JObj token_data) =>
                        let returned := field token_data "refresh_token" JNull in
                        if rotated returned sent then
                          let w2 := Main.after_firestore_call w1 in
                          match tail (firestore_faults w) with
                          | true :: _ => (w2, Raise FirestoreError)
                          | _ => (Main.after_store "refresh_token" returned config w2,
                                  Ok (field token_data "access_token" JNull))
                          end
                        else (w1, Ok (field token_data "access_token" JNull))
                    | Some _ => (w1, Raise AttributeError)
                    | None => (w1, Raise ValueError)
                    end
              | _ => (w1, Raise ConnectionError)
              end
        end
    end.
Proof.
  unfold Main.get_access_token, Main.get_firestore_config, Main.update_firestore_config,
    Main.firestore_call, rotated, field, response_json, token_request.
  cbv beta iota zeta delta [mbind M_bind gets lift raise mret M_ret modify requests_request].
  destruct (firestore_faults w) as [|[|] faults] eqn:F; try reflexivity;
    (destruct (firestore_doc w) as [config|] eqn:D; world_norm; rewrite ?D; [|reflexivity]);
    (destruct (truthy (default JNull (config !! "refresh_token"))); [|reflexivity]);
    world_norm;
    (destruct (negb (truthy (Main.env_json cid)) || negb (truthy (Main.env_json sec)));
       [reflexivity|]);
    world_norm;
    (destruct (provider w) as [|[response|] rest]; world_norm; try reflexivity);
    (destruct (status_code response =? 200); world_norm; [|reflexivity]);
    world_norm;
    (destruct (payload response) as [[| | | | |token_data]|]; try reflexivity);
    world_norm;
    (destruct (truthy (default JNull (assoc_get "refresh_token" token_data))
               && negb (py_eq (default JNull (assoc_get "refresh_token" token_data))
                              (default JNull (config !! "refresh_token"))));
       [|reflexivity]);
    world_norm; rewrite ?F, ?D; world_norm; try reflexivity;
    destruct faults as [|[|] faults']; reflexivity.
Qed.

(** Split on every test a hypothesis still branches on; the branches that
    raise go away. *)
Ltac crunch H :=
  repeat (cbn [negb] in H;
          match type of H with
          | context [match ?x with _ => _ end] => destruct x eqn:?
          end);
  try discriminate H.

(** The event path: a refresh that succeeds has written a rotated
    refresh token to the Firestore document before it returns, and has
    left the document alone otherwise.  A failed write makes the refresh
    raise, since no [Ok] comes without it. *)
Lemma main_get_access_token_persists (cid sec : option string) (w w' : World) (tok : json) :
  Main.get_access_token cid sec w = (w', Ok tok) ->
  exists (config : gmap string json) (response : Response)
         (token_data : list (string * json)),
    let sent := default JNull (config !! "refresh_token") in
    let returned := field token_data "refresh_token" JNull in
    firestore_doc w = Some config
    /\ provider w = Responds response :: provider w'
    /\ status_code response = 200
    /\ payload response = Some (JObj token_data)
    /\ tok = field token_data "access_token" JNull
    /\ if rotated returned sent
       then firestore_doc w' = Some (<["refresh_token" := returned]> config)
            /\ trace w' = trace w ++ [Sent (token_request cid sec sent);
                                      Stored "refresh_token" returned]
       else firestore_doc w' = Some config
            /\ trace w' = trace w ++ [Sent (token_request cid sec sent)].
Proof.
  rewrite main_get_access_token_run. cbv zeta.
  destruct (firestore_doc w) as [config|] eqn:D; [|by (intros H; crunch H)].
  destruct (provider w) as [|[response|] rest] eqn:P; try (by (intros H; crunch H)).
  destruct (status_code response =? 200) eqn:S; [|by (intros H; crunch H)].
  destruct (payload response) as [[| | | | |token_data]|] eqn:Pay;
    try (by (intros H; crunch H)).
  intros H. exists config, response, token_data. cbv zeta.
  apply Z.eqb_eq in S.
  destruct (rotated (field token_data "refresh_token" JNull)
                    (default JNull (config !! "refresh_token")));
    crunch H; injection H as <- <-; world_norm; rewrite ?P, <- ?app_assoc;
    auto 10.
Qed.

(** The batch script's [get_access_token] never touches the Firestore
    document, whatever the provider answers. *)
Lemma backfill_get_access_token_never_stores (r : Backfill.Run) :
  firestore_doc (Backfill.world (Backfill.get_access_token r).1)
  = firestore_doc (Backfill.world r)
  /\ Backfill.refresh_token (Backfill.self (Backfill.get_access_token r).1)
     = Backfill.refresh_token (Backfill.self r).
Proof.
  unfold Backfill.get_access_token.
  cbv beta iota delta [mbind M_bind gets lift raise mret M_ret modify Backfill.io
                       Backfill.set_access_token].
  match goal with
  | |- context [Backfill._make_request_with_retry ?rq (Backfill.world r)] =>
      pose proof (retry_at_most_three rq (Backfill.world r)) as (n & _ & _ & _ & _ & Hd & _);
      destruct (Backfill._make_request_with_retry rq (Backfill.world r)) as [w' [resp|e]]
  end; cbn [fst] in Hd; [|by cbn].
  destruct (status_code resp =? 200); cbn [negb]; [|by cbn].
  destruct (response_json resp) as [token_data|e]; [|by cbn].
  destruct (py_get token_data "access_token" JNull); by cbn.
Qed.

(** C3, at the failing input: the batch script refreshes with ["old"],
    the provider answers with the rotated token ["new"], the refresh
    succeeds, and both the Firestore document and the script still hold
    ["old"].  On the same world the event path stores ["new"]. *)
Theorem backfill_refresh_drops_rotated_token :
  let b := Backfill.__init__ "id" "secret" "old" "UTC" false in
  let answer := mk_response 200 ∅
    (Some (JObj [("access_token", JStr "tok"); ("refresh_token", JStr "new")])) in
  let w := mk_world [Responds answer] 0
    (Some (list_to_map [("refresh_token", JStr "old")])) [] [] in
  let run := Backfill.get_access_token (Backfill.mk_run b w) in
  run.2 = Ok (JStr "tok")
  /\ firestore_doc (Backfill.world run.1) = Some (list_to_map [("refresh_token", JStr "old")])
  /\ Backfill.refresh_token (Backfill.self run.1) = "old"
  /\ (Main.get_access_token (Some "id") (Some "secret") w).2 = Ok (JStr "tok")
  /\ firestore_doc (Main.get_access_token (Some "id") (Some "secret") w).1
     = Some (list_to_map [("refresh_token", JStr "new")]).
Proof. repeat split; vm_compute; reflexivity. Qed.

(** ** The event driver always acknowledges *)

Lemma answers_OK_ret : answers_OK (mret Main.OK).
Proof. intros w. reflexivity. Qed.

Lemma answers_OK_bind {A} (m : M World A) (f : A -> M World Main.Reply) :
  (forall a, answers_OK (f a)) -> answers_OK (m ≫= f).
Proof.
  intros H w. rewrite bind_run. destruct (m w) as [w' [a|e]]; [apply H|exact I].
Qed.

Lemma answers_OK_try (m : M World Main.Reply) (h : exn -> M World Main.Reply) :
  answers_OK m -> (forall e, answers_OK (h e)) -> answers_OK (try_except m h).
Proof.
  intros Hm Hh w. unfold try_except. specialize (Hm w).
  destruct (m w) as [w' [a|e]]; [exact Hm|apply Hh].
Qed.

Lemma answers_OK_if (b : bool) (m1 m2 : M World Main.Reply) :
  answers_OK m1 -> answers_OK m2 -> answers_OK (if b then m1 else m2).
Proof. by destruct b. Qed.

(** The body of [handle_event_processing] returns nothing but
    [("OK", 200)]. *)
Lemma handle_event_processing_answers_OK (cid sec : option string)
    (request : Main.HttpRequest) :
  answers_OK (Main.handle_event_processing cid sec request).
Proof.
  unfold Main.handle_event_processing.
  repeat first
    [ apply answers_OK_ret
    | apply answers_OK_try; [|intros ?]
    | apply answers_OK_if
    | apply answers_OK_bind; intros ?
    | match goal with
      | |- answers_OK (match ?x with _ => _ end) => destruct x
      end ].
Qed.

(** C8. For every inbound POST, whatever its body, whatever the Firestore
    document and the provider do, the webhook answers [("OK", 200)]: no
    failure of any stage reaches the caller. *)
Theorem webhook_post_always_200 (cid sec : option string)
    (request : Main.HttpRequest) (w : World) :
  Main.http_method request = "POST" ->
  (Main.strava_webhook cid sec request w).2 = Ok (Main.Text "OK", 200).
Proof.
  intros Hm. unfold Main.strava_webhook, try_except. rewrite Hm.
  cbn [String.eqb Ascii.eqb Bool.eqb].
  pose proof (handle_event_processing_answers_OK cid sec request w) as H.
  assert (T : exists w', Main.handle_event_processing cid sec request w = (w', Ok Main.OK)).
  { unfold Main.handle_event_processing, try_except in *.
    match goal with
    | |- context [match ?m w with _ => _ end] => destruct (m w) as [w' [a|e]]
    end; cbn [snd] in H; [subst a|]; eexists; reflexivity. }
  destruct T as [w' ->]. reflexivity.
Qed.

Lemma webhook_post_always_200_witness :
  let request := Main.mk_http_request "POST" ∅
    (JObj [("aspect_type", JStr "create"); ("object_id", JNum 42)]) in
  let w := mk_world [Responds (mk_response 401 ∅ None)] 0
    (Some (list_to_map [("refresh_token", JStr "r0")])) [] [] in
  (Main.strava_webhook (Some "id") (Some "secret") request w).2 = Ok (Main.Text "OK", 200).
Proof.
  intros request w. apply (webhook_post_always_200 (Some "id") (Some "secret") request w).
  reflexivity.
Defined.

(** The stages the specification lists, each failing in turn: no body, an
    update event, no object id, no Firestore document, a rejected
    refresh, a failed fetch, a run, an indoor walk, no timestamp, an
    unreadable timestamp, a rejected rename. *)
Example webhook_acknowledges_each_failure :
  let post := Main.mk_http_request "POST" ∅ in
  let create := post (JObj [("aspect_type", JStr "create"); ("object_id", JNum 42)]) in
  let doc : option (gmap string json) := Some (list_to_map [("refresh_token", JStr "r0")]) in
  let token := Responds (mk_response 200 ∅ (Some (JObj [("access_token", JStr "tok")]))) in
  let activity := fun fields => Responds (mk_response 200 ∅ (Some (JObj fields))) in
  let walk := fun start =>
    activity [("type", JStr "Walk"); ("trainer", JBool false); ("start_date_local", start)] in
  let run := fun request provider doc =>
    (Main.strava_webhook (Some "id") (Some "secret") request
       (mk_world provider 0 doc [] [])).2 in
  [run (post JNull) [] doc;
   run (post (JObj [("aspect_type", JStr "update"); ("object_id", JNum 42)])) [] doc;
   run (post (JObj [("aspect_type", JStr "create")])) [] doc;
   run create [] None;
   run create [Responds (mk_response 401 ∅ None)] doc;
   run create [token; Responds (mk_response 404 ∅ None)] doc;
   run create [token; activity [("type", JStr "Run")]] doc;
   run create [token; activity [("type", JStr "Walk"); ("trainer", JBool true)]] doc;
   run create [token; activity [("type", JStr "Walk")]] doc;
   run create [token; walk (JStr "yesterday")] doc;
   run create [token; walk (JStr "2024-12-26T07:30:00Z"); Responds (mk_response 500 ∅ None)] doc]
  = replicate 11 (Ok Main.OK).
Proof. vm_compute. reflexivity. Qed.

(** * Further properties of main.py *)

(** ** The subscription handshake *)

(** Everything [handle_webhook_verification] can do. *)
Lemma handle_webhook_verification_run (request : Main.HttpRequest) (w : World) :
  Main.handle_webhook_verification request w
  = if negb (truthy (Main.arg request "hub.mode")
             && truthy (Main.arg request "hub.challenge")
             && truthy (Main.arg request "hub.verify_token"))
    then (w, Ok (Main.Text "Bad Request", 400))
    else
      let w0 := Main.after_firestore_call w in
      match firestore_faults w with
      | true :: _ => (w0, Ok (Main.Text "Internal Server Error", 500))
      | _ =>
          match firestore_doc w with
          | None => (w0, Ok (Main.Text "Internal Server Error", 500))
          | Some config =>
              let stored := default JNull (config !! "verify_token") in
              if negb (truthy stored)
              then (w0, Ok (Main.Text "Internal Server Error", 500))
              else if negb (py_eq (Main.arg request "hub.verify_token") stored)
              then (w0, Ok (Main.Text "Forbidden", 403))
              else (w0, Ok (Main.JsonDumps
                              [("hub.challenge", Main.arg request "hub.challenge")], 200))
          end
      end.
Proof.
  unfold Main.handle_webhook_verification, Main.get_firestore_config, Main.firestore_call,
    try_except.
  destruct (negb _); [reflexivity|].
  cbv beta iota zeta delta [mbind M_bind gets lift raise mret M_ret].
  cbn [firestore_doc Main.after_firestore_call].
  destruct (firestore_faults w) as [|[|] faults]; try reflexivity;
    (destruct (firestore_doc w) as [config|]; [|reflexivity]);
    (destruct (truthy (default JNull (config !! "verify_token"))); [|reflexivity]);
    cbn [negb];
    destruct (py_eq _ _); reflexivity.
Qed.

Lemma truthy_arg (request : Main.HttpRequest) (k : string) :
  truthy (Main.arg request k) = true
  <-> exists v, Main.args request !! k = Some v /\ v <> "" /\ Main.arg request k = JStr v.
Proof.
  unfold Main.arg, Main.env_json. destruct (Main.args request !! k) as [v|]; cbn.
  - destruct (String.eqb_spec v ""); cbn; split.
    + discriminate.
    + intros (v' & [= <-] & N & _). contradiction.
    + intros _. eauto.
    + reflexivity.
  - split; [discriminate|]. intros (v & E & _). discriminate.
Qed.

Lemma py_eq_str (s : string) (v : json) : py_eq (JStr s) v = true <-> v = JStr s.
Proof.
  destruct v; cbn; try (split; congruence).
  destruct (String.eqb_spec s s0); split; congruence.
Qed.

(** X1. The handshake is answered with status 200 exactly when the three
    parameters are present and non-empty, the Firestore document can be
    read and its [verify_token] is the string that was sent; the body is
    then the challenge, and it is never given out otherwise. *)
Theorem verification_echoes_iff_token_matches (request : Main.HttpRequest) (w : World)
    (body : Main.body) :
  (Main.handle_webhook_verification request w).2 = Ok (body, 200)
  <-> exists challenge : string,
        handshake_ok request w challenge
        /\ body = Main.JsonDumps [("hub.challenge", JStr challenge)].
Proof.
  rewrite handle_webhook_verification_run. cbv zeta. split.
  - destruct (truthy (Main.arg request "hub.mode")) eqn:Tm; cbn [andb negb snd];
      [|discriminate].
    destruct (truthy (Main.arg request "hub.challenge")) eqn:Tc; cbn [andb negb snd];
      [|discriminate].
    destruct (truthy (Main.arg request "hub.verify_token")) eqn:Tt; cbn [andb negb snd];
      [|discriminate].
    apply truthy_arg in Tm as (mode & Em & Nm & _).
    apply truthy_arg in Tc as (challenge & Ec & Nc & Ac).
    apply truthy_arg in Tt as (token & Et & Nt & At).
    rewrite Ac, At.
    assert (F : head (firestore_faults w) <> Some true ->
                forall config, firestore_doc w = Some config ->
                truthy (default JNull (config !! "verify_token")) = true ->
                py_eq (JStr token) (default JNull (config !! "verify_token")) = true ->
                handshake_ok request w challenge).
    { intros Hf config D _ Heq. exists mode, token, config.
      apply py_eq_str in Heq. repeat split; auto.
      destruct (config !! "verify_token"); cbn in Heq; congruence. }
    destruct (firestore_faults w) as [|[|] faults]; cbn [snd head] in *; try discriminate;
      (destruct (firestore_doc w) as [config|]; cbn [snd]; [|discriminate]);
      (destruct (truthy (default JNull (config !! "verify_token"))) eqn:Ts;
         cbn [negb snd]; [|discriminate]);
      (destruct (py_eq (JStr token) (default JNull (config !! "verify_token"))) eqn:Heq;
         cbn [negb snd]; [|discriminate]);
      intros [= <-]; exists challenge; (split; [apply (F ltac:(discriminate) config); auto|]);
      reflexivity.
  - intros (challenge & (mode & token & config & Em & Nm & Ec & Nc & Et & Nt & Hf & D & V)
            & ->).
    assert (Tm : truthy (Main.arg request "hub.mode") = true)
      by (apply truthy_arg; unfold Main.arg; rewrite Em; eauto).
    assert (Tc : truthy (Main.arg request "hub.challenge") = true)
      by (apply truthy_arg; unfold Main.arg; rewrite Ec; eauto).
    assert (Tt : truthy (Main.arg request "hub.verify_token") = true)
      by (apply truthy_arg; unfold Main.arg; rewrite Et; eauto).
    rewrite Tm, Tc, Tt. cbn [andb negb]. rewrite D, V.
    unfold Main.arg. rewrite Et, Ec.
    cbn [default from_option id Main.env_json truthy py_eq].
    rewrite String.eqb_refl.
    destruct (String.eqb_spec token ""); [contradiction|]. cbn [negb].
    destruct (firestore_faults w) as [|[|] faults]; cbn [head] in Hf; try congruence;
      reflexivity.
Qed.

(** ** The entry point *)

Lemma handle_event_processing_returns (cid sec : option string)
    (request : Main.HttpRequest) (w : World) :
  (Main.handle_event_processing cid sec request w).2 = Ok Main.OK.
Proof.
  pose proof (handle_event_processing_answers_OK cid sec request w) as H.
  unfold Main.handle_event_processing, try_except in *.
  match goal with
  | |- context [match ?m w with _ => _ end] => destruct (m w) as [w' [a|e]]
  end; cbn [snd] in *; [subst a|]; reflexivity.
Qed.

(** Split on every test of the handshake, outermost first. *)
Ltac handshake_cases w :=
  rewrite handle_webhook_verification_run; cbv zeta;
  (destruct (negb (_ && _ && _)); [|
   destruct (firestore_faults w) as [|[|] ?];
   (try (destruct (firestore_doc w) as [?config|] eqn:?;
         [destruct (negb (truthy _)); [|destruct (negb (py_eq _ _))]|]))]).

(** X2. The webhook entry point never raises: whatever the method, the
    body, the Firestore document and the provider, it returns a reply,
    with status 200, 400, 403, 405 or 500, and the status is 405 exactly
    for a method other than GET and POST. *)
Theorem strava_webhook_always_replies (cid sec : option string)
    (request : Main.HttpRequest) (w : World) :
  exists (body : Main.body) (status : Z),
    (Main.strava_webhook cid sec request w).2 = Ok (body, status)
    /\ status ∈ [200; 400; 403; 405; 500]
    /\ (status = 405 <->
        Main.http_method request <> "GET" /\ Main.http_method request <> "POST").
Proof.
  unfold Main.strava_webhook, try_except.
  destruct (String.eqb_spec (Main.http_method request) "GET") as [G|G].
  - handshake_cases w;
      eexists _, _; (split; [reflexivity|]); (split; [set_solver|]);
      (split; [discriminate|tauto]).
  - destruct (String.eqb_spec (Main.http_method request) "POST") as [P|P].
    + pose proof (handle_event_processing_returns cid sec request w) as H.
      destruct (Main.handle_event_processing cid sec request w) as [w' r].
      cbn [snd] in H. subst r. eexists _, _. split; [reflexivity|].
      split; [set_solver|]. split; [discriminate|tauto].
    + eexists _, _. split; [reflexivity|]. split; [set_solver|]. tauto.
Qed.

(** X3. Outside POST the webhook only reads: for a GET or an unsupported
    method no request is sent to the provider, nothing is slept, and the
    Firestore document is left as it was. *)
Theorem strava_webhook_reads_only_outside_post (cid sec : option string)
    (request : Main.HttpRequest) (w : World) :
  Main.http_method request <> "POST" ->
  let w' := (Main.strava_webhook cid sec request w).1 in
  provider w' = provider w /\ trace w' = trace w
  /\ clock w' = clock w /\ firestore_doc w' = firestore_doc w.
Proof.
  intros P. unfold Main.strava_webhook, try_except.
  destruct (String.eqb_spec (Main.http_method request) "GET") as [G|G].
  - handshake_cases w; cbn; repeat split; congruence.
  - destruct (String.eqb_spec (Main.http_method request) "POST"); [contradiction|].
    cbn. auto.
Qed.

Lemma strava_webhook_reads_only_outside_post_witness :
  let request := Main.mk_http_request "GET"
    (list_to_map [("hub.mode", "subscribe"); ("hub.challenge", "c0");
                  ("hub.verify_token", "secret")]) JNull in
  let w := mk_world [Unreachable] 0
    (Some (list_to_map [("verify_token", JStr "secret")])) [] [] in
  let w' := (Main.strava_webhook None None request w).1 in
  provider w' = provider w /\ trace w' = trace w
  /\ clock w' = clock w /\ firestore_doc w' = firestore_doc w.
Proof.
  intros request w.
  apply (strava_webhook_reads_only_outside_post None None request w). discriminate.
Defined.

(** ** The event path, in full *)

Lemma get_activity_details_run (activity_id tok : json) (w : World) :
  Main.get_activity_details activity_id tok w
  = (after_send (details_request tok activity_id) w,
     match provider w with
     | Responds r :: _ =>
         if status_code r =? 200 then response_json r
         else Raise (Failure "Failed to fetch activity" (status_code r))
     | _ => Raise ConnectionError
     end).
Proof.
  unfold Main.get_activity_details.
  cbv beta iota delta [mbind M_bind requests_request lift raise].
  destruct (provider w) as [|[r|] rest]; try reflexivity.
  destruct (status_code r =? 200); reflexivity.
Qed.

(** Unfold the event handler along the tests already decided. *)
Ltac event_unfold :=
  unfold Main.handle_event_processing, try_except, field in *;
  repeat match goal with
         | H : Main.get_json _ = _ |- _ => rewrite H
         end;
  match goal with
  | |- context [truthy (JObj ?ev)] => destruct ev; [try discriminate; reflexivity|]
  end;
  cbn [truthy negb];
  cbv beta iota delta [mbind M_bind lift py_get mret M_ret];
  repeat (match goal with
          | H : _ = _ |- _ => rewrite H
          end; cbn [negb]; cbv beta iota).

(** Everything [handle_event_processing] can do. *)
Lemma handle_event_processing_full (cid sec : option string)
    (request : Main.HttpRequest) (w : World) :
  Main.handle_event_processing cid sec request w
  = match event_object request with
    | None => (w, Ok Main.OK)
    | Some object_id =>
        match Main.get_access_token cid sec w with
        | (w1, Raise _) => (w1, Ok Main.OK)
        | (w1, Ok tok) =>
            match Main.get_activity_details object_id tok w1 with
            | (w2, Raise _) => (w2, Ok Main.OK)
            | (w2, Ok (JObj fields)) =>
                if negb (eq_str (field fields "type" JNull) "Walk") then (w2, Ok Main.OK)
                else if truthy (field fields "trainer" (JBool false)) then (w2, Ok Main.OK)
                else if negb (truthy (field fields "start_date_local" JNull))
                then (w2, Ok Main.OK)
                else
                  match Main.determine_activity_name
                          (field fields "start_date_local" JNull) with
                  | Raise _ => (w2, Ok Main.OK)
                  | Ok new_name =>
                      (after_send (rename_request tok object_id new_name) w2, Ok Main.OK)
                  end
            | (w2, Ok _) => (w2, Ok Main.OK)
            end
        end
    end.
Proof.
  unfold event_object.
  destruct (Main.get_json request) as [| | | | |ev] eqn:J;
    try (unfold Main.handle_event_processing, try_except; rewrite J;
         cbn [truthy negb];
         repeat match goal with
                | |- context [if ?b then _ else _] => destruct b
                end; reflexivity).
  destruct (eq_str (field ev "aspect_type" JNull) "create") eqn:A; cbn [andb];
    [|by event_unfold].
  destruct (truthy (field ev "object_id" JNull)) eqn:T; [|by event_unfold].
  destruct (Main.get_access_token cid sec w) as [w1 [tok|e]] eqn:Htok;
    [|by event_unfold].
  destruct (Main.get_activity_details (field ev "object_id" JNull) tok w1)
    as [w2 [activity|e]] eqn:Hact; [|by event_unfold].
  destruct activity as [| | | | |fields]; try (by event_unfold).
  apply handle_event_processing_run with (w1 := w1); [|assumption|assumption].
  exists ev. auto.
Qed.

(** X4. An event that does not announce a creation costs nothing: when
    the body is missing, is not a dict, has an [aspect_type] other than
    ["create"] or has no usable [object_id], the handler acknowledges
    without reading Firestore and without sending any request. *)
Theorem other_events_touch_nothing (cid sec : option string)
    (request : Main.HttpRequest) (w : World) :
  event_object request = None ->
  Main.handle_event_processing cid sec request w = (w, Ok Main.OK).
Proof. intros H. rewrite handle_event_processing_full, H. reflexivity. Qed.

Lemma other_events_touch_nothing_witness :
  let request := Main.mk_http_request "POST" ∅
    (JObj [("aspect_type", JStr "update"); ("object_id", JNum 42)]) in
  let w := mk_world [Unreachable] 0 None [true] [] in
  Main.handle_event_processing (Some "id") (Some "secret") request w = (w, Ok Main.OK).
Proof.
  intros request w.
  apply (other_events_touch_nothing (Some "id") (Some "secret") request w). reflexivity.
Defined.

(** What a token refresh of the event path sends: nothing, or the one
    token request; and it sends it whenever it succeeds. *)
Lemma main_get_access_token_sends (cid sec : option string) (w : World) :
  let run := Main.get_access_token cid sec w in
  (requests_of (trace run.1) = requests_of (trace w)
   /\ exists e, run.2 = Raise e)
  \/ exists sent, requests_of (trace run.1)
                  = requests_of (trace w) ++ [token_request cid sec sent].
Proof.
  rewrite main_get_access_token_run. cbv zeta.
  destruct (firestore_doc w) as [config|];
    [|left; destruct (firestore_faults w) as [|[|] ?]; cbn; eauto].
  destruct (negb (truthy (default JNull (config !! "refresh_token"))));
    [left; destruct (firestore_faults w) as [|[|] ?]; cbn; eauto|].
  destruct (negb (truthy (Main.env_json cid)) || negb (truthy (Main.env_json sec)));
    [left; destruct (firestore_faults w) as [|[|] ?]; cbn; eauto|].
  destruct (firestore_faults w) as [|[|] faults]; [|left; cbn; eauto|];
    right; exists (default JNull (config !! "refresh_token"));
    repeat match goal with
           | |- context [match ?x with _ => _ end] => destruct x
           end;
    cbn [fst trace after_send Main.after_firestore_call Main.after_store];
    rewrite ?requests_of_app; cbn [requests_of omap app]; by rewrite ?app_nil_r.
Qed.

Lemma main_name_in_labels (start : json) (name : string) :
  Main.determine_activity_name start = Ok name ->
  name ∈ [Main.MORNING; Main.LUNCH; Main.EVENING].
Proof.
  unfold Main.determine_activity_name. destruct start; try discriminate.
  destruct (fromisoformat _) as [dt|]; [|discriminate]. cbn.
  intros [= <-]. unfold name_for_hour.
  repeat match goal with |- context [if ?b then _ else _] => destruct b end; set_solver.
Qed.

(** X5. One event makes the handler send at most three requests, in the
    order token request, activity fetch, rename; a rename, when there is
    one, is for the announced object and sets one of the three labels. *)
Theorem event_sends_at_most_three_requests (cid sec : option string)
    (request : Main.HttpRequest) (w : World) :
  exists sent : list Request,
    requests_of (trace (Main.handle_event_processing cid sec request w).1)
    = requests_of (trace w) ++ sent
    /\ List.map rq_method sent `prefix_of` ["POST"; "GET"; "PUT"]
    /\ forall rq, rq ∈ sent -> rq_method rq = "PUT" ->
         exists (tok object_id : json) (name : string),
           event_object request = Some object_id
           /\ rq = rename_request tok object_id name
           /\ name ∈ [Main.MORNING; Main.LUNCH; Main.EVENING].
Proof.
  rewrite handle_event_processing_full.
  destruct (event_object request) as [object_id|];
    [|exists []; rewrite app_nil_r; split; [reflexivity|]; split;
      [apply prefix_nil|intros rq H; by apply elem_of_nil in H]].
  pose proof (main_get_access_token_sends cid sec w) as S. cbv zeta in S.
  destruct (Main.get_access_token cid sec w) as [w1 [tok|e]]; cbn [fst snd] in S.
  2:{ cbn [fst]. destruct S as [[S _]|[sent S]]; rewrite S.
      - exists []. rewrite app_nil_r. split; [reflexivity|]. split; [apply prefix_nil|].
        intros rq H. by apply elem_of_nil in H.
      - eexists. split; [reflexivity|]. split; [by exists ["GET"; "PUT"]|].
        intros rq H M. apply list_elem_of_singleton in H. subst rq. discriminate M. }
  destruct S as [[_ [e S]]|[sent S]]; [discriminate S|].
  rewrite get_activity_details_run.
  assert (Two : forall res : result Main.Reply,
    exists l, requests_of (trace (after_send (details_request tok object_id) w1, res).1)
              = requests_of (trace w) ++ l
      /\ List.map rq_method l `prefix_of` ["POST"; "GET"; "PUT"]
      /\ forall rq, rq ∈ l -> rq_method rq = "PUT" ->
           exists (tok' object_id' : json) (name : string),
             Some object_id = Some object_id'
             /\ rq = rename_request tok' object_id' name
             /\ name ∈ [Main.MORNING; Main.LUNCH; Main.EVENING]).
  { intros res. exists [token_request cid sec sent; details_request tok object_id].
    cbn [fst after_send trace]. rewrite requests_of_app, S, <- app_assoc.
    split; [reflexivity|]. split; [by exists ["PUT"]|].
    intros rq H M. apply list_elem_of_In in H. cbn in H.
    destruct H as [<-|[<-|[]]]; discriminate M. }
  destruct (provider w1) as [|[r|] rest]; try apply Two.
  destruct (status_code r =? 200); [|apply Two].
  destruct (response_json r) as [[| | | | |fields]|]; try apply Two.
  destruct (negb (eq_str (field fields "type" JNull) "Walk")); [apply Two|].
  destruct (truthy (field fields "trainer" (JBool false))); [apply Two|].
  destruct (negb (truthy (field fields "start_date_local" JNull))); [apply Two|].
  destruct (Main.determine_activity_name (field fields "start_date_local" JNull))
    as [name|] eqn:D; [|apply Two].
  exists [token_request cid sec sent; details_request tok object_id;
          rename_request tok object_id name].
  cbn [fst after_send trace]. rewrite !requests_of_app, S, <- !app_assoc.
  split; [reflexivity|]. split; [reflexivity|].
  intros rq H M. apply list_elem_of_In in H. cbn in H.
  destruct H as [<-|[<-|[<-|[]]]]; try discriminate M.
  exists tok, object_id, name. split; [reflexivity|]. split; [reflexivity|].
  by apply main_name_in_labels in D.
Qed.

(** ** The token refresh of the event path *)

Lemma truthy_env_json (v : option string) :
  truthy (Main.env_json v) = true <-> exists s, v = Some s /\ s <> "".
Proof.
  destruct v as [s|]; cbn.
  - destruct (String.eqb_spec s ""); cbn; split; try discriminate; eauto.
    + intros (s' & [= <-] & N). contradiction.
  - split; [discriminate|]. intros (s & E & _). discriminate.
Qed.

(** X6. The token request is never sent without credentials: the event
    path sends it only when the Firestore document holds a truthy
    [refresh_token] and both environment variables are set and
    non-empty, and then it carries exactly these three values. *)
Theorem token_request_needs_credentials (cid sec : option string) (w : World) :
  let w' := (Main.get_access_token cid sec w).1 in
  requests_of (trace w') = requests_of (trace w)
  \/ exists (config : gmap string json) (id secret : string),
       firestore_doc w = Some config
       /\ truthy (default JNull (config !! "refresh_token")) = true
       /\ cid = Some id /\ id <> "" /\ sec = Some secret /\ secret <> ""
       /\ requests_of (trace w')
          = requests_of (trace w)
            ++ [token_request cid sec (default JNull (config !! "refresh_token"))].
Proof.
  rewrite main_get_access_token_run. cbv zeta.
  destruct (firestore_doc w) as [config|];
    [|left; by destruct (firestore_faults w) as [|[|] ?]].
  destruct (truthy (default JNull (config !! "refresh_token"))) eqn:T; cbn [negb];
    [|left; by destruct (firestore_faults w) as [|[|] ?]].
  destruct (truthy (Main.env_json cid)) eqn:Tc; cbn [negb orb];
    [|left; by destruct (firestore_faults w) as [|[|] ?]].
  destruct (truthy (Main.env_json sec)) eqn:Ts; cbn [negb orb];
    [|left; by destruct (firestore_faults w) as [|[|] ?]].
  apply truthy_env_json in Tc as (id & -> & Nid).
  apply truthy_env_json in Ts as (secret & -> & Nsec).
  destruct (firestore_faults w) as [|[|] faults]; [|by left|];
    right; exists config, id, secret; repeat (split; [done|]);
    repeat match goal with
           | |- context [match ?x with _ => _ end] => destruct x
           end;
    cbn [fst trace after_send Main.after_firestore_call Main.after_store];
    rewrite ?requests_of_app; cbn [requests_of omap app]; by rewrite ?app_nil_r.
Qed.

(** X7. The refresh writes nothing to Firestore but a rotated refresh
    token: afterwards the document is as before, or it is the old
    document with [refresh_token] set to the truthy value the provider
    returned, which differs from the one sent. *)
Theorem refresh_writes_only_the_refresh_token (cid sec : option string) (w : World) :
  let w' := (Main.get_access_token cid sec w).1 in
  firestore_doc w' = firestore_doc w
  \/ exists (config : gmap string json) (response : Response)
            (token_data : list (string * json)),
       let returned := field token_data "refresh_token" JNull in
       firestore_doc w = Some config
       /\ head (provider w) = Some (Responds response)
       /\ payload response = Some (JObj token_data)
       /\ rotated returned (default JNull (config !! "refresh_token")) = true
       /\ firestore_doc w' = Some (<["refresh_token" := returned]> config).
Proof.
  rewrite main_get_access_token_run. cbv zeta.
  destruct (firestore_doc w) as [config|] eqn:D;
    [|left; by destruct (firestore_faults w) as [|[|] ?]].
  destruct (provider w) as [|[response|] rest];
    try (left;
         repeat match goal with
                | |- context [match ?x with _ => _ end] => destruct x
                end; done).
  destruct (payload response) as [[| | | | |token_data]|] eqn:Pay;
    try (left;
         repeat match goal with
                | |- context [match ?x with _ => _ end] => destruct x
                end; done).
  destruct (rotated (field token_data "refresh_token" JNull)
                    (default JNull (config !! "refresh_token"))) eqn:R;
    [|left;
      repeat match goal with
             | |- context [match ?x with _ => _ end] => destruct x
             end; done].
  repeat match goal with
         | |- context [match ?x with _ => _ end] => destruct x
         end;
    try (by left);
    right; exists config, response, token_data; cbv zeta; repeat split; auto.
Qed.

(** X8. A rotated refresh token that cannot be stored is fatal: when the
    provider returns a new refresh token and the Firestore update fails,
    the refresh raises, although the token request has gone out, and the
    document still holds the old token. *)
Theorem failed_store_is_fatal (cid sec : option string) (w : World)
    (config : gmap string json) (response : Response) (rest : list outcome)
    (token_data : list (string * json)) (faults : list bool) :
  firestore_doc w = Some config ->
  truthy (default JNull (config !! "refresh_token")) = true ->
  truthy (Main.env_json cid) = true -> truthy (Main.env_json sec) = true ->
  provider w = Responds response :: rest ->
  status_code response = 200 ->
  payload response = Some (JObj token_data) ->
  rotated (field token_data "refresh_token" JNull)
          (default JNull (config !! "refresh_token")) = true ->
  firestore_faults w = false :: true :: faults ->
  let run := Main.get_access_token cid sec w in
  run.2 = Raise FirestoreError
  /\ firestore_doc run.1 = Some config
  /\ requests_of (trace run.1)
     = requests_of (trace w)
       ++ [token_request cid sec (default JNull (config !! "refresh_token"))].
Proof.
  intros D T Tc Ts P S Pay R F.
  rewrite main_get_access_token_run. cbv zeta.
  rewrite D, T, Tc, Ts, P, S, Pay, R, F. cbn [negb orb Z.eqb Pos.eqb tail fst snd].
  cbn [firestore_doc trace after_send Main.after_firestore_call].
  rewrite requests_of_app. auto.
Qed.

Lemma failed_store_is_fatal_witness :
  let answer := mk_response 200 ∅
    (Some (JObj [("access_token", JStr "tok"); ("refresh_token", JStr "new")])) in
  let config : gmap string json := list_to_map [("refresh_token", JStr "old")] in
  let w := mk_world [Responds answer] 0 (Some config) [false; true] [] in
  (Main.get_access_token (Some "id") (Some "secret") w).2 = Raise FirestoreError
  /\ firestore_doc (Main.get_access_token (Some "id") (Some "secret") w).1 = Some config.
Proof.
  intros answer config w.
  destruct (failed_store_is_fatal (Some "id") (Some "secret") w config answer []
              [("access_token", JStr "tok"); ("refresh_token", JStr "new")] [])
    as (H1 & H2 & _); try reflexivity.
  split; assumption.
Defined.

(** * Further properties of backfill_activities.py *)

(** ** Time spent backing off *)





(** ** Recovery *)

(** X10. A rate limit that lifts in time is invisible to the caller: when
    up to two answers 429 (whose progress lines can be printed) are
    followed by an answer with another status, the wrapper returns that
    answer, having sent the same request once per answer. *)
Theorem retry_recovers (rq : Request) (w : World) (limited : list Response)
    (r : Response) (rest : list outcome) :
  (List.length limited <= 2)%nat ->
  Forall (fun x => status_code x = 429 /\ diagnostics x = Ok tt) limited ->
  status_code r <> 429 ->
  provider w = List.map Responds limited ++ Responds r :: rest ->
  let run := Backfill._make_request_with_retry rq w in
  run.2 = Ok r
  /\ provider run.1 = rest
  /\ requests_of (trace run.1)
     = requests_of (trace w) ++ replicate (S (List.length limited)) rq.
Proof.
  intros L F S P. apply Z.eqb_neq in S.
  unfold Backfill._make_request_with_retry. cbn [seq Backfill.MAX_RETRIES].
  destruct limited as [|r1 [|r2 [|r3 limited]]]; cbn [List.length] in L; [| | |lia];
    cbn [List.map app] in P;
    repeat match goal with
           | H : Forall _ (_ :: _) |- _ => apply Forall_cons in H as [[? ?] H]
           end.
  - rewrite retry_loop_cons, P, S. cbn. rewrite P, requests_of_app. auto.
  - rewrite retry_loop_cons, P. rewrite H, H0. cbn [Z.eqb Pos.eqb].
    rewrite retry_loop_cons. cbn [backoff after_sleep after_send provider].
    rewrite P. cbn [tail]. rewrite S. cbn. rewrite P.
    rewrite !requests_of_app. cbn. rewrite app_nil_r, <- app_assoc. auto.
  - rewrite retry_loop_cons, P. rewrite H, H0. cbn [Z.eqb Pos.eqb].
    rewrite retry_loop_cons. cbn [backoff after_sleep after_send provider].
    rewrite P. cbn [tail]. rewrite H1, H2. cbn [Z.eqb Pos.eqb].
    rewrite retry_loop_cons. cbn [backoff after_sleep after_send provider].
    rewrite P. cbn [tail]. rewrite S. cbn. rewrite P.
    rewrite !requests_of_app. cbn. rewrite !app_nil_r, <- !app_assoc. auto.
Qed.

Lemma retry_recovers_witness :
  let limited := mk_response 429 (list_to_map [("X-RateLimit-Limit", "200,2000");
                                               ("X-RateLimit-Usage", "201,408")]) None in
  let r := mk_response 200 ∅ (Some (JArr [])) in
  let rq := mk_request "GET" AthleteActivitiesUrl (Some (JStr "token")) [] [] [] in
  let w := mk_world [Responds limited; Responds r; Unreachable] 0 None [] [] in
  (Backfill._make_request_with_retry rq w).2 = Ok r
  /\ provider (Backfill._make_request_with_retry rq w).1 = [Unreachable].
Proof.
  intros limited r rq w.
  destruct (retry_recovers rq w [limited] r [Unreachable]) as (H1 & H2 & _).
  - cbn. lia.
  - repeat constructor.
  - discriminate.
  - reflexivity.
  - split; assumption.
Defined.

(** ** When the progress lines can be printed *)

Lemma nonempty_not_absent (hs : gmap string string) (name : string) :
  (exists v, hs !! name = Some v /\ v <> "") -> header_reading hs name <> Absent.
Proof.
  intros (v & E & N). unfold header_reading, reading_of. rewrite E.
  cbn [default from_option id].
  destruct (String.eqb_spec v ""); [contradiction|].
  destruct (str_split "," v) as [|p0 [|p1 ?]]; try discriminate.
  by destruct (py_int p0), (py_int p1).
Qed.

Ltac snapshot_lookup :=
  repeat first [ rewrite lookup_insert_eq | rewrite lookup_insert_ne by discriminate
               | rewrite lookup_empty ].

(** With both limit headers in the answer, parsing and printing go
    through, whatever the headers hold. *)
Lemma diagnostics_with_limit_headers (r : Response) :
  advertises_limits r -> diagnostics r = Ok tt.
Proof.
  intros [L RL]. apply nonempty_not_absent in L, RL.
  unfold diagnostics, Backfill._parse_rate_limit_headers, try_except.
  repeat parse_step (headers r); try contradiction;
    cbn [mbind result_bind]; unfold Backfill.print_limits, Backfill.item;
    snapshot_lookup; reflexivity.
Qed.

(** X11. Against a provider whose answers all carry both limit headers,
    the wrapper fails only with the network: it raises nothing but the
    exception of [requests], and what it returns is one of the provider's
    answers, a 429 only as the third of three 429 answers in a row. *)
Theorem retry_fails_only_with_the_network (rq : Request) (w : World) :
  provider_advertises_limits w ->
  match (Backfill._make_request_with_retry rq w).2 with
  | Ok r =>
      Responds r ∈ provider w
      /\ (status_code r = 429 ->
          exists (r1 r2 : Response) (rest : list outcome),
            provider w = Responds r1 :: Responds r2 :: Responds r :: rest
            /\ status_code r1 = 429 /\ status_code r2 = 429)
  | Raise e => e = ConnectionError
  end.
Proof.
  intros A. unfold Backfill._make_request_with_retry. cbn [seq Backfill.MAX_RETRIES].
  rewrite retry_loop_cons.
  destruct (provider w) as [|[r1|] rest1] eqn:P; try reflexivity.
  assert (D1 : diagnostics r1 = Ok tt)
    by (apply diagnostics_with_limit_headers, A; rewrite P; set_solver).
  destruct (status_code r1 =? 429) eqn:S1;
    [|cbn [snd]; split; [set_solver|]; apply Z.eqb_neq in S1; congruence].
  rewrite D1, retry_loop_cons. cbn [backoff after_sleep after_send provider].
  rewrite P. cbn [tail].
  destruct rest1 as [|[r2|] rest2]; try reflexivity.
  assert (D2 : diagnostics r2 = Ok tt)
    by (apply diagnostics_with_limit_headers, A; rewrite P; set_solver).
  destruct (status_code r2 =? 429) eqn:S2;
    [|cbn [snd]; split; [set_solver|]; apply Z.eqb_neq in S2; congruence].
  rewrite D2, retry_loop_cons. cbn [backoff after_sleep after_send provider].
  rewrite P. cbn [tail].
  destruct rest2 as [|[r3|] rest3]; try reflexivity.
  assert (D3 : diagnostics r3 = Ok tt)
    by (apply diagnostics_with_limit_headers, A; rewrite P; set_solver).
  apply Z.eqb_eq in S1, S2.
  destruct (status_code r3 =? 429) eqn:S3.
  - rewrite D3. cbn. split; [set_solver|]. eauto 10.
  - cbn [snd]. split; [set_solver|]. apply Z.eqb_neq in S3. congruence.
Qed.

Lemma retry_fails_only_with_the_network_witness :
  let limited := mk_response 429 (list_to_map [("X-RateLimit-Limit", "200,2000");
                                               ("X-ReadRateLimit-Limit", "100,1000");
                                               ("X-ReadRateLimit-Usage", "101,342")]) None in
  let rq := mk_request "GET" AthleteActivitiesUrl (Some (JStr "token")) [] [] [] in
  let w := mk_world [Responds limited; Unreachable] 0 None [] [] in
  match (Backfill._make_request_with_retry rq w).2 with
  | Ok r => Responds r ∈ provider w
  | Raise e => e = ConnectionError
  end.
Proof.
  intros limited rq w.
  pose proof (retry_fails_only_with_the_network rq w) as H.
  destruct (Backfill._make_request_with_retry rq w).2.
  - apply H. intros r Hr. apply list_elem_of_In in Hr. cbn in Hr.
    destruct Hr as [[= <-]|[Hr|[]]]; [|discriminate Hr].
    split; eexists; (split; [reflexivity|discriminate]).
  - apply H. intros r Hr. apply list_elem_of_In in Hr. cbn in Hr.
    destruct Hr as [[= <-]|[Hr|[]]]; [|discriminate Hr].
    split; eexists; (split; [reflexivity|discriminate]).
Defined.

(** ** Listing, whatever the provider does *)

(** One round of the listing loop keeps the object, sends its page
    request between once and three times and nothing else, and leaves
    Firestore alone. *)
Lemma fetch_round_frame (after_timestamp per_page page : Z) (acc : list json)
    (r : Backfill.Run) :
  let r' := (Backfill.fetch_round after_timestamp per_page page acc r).1 in
  Backfill.self r' = Backfill.self r
  /\ firestore_doc (Backfill.world r') = firestore_doc (Backfill.world r)
  /\ exists n : nat,
      requests_of (trace (Backfill.world r'))
      = requests_of (trace (Backfill.world r))
        ++ replicate n (Backfill.page_request (Backfill.access_token (Backfill.self r))
                          after_timestamp per_page page).
Proof.
  unfold Backfill.fetch_round.
  cbv beta iota delta [mbind M_bind gets Backfill.io lift raise mret M_ret].
  match goal with
  | |- context [Backfill._make_request_with_retry ?rq (Backfill.world r)] =>
      destruct (retry_at_most_three rq (Backfill.world r)) as (n & _ & _ & Htr & _ & Hd & _);
      destruct (Backfill._make_request_with_retry rq (Backfill.world r)) as [w' [resp|e]]
  end; cbn [fst] in *.
  2:{ cbn. eauto. }
  destruct (negb (status_code resp =? 200)); [cbn; eauto|].
  destruct (response_json resp) as [page_activities|e]; [|cbn; eauto].
  destruct (negb (truthy page_activities)); [cbn; eauto|].
  destruct (Backfill.extend acc page_activities); [|cbn; eauto].
  cbn. rewrite requests_of_app, Htr. cbn. rewrite app_nil_r. eauto.
Qed.

Lemma fetch_loop_frame (fuel : nat) (after_timestamp per_page page : Z)
    (acc : list json) (r r' : Backfill.Run) (res : result (list json)) :
  Backfill.fetch_loop fuel after_timestamp per_page page acc r = Some (r', res) ->
  Backfill.self r' = Backfill.self r
  /\ firestore_doc (Backfill.world r') = firestore_doc (Backfill.world r)
  /\ exists sent : list Request,
      requests_of (trace (Backfill.world r'))
      = requests_of (trace (Backfill.world r)) ++ sent
      /\ Forall (fun rq => exists p, page <= p
                   /\ rq = Backfill.page_request (Backfill.access_token (Backfill.self r))
                             after_timestamp per_page p) sent.
Proof.
  revert page acc r. induction fuel as [|fuel IH]; intros page acc r; [discriminate|].
  cbn [Backfill.fetch_loop].
  destruct (fetch_round_frame after_timestamp per_page page acc r) as (Hs & Hd & n & Htr).
  assert (Here : Forall (fun rq => exists p, page <= p
                   /\ rq = Backfill.page_request (Backfill.access_token (Backfill.self r))
                             after_timestamp per_page p)
                 (replicate n (Backfill.page_request (Backfill.access_token (Backfill.self r))
                                 after_timestamp per_page page))).
  { apply Forall_replicate. exists page. split; [lia|reflexivity]. }
  destruct (Backfill.fetch_round after_timestamp per_page page acc r)
    as [r1 [[acc'|final]|e]]; cbn [fst] in *.
  - intros H. apply IH in H as (Hs' & Hd' & sent & Htr' & Hf).
    split; [congruence|]. split; [congruence|].
    eexists. rewrite Htr', Htr, <- app_assoc. split; [reflexivity|].
    apply Forall_app. split; [exact Here|].
    rewrite Hs in Hf. eapply Forall_impl; [exact Hf|].
    intros rq (p & Hp & ->). exists p. split; [lia|reflexivity].
  - intros [= <- <-]. eauto.
  - intros [= <- <-]. eauto.
Qed.

(** X12. With more fuel than the provider has answers, [fetch_activities]
    comes to an end; when it returns the list, [total_fetched] is its
    length and no other counter has moved; when it raises, the counters
    are as they were, so nothing of the pages already read is
    recorded. *)
Theorem fetch_activities_records_only_a_full_listing (fuel : nat)
    (after_timestamp per_page : Z) (r : Backfill.Run) :
  (List.length (provider (Backfill.world r)) < fuel)%nat ->
  exists (r' : Backfill.Run) (res : result (list json)),
    Backfill.fetch_activities fuel after_timestamp per_page r = Some (r', res)
    /\ match res with
       | Ok activities =>
           stats_of r'
           = Backfill.with_total_fetched (Z.of_nat (List.length activities)) (stats_of r)
       | Raise _ => stats_of r' = stats_of r
       end.
Proof.
  intros H. unfold Backfill.fetch_activities.
  destruct (fetch_loop_total fuel after_timestamp per_page 1 [] r H) as [[r1 res] E].
  rewrite E. apply fetch_loop_frame in E as (Hs & _).
  destruct res as [activities|e]; eexists _, _; (split; [reflexivity|]).
  - unfold stats_of. cbn. by rewrite Hs.
  - unfold stats_of. by rewrite Hs.
Qed.

Lemma fetch_activities_records_only_a_full_listing_witness :
  let b := Backfill.__init__ "id" "secret" "refresh" "UTC" false in
  let w := mk_world [Responds (page_response ∅ [JNum 1]); Responds (mk_response 500 ∅ None)]
                    0 None [] [] in
  exists (r' : Backfill.Run) (res : result (list json)),
    Backfill.fetch_activities 3 0 100 (Backfill.mk_run b w) = Some (r', res)
    /\ match res with
       | Ok activities =>
           stats_of r'
           = Backfill.with_total_fetched (Z.of_nat (List.length activities))
               (stats_of (Backfill.mk_run b w))
       | Raise _ => stats_of r' = stats_of (Backfill.mk_run b w)
       end.
Proof.
  intros b w.
  apply (fetch_activities_records_only_a_full_listing 3 0 100 (Backfill.mk_run b w)).
  cbn. lia.
Defined.

(** X13. Listing only reads: every request [fetch_activities] sends is a
    GET of the activity list with the same [after] and [per_page], the
    token of the object and a page number from 1 on; it sends no write
    and leaves the Firestore document alone. *)
Theorem fetch_activities_only_reads (fuel : nat) (after_timestamp per_page : Z)
    (r r' : Backfill.Run) (res : result (list json)) :
  Backfill.fetch_activities fuel after_timestamp per_page r = Some (r', res) ->
  firestore_doc (Backfill.world r') = firestore_doc (Backfill.world r)
  /\ exists sent : list Request,
      requests_of (trace (Backfill.world r'))
      = requests_of (trace (Backfill.world r)) ++ sent
      /\ Forall (fun rq => exists p, 1 <= p
                   /\ rq = Backfill.page_request (Backfill.access_token (Backfill.self r))
                             after_timestamp per_page p) sent.
Proof.
  unfold Backfill.fetch_activities.
  destruct (Backfill.fetch_loop fuel after_timestamp per_page 1 [] r)
    as [[r1 [activities|e]]|] eqn:E; try discriminate;
    apply fetch_loop_frame in E as (_ & Hd & sent & Htr & Hf);
    intros [= <- <-]; cbn; eauto.
Qed.

Lemma fetch_activities_only_reads_witness :
  let b := Backfill.__init__ "id" "secret" "refresh" "UTC" false in
  let w := mk_world [Responds (page_response ∅ [JNum 1]); Responds (page_response ∅ [])]
                    0 None [] [] in
  let r' := Backfill.with_stats (Backfill.with_total_fetched 1)
              (Backfill.mk_run b
                 (after_send (Backfill.page_request JNull 0 100 2)
                    (after_sleep Backfill.REQUEST_DELAY
                       (after_send (Backfill.page_request JNull 0 100 1) w)))) in
  firestore_doc (Backfill.world r') = None
  /\ exists sent : list Request,
      requests_of (trace (Backfill.world r')) = [] ++ sent
      /\ Forall (fun rq => exists p, 1 <= p /\ rq = Backfill.page_request JNull 0 100 p) sent.
Proof.
  intros b w r'.
  apply (fetch_activities_only_reads 3 0 100 (Backfill.mk_run b w) r' (Ok [JNum 1])).
  reflexivity.
Defined.

(** Over non-empty pages the loop goes on: it is the loop that starts
    after them, with the pages added to the list. *)
Lemma fetch_loop_skips_pages (pages : list (gmap string string * list json))
    (others : list outcome) (fuel : nat) (after_timestamp per_page page : Z)
    (acc : list json) (r : Backfill.Run) :
  Forall (fun p => p.2 <> []) pages ->
  provider (Backfill.world r)
  = List.map (fun p => Responds (page_response p.1 p.2)) pages ++ others ->
  exists r1,
    Backfill.self r1 = Backfill.self r
    /\ provider (Backfill.world r1) = others
    /\ Backfill.fetch_loop (List.length pages + fuel) after_timestamp per_page page acc r
       = Backfill.fetch_loop fuel after_timestamp per_page
           (page + Z.of_nat (List.length pages)) (acc ++ concat (List.map snd pages)) r1.
Proof.
  revert page acc r. induction pages as [|[hs items] pages IH]; intros page acc r Hne P.
  - exists r. cbn. rewrite Z.add_0_r, app_nil_r. auto.
  - apply Forall_cons in Hne as [Hi Hne]. cbn [snd] in Hi.
    cbn [List.length Nat.add Backfill.fetch_loop].
    rewrite (fetch_round_page _ _ _ _ _ hs items _ P).
    destruct items as [|a items]; [congruence|]. cbv beta iota zeta.
    lazymatch goal with
    | |- context [Backfill.fetch_loop _ _ _ _ _ ?R] =>
        destruct (IH (page + 1) (acc ++ a :: items) R Hne) as (r1 & Hs & Hp & E)
    end.
    { cbn. rewrite P. reflexivity. }
    exists r1. rewrite E. split; [by rewrite Hs|]. split; [exact Hp|].
    cbn [List.map concat snd]. rewrite app_assoc. f_equal. lia.
Qed.

(** X14. A page that comes back with a status other than 200 aborts the
    listing: after any number of good pages, an answer that is neither
    200 nor 429 makes [fetch_activities] raise with that status; the
    pages read so far are dropped and [total_fetched] is not set. *)
Theorem fetch_activities_aborts_on_error_status (b : Backfill.Backfiller) (w : World)
    (pages : list (gmap string string * list json)) (bad : Response)
    (rest : list outcome) (fuel : nat) (after_timestamp per_page : Z) :
  Forall (fun p => p.2 <> []) pages ->
  status_code bad <> 200 -> status_code bad <> 429 ->
  provider w
  = List.map (fun p => Responds (page_response p.1 p.2)) pages ++ Responds bad :: rest ->
  (List.length pages < fuel)%nat ->
  exists r',
    Backfill.fetch_activities fuel after_timestamp per_page (Backfill.mk_run b w)
    = Some (r', Raise (Failure "Failed to fetch activities" (status_code bad)))
    /\ Backfill.self r' = b
    /\ provider (Backfill.world r') = rest.
Proof.
  intros Hne S2 S4 P Hfuel.
  destruct (fetch_loop_skips_pages pages (Responds bad :: rest)
              (fuel - List.length pages) after_timestamp per_page 1 []
              (Backfill.mk_run b w) Hne P) as (r1 & Hs & Hp & E).
  replace (List.length pages + (fuel - List.length pages))%nat with fuel in E by lia.
  unfold Backfill.fetch_activities. rewrite E.
  destruct (fuel - List.length pages)%nat as [|fuel'] eqn:F; [lia|].
  cbn [Backfill.fetch_loop]. unfold Backfill.fetch_round.
  cbv beta iota delta [mbind M_bind gets Backfill.io lift raise mret M_ret].
  rewrite (retry_passes_other _ _ _ _ Hp S4).
  apply Z.eqb_neq in S2. rewrite S2. cbn [negb].
  eexists. split; [reflexivity|]. cbn. rewrite Hp. auto.
Qed.

Lemma fetch_activities_aborts_on_error_status_witness :
  let b := Backfill.__init__ "id" "secret" "refresh" "UTC" false in
  let w := mk_world [Responds (page_response ∅ [JNum 1]); Responds (mk_response 500 ∅ None)]
                    0 None [] [] in
  exists r',
    Backfill.fetch_activities 2 0 100 (Backfill.mk_run b w)
    = Some (r', Raise (Failure "Failed to fetch activities" 500))
    /\ Backfill.self r' = b /\ provider (Backfill.world r') = [].
Proof.
  intros b w.
  apply (fetch_activities_aborts_on_error_status b w [(∅, [JNum 1])]
           (mk_response 500 ∅ None) [] 2 0 100).
  - repeat constructor. discriminate.
  - discriminate.
  - discriminate.
  - reflexivity.
  - cbn. lia.
Defined.

(** X15. Any falsy page ends the listing, not only the empty list: when
    the first answer is 200 with [[]], [{}], [null], [0], [""] or
    [false], [fetch_activities] returns the empty list after that one
    request and sets [total_fetched] to 0. *)
Theorem fetch_activities_stops_at_a_falsy_page (b : Backfill.Backfiller) (w : World)
    (hs : gmap string string) (page : json) (rest : list outcome)
    (fuel : nat) (after_timestamp per_page : Z) :
  truthy page = false ->
  provider w = Responds (mk_response 200 hs (Some page)) :: rest ->
  Backfill.fetch_activities (S fuel) after_timestamp per_page (Backfill.mk_run b w)
  = Some (Backfill.with_stats (Backfill.with_total_fetched 0)
            (Backfill.mk_run b
               (after_send (Backfill.page_request (Backfill.access_token b)
                              after_timestamp per_page 1) w)),
          Ok []).
Proof.
  intros T P. unfold Backfill.fetch_activities. cbn [Backfill.fetch_loop].
  unfold Backfill.fetch_round.
  cbv beta iota delta [mbind M_bind gets Backfill.io lift raise mret M_ret].
  cbn [Backfill.world Backfill.self].
  rewrite (retry_passes_other _ _ _ _ P) by (cbn; lia).
  cbn [status_code Z.eqb Pos.eqb negb response_json payload]. rewrite T. reflexivity.
Qed.

Lemma fetch_activities_stops_at_a_falsy_page_witness :
  let b := Backfill.__init__ "id" "secret" "refresh" "UTC" false in
  let w := mk_world [Responds (mk_response 200 ∅ (Some JNull)); Unreachable] 0 None [] [] in
  Backfill.fetch_activities 1 0 100 (Backfill.mk_run b w)
  = Some (Backfill.with_stats (Backfill.with_total_fetched 0)
            (Backfill.mk_run b (after_send (Backfill.page_request JNull 0 100 1) w)),
          Ok []).
Proof.
  intros b w.
  apply (fetch_activities_stops_at_a_falsy_page b w ∅ JNull [Unreachable] 0 0 100);
    reflexivity.
Defined.

(** ** The batch, counted exactly *)

(** X16. When [process_activities] gets through the list, the counters
    are exact: [walks_found] has grown by the number of walks,
    [already_named] and [to_rename] together by the number of outdoor
    walks, and in a live run every walk to rename was either renamed or
    counted as an error, while a dry run leaves both at their value. *)
Theorem completed_batch_counts_exactly (l : list json) (r r' : Backfill.Run) :
  Backfill.process_activities l r = (r', Ok tt) ->
  let s := stats_of r in
  let s' := stats_of r' in
  Backfill.walks_found s'
  = Backfill.walks_found s + Z.of_nat (List.length (List.filter is_walk l))
  /\ Backfill.already_named s' + Backfill.to_rename s'
     = Backfill.already_named s + Backfill.to_rename s
       + Z.of_nat (List.length (List.filter is_outdoor_walk l))
  /\ (if Backfill.dry_run (Backfill.self r)
      then Backfill.renamed s' = Backfill.renamed s
           /\ Backfill.errors s' = Backfill.errors s
      else Backfill.renamed s' + Backfill.errors s'
           = Backfill.renamed s + Backfill.errors s
             + (Backfill.to_rename s' - Backfill.to_rename s)).
Proof.
  revert r. induction l as [|a l IH]; intros r.
  - intros [= <-]. cbn. destruct (Backfill.dry_run _); lia.
  - rewrite process_activities_cons.
    destruct (process_activity_step a r) as (_ & Hdry & _).
    pose proof (process_activity_run a r) as Run.
    destruct (Backfill.process_activity a r) as [r1 [[]|e]] eqn:E; [|discriminate].
    cbn [fst] in Hdry. intros H. specialize (IH r1 H). cbv zeta in IH |- *.
    rewrite Hdry in IH. destruct IH as (IH1 & IH2 & IH3).
    assert (One :
      Backfill.walks_found (stats_of r1)
      = Backfill.walks_found (stats_of r) + (if is_walk a then 1 else 0)
      /\ Backfill.already_named (stats_of r1) + Backfill.to_rename (stats_of r1)
         = Backfill.already_named (stats_of r) + Backfill.to_rename (stats_of r)
           + (if is_outdoor_walk a then 1 else 0)
      /\ (if Backfill.dry_run (Backfill.self r)
          then Backfill.renamed (stats_of r1) = Backfill.renamed (stats_of r)
               /\ Backfill.errors (stats_of r1) = Backfill.errors (stats_of r)
          else Backfill.renamed (stats_of r1) + Backfill.errors (stats_of r1)
               = Backfill.renamed (stats_of r) + Backfill.errors (stats_of r)
                 + (Backfill.to_rename (stats_of r1) - Backfill.to_rename (stats_of r)))).
    { clear IH1 IH2 IH3 H Hdry E. unfold is_walk, is_outdoor_walk, stats_of.
      destruct a as [| | | | |fields]; try discriminate Run.
      destruct (eq_str (field fields "type" JNull) "Walk"); cbn [negb andb] in *.
      2:{ injection Run as ->. destruct (Backfill.dry_run _); lia. }
      destruct (truthy (field fields "trainer" (JBool false))); cbn [negb] in *.
      { injection Run as ->. cbn. destruct (Backfill.dry_run _); lia. }
      destruct (Backfill.determine_activity_name _); [|discriminate Run].
      destruct (eq_str (field fields "name" (JStr "Unnamed")) a).
      { injection Run as ->. cbn. destruct (Backfill.dry_run _); lia. }
      destruct (Backfill.dry_run (Backfill.self r)).
      { injection Run as ->. cbn. lia. }
      destruct (Backfill._make_request_with_retry _ _) as [w' [response|e]];
        [|discriminate Run].
      injection Run as ->. destruct (status_code response =? 200); cbn; lia. }
    destruct One as (O1 & O2 & O3).
    cbn [List.filter]. destruct (is_walk a), (is_outdoor_walk a);
      cbn [List.length]; destruct (Backfill.dry_run (Backfill.self r));
      repeat split; lia.
Qed.

Lemma completed_batch_counts_exactly_witness :
  let walk := JObj [("id", JNum 7); ("type", JStr "Walk"); ("trainer", JBool false);
                    ("name", JStr "Morning Walk");
                    ("start_date_local", JStr "2024-12-26T07:30:00Z")] in
  let indoor := JObj [("id", JNum 8); ("type", JStr "Walk"); ("trainer", JBool true)] in
  let b := Backfill.__init__ "id" "secret" "refresh" "UTC" false in
  let w := mk_world [Responds (mk_response 500 ∅ None)] 0 None [] [] in
  let r := Backfill.mk_run b w in
  let r' := (Backfill.process_activities [walk; indoor] r).1 in
  Backfill.walks_found (stats_of r') = 0 + 2
  /\ Backfill.already_named (stats_of r') + Backfill.to_rename (stats_of r') = 0 + 0 + 1
  /\ Backfill.renamed (stats_of r') + Backfill.errors (stats_of r')
     = 0 + 0 + (Backfill.to_rename (stats_of r') - 0).
Proof.
  intros walk indoor b w r r'.
  exact (completed_batch_counts_exactly [walk; indoor] r r' eq_refl).
Defined.

(** ** What the batch sends *)

Lemma backfill_name_in_labels (start : json) (name : string) :
  Backfill.determine_activity_name start = Ok name ->
  name ∈ [Backfill.MORNING; Backfill.LUNCH; Backfill.EVENING].
Proof.
  unfold Backfill.determine_activity_name. destruct start; try discriminate.
  destruct (fromisoformat _) as [dt|]; [|discriminate]. cbn.
  intros [= <-]. unfold name_for_hour.
  repeat match goal with |- context [if ?b then _ else _] => destruct b end; set_solver.
Qed.

Lemma process_activity_sends (a : json) (r : Backfill.Run) :
  let r' := (Backfill.process_activity a r).1 in
  Backfill.access_token (Backfill.self r') = Backfill.access_token (Backfill.self r)
  /\ firestore_doc (Backfill.world r') = firestore_doc (Backfill.world r)
  /\ exists sent : list Request,
      requests_of (trace (Backfill.world r'))
      = requests_of (trace (Backfill.world r)) ++ sent
      /\ (List.length sent <= 3)%nat
      /\ Forall (renames_one_of (Backfill.access_token (Backfill.self r)) [a]) sent.
Proof.
  rewrite process_activity_run.
  assert (Nothing : forall (f : Backfill.Stats -> Backfill.Stats) (res : result unit),
    let r' := (Backfill.with_stats f r, res).1 in
    Backfill.access_token (Backfill.self r') = Backfill.access_token (Backfill.self r)
    /\ firestore_doc (Backfill.world r') = firestore_doc (Backfill.world r)
    /\ exists sent : list Request,
        requests_of (trace (Backfill.world r'))
        = requests_of (trace (Backfill.world r)) ++ sent
        /\ (List.length sent <= 3)%nat
        /\ Forall (renames_one_of (Backfill.access_token (Backfill.self r)) [a]) sent).
  { intros f res. cbn. split; [reflexivity|]. split; [reflexivity|].
    exists []. rewrite app_nil_r. split; [reflexivity|]. split; [cbn; lia|constructor]. }
  destruct a as [| | | | |fields];
    try (cbn; split; [reflexivity|]; split; [reflexivity|];
         exists []; rewrite app_nil_r; split; [reflexivity|]; split; [cbn; lia|constructor]).
  destruct (eq_str (field fields "type" JNull) "Walk") eqn:T; cbn [negb].
  2:{ cbn; split; [reflexivity|]; split; [reflexivity|].
      exists []. rewrite app_nil_r. split; [reflexivity|]. split; [cbn; lia|constructor]. }
  cbv zeta.
  destruct (truthy (field fields "trainer" (JBool false))) eqn:I; [apply Nothing|].
  destruct (Backfill.determine_activity_name (field fields "start_date_local" JNull))
    as [name|e] eqn:D; [|apply Nothing].
  destruct (eq_str (field fields "name" (JStr "Unnamed")) name) eqn:N.
  { apply (Nothing (fun s => Backfill.bump_already_named (Backfill.bump_walks_found s))). }
  destruct (Backfill.dry_run (Backfill.self r)).
  { apply (Nothing (fun s => Backfill.bump_to_rename (Backfill.bump_walks_found s))). }
  match goal with
  | |- context [Backfill._make_request_with_retry ?rq (Backfill.world r)] =>
      destruct (retry_at_most_three rq (Backfill.world r)) as (n & Hn & _ & Htr & _ & Hd & _);
      destruct (Backfill._make_request_with_retry rq (Backfill.world r)) as [w' [resp|e]]
  end; cbn [fst] in *.
  all: cbn [Backfill.self Backfill.world Backfill.with_world Backfill.with_stats
            Backfill.access_token after_sleep trace firestore_doc].
  all: split; [reflexivity|]; split; [assumption|].
  all: exists (replicate n (rename_request (Backfill.access_token (Backfill.self r))
                              (field fields "id" JNull) name)).
  all: rewrite ?requests_of_app, ?requests_of_slept, Htr, ?app_nil_r.
  all: split; [reflexivity|]; split; [by rewrite length_replicate|].
  all: apply Forall_replicate; exists fields, name.
  all: unfold is_outdoor_walk; rewrite T, I.
  all: repeat split; auto; [set_solver|by apply backfill_name_in_labels in D].
Qed.

Lemma renames_one_of_mono (tok : json) (l l' : list json) (rq : Request) :
  l ⊆ l' -> renames_one_of tok l rq -> renames_one_of tok l' rq.
Proof.
  intros Hsub (fields & name & Hin & H). exists fields, name. split; [|exact H].
  by apply Hsub.
Qed.

(** X17. The batch writes nothing but the renames it counts: every
    request [process_activities] sends is a PUT for an outdoor walk of
    the list, with the object's token, that sets the label computed from
    that walk's timestamp, one of the three labels and not the name the
    walk already has; the Firestore document is not touched. *)
Theorem batch_sends_only_due_renames (l : list json) (r : Backfill.Run) :
  let r' := (Backfill.process_activities l r).1 in
  firestore_doc (Backfill.world r') = firestore_doc (Backfill.world r)
  /\ exists sent : list Request,
      requests_of (trace (Backfill.world r'))
      = requests_of (trace (Backfill.world r)) ++ sent
      /\ Forall (renames_one_of (Backfill.access_token (Backfill.self r)) l) sent.
Proof.
  revert r. induction l as [|a l IH]; intros r.
  - cbn. split; [reflexivity|]. exists []. by rewrite app_nil_r.
  - rewrite process_activities_cons.
    destruct (process_activity_sends a r) as (Htok & Hd & sent & Htr & _ & Hf).
    assert (Hf' : Forall (renames_one_of (Backfill.access_token (Backfill.self r)) (a :: l))
                         sent).
    { eapply Forall_impl; [exact Hf|]. intros rq. apply renames_one_of_mono. set_solver. }
    destruct (Backfill.process_activity a r) as [r1 [[]|e]]; cbn [fst] in *.
    + destruct (IH r1) as (Hd' & sent' & Htr' & Hf2). cbv zeta.
      split; [congruence|]. exists (sent ++ sent').
      rewrite Htr', Htr, <- app_assoc. split; [reflexivity|].
      apply Forall_app. split; [exact Hf'|].
      rewrite Htok in Hf2. eapply Forall_impl; [exact Hf2|].
      intros rq. apply renames_one_of_mono. set_solver.
    + cbv zeta. cbn [fst]. split; [assumption|]. eauto.
Qed.

(** ** Failures inside the batch *)

(** X18. A rename the provider refuses does not stop the batch: when the
    PUT for an outdoor walk is answered with a status that is neither 200
    nor 429, the walk is counted in [walks_found], [to_rename] and
    [errors], the pacing delay is slept, and the rest of the list is
    processed from there. *)
Theorem refused_rename_is_counted_and_passed (fields : list (string * json))
    (name : string) (rest : list json) (r : Backfill.Run) (bad : Response)
    (others : list outcome) :
  is_outdoor_walk (JObj fields) = true ->
  Backfill.determine_activity_name (field fields "start_date_local" JNull) = Ok name ->
  eq_str (field fields "name" (JStr "Unnamed")) name = false ->
  Backfill.dry_run (Backfill.self r) = false ->
  provider (Backfill.world r) = Responds bad :: others ->
  status_code bad <> 200 -> status_code bad <> 429 ->
  Backfill.process_activities (JObj fields :: rest) r
  = Backfill.process_activities rest
      (Backfill.with_world
         (after_sleep Backfill.REQUEST_DELAY
            (after_send (rename_request (Backfill.access_token (Backfill.self r))
                           (field fields "id" JNull) name)
                        (Backfill.world r)))
         (Backfill.with_stats
            (fun s => Backfill.bump_errors
                        (Backfill.bump_to_rename (Backfill.bump_walks_found s))) r)).
Proof.
  intros O D N Dry P S2 S4. unfold is_outdoor_walk in O.
  apply andb_true_iff in O as [T I]. apply negb_true_iff in I.
  rewrite process_activities_cons, process_activity_run, T, I, D, N, Dry.
  cbn [negb]. cbv zeta. rewrite (retry_passes_other _ _ _ _ P S4).
  apply Z.eqb_neq in S2. rewrite S2. reflexivity.
Qed.

Lemma refused_rename_is_counted_and_passed_witness :
  let walk := [("id", JNum 7); ("type", JStr "Walk"); ("trainer", JBool false);
               ("name", JStr "Morning Walk");
               ("start_date_local", JStr "2024-12-26T07:30:00Z")] in
  let b := Backfill.__init__ "id" "secret" "refresh" "UTC" false in
  let w := mk_world [Responds (mk_response 404 ∅ None)] 0 None [] [] in
  stats_of (Backfill.process_activities [JObj walk] (Backfill.mk_run b w)).1
  = Backfill.mk_stats 0 1 0 1 0 1.
Proof.
  intros walk b w.
  rewrite (refused_rename_is_counted_and_passed walk Backfill.MORNING []
             (Backfill.mk_run b w) (mk_response 404 ∅ None) []);
    try reflexivity; discriminate.
Defined.

(** X19. The batch relies on the timestamp: an outdoor walk whose
    [start_date_local] is missing or is not a string is counted in
    [walks_found] and then ends the run with [AttributeError]; the
    activities after it are not looked at and nothing is sent. *)
Theorem walk_without_timestamp_aborts_batch (fields : list (string * json))
    (rest : list json) (r : Backfill.Run) :
  is_outdoor_walk (JObj fields) = true ->
  (forall s, field fields "start_date_local" JNull <> JStr s) ->
  Backfill.process_activities (JObj fields :: rest) r
  = (Backfill.with_stats Backfill.bump_walks_found r, Raise AttributeError).
Proof.
  intros O S. unfold is_outdoor_walk in O.
  apply andb_true_iff in O as [T I]. apply negb_true_iff in I.
  rewrite process_activities_cons, process_activity_run, T, I. cbn [negb]. cbv zeta.
  unfold Backfill.determine_activity_name.
  destruct (field fields "start_date_local" JNull) as [| | |s| |]; try reflexivity.
  by destruct (S s).
Qed.

Lemma walk_without_timestamp_aborts_batch_witness :
  let walk := [("id", JNum 7); ("type", JStr "Walk"); ("name", JStr "Morning Walk")] in
  let b := Backfill.__init__ "id" "secret" "refresh" "UTC" false in
  let r := Backfill.mk_run b (mk_world [] 0 None [] []) in
  Backfill.process_activities [JObj walk; JObj walk] r
  = (Backfill.with_stats Backfill.bump_walks_found r, Raise AttributeError).
Proof.
  intros walk b r.
  apply (walk_without_timestamp_aborts_batch walk [JObj walk] r); [reflexivity|].
  intros s. discriminate.
Defined.

(** ** The keyword check *)

(** X20. Every name the naming function can give passes the keyword
    check: whatever the timestamp, a name returned by
    [determine_activity_name] is recognised by [is_already_dog_named]. *)
Theorem computed_names_are_dog_named (start : json) (name : string) :
  Backfill.determine_activity_name start = Ok name ->
  Backfill.is_already_dog_named name = true.
Proof.
  intros H. apply backfill_name_in_labels in H.
  apply list_elem_of_In in H. cbn in H.
  destruct H as [<-|[<-|[<-|[]]]]; reflexivity.
Qed.

Lemma computed_names_are_dog_named_witness :
  Backfill.is_already_dog_named Backfill.LUNCH = true.
Proof.
  apply (computed_names_are_dog_named (JStr "2024-12-26T12:00:00Z") Backfill.LUNCH).
  reflexivity.
Defined.

(** ** The token of the batch script *)

(** An answer the retry loop returns is one the provider gave. *)
Lemma retry_loop_answer (attempts : list nat) (last : option Response)
    (rq : Request) (w : World) (response : Response) :
  (Backfill.retry_loop attempts last rq w).2 = Ok response ->
  last = Some response \/ Responds response ∈ provider w.
Proof.
  revert last w. induction attempts as [|a attempts IH]; intros last w.
  - cbn. destruct last; cbn; [|discriminate]. intros [= ->]. by left.
  - rewrite retry_loop_cons.
    destruct (provider w) as [|[r|] rest] eqn:P; cbn [snd]; try discriminate.
    destruct (status_code r =? 429).
    + destruct (diagnostics r); cbn [snd]; [|discriminate].
      intros H. apply IH in H as [[= ->]|H]; right; [set_solver|].
      cbn [backoff after_sleep after_send provider] in H. rewrite P in H.
      cbn [tail] in H. set_solver.
    + intros [= ->]. right. set_solver.
Qed.

(** What [get_access_token] of the batch script does: the token form goes
    out between once and three times and nothing else is sent; a result
    comes from a 200 answer of the provider that carries a JSON object,
    and it is stored in the object; on an error the object is as it
    was. *)
Lemma backfill_get_access_token_frame (r : Backfill.Run) :
  let run := Backfill.get_access_token r in
  retry_frame (backfill_token_request (Backfill.self r)) 3
              (Backfill.world r) (Backfill.world run.1)
  /\ match run.2 with
     | Ok tok =>
         Backfill.self run.1 = Backfill.self (Backfill.with_access_token tok r)
         /\ exists (response : Response) (token_data : list (string * json)),
              Responds response ∈ provider (Backfill.world r)
              /\ status_code response = 200
              /\ payload response = Some (JObj token_data)
              /\ tok = field token_data "access_token" JNull
     | Raise _ => Backfill.self run.1 = Backfill.self r
     end.
Proof.
  unfold Backfill.get_access_token.
  cbv beta iota delta [mbind M_bind gets lift raise mret M_ret modify Backfill.io
                       Backfill.set_access_token].
  fold (backfill_token_request (Backfill.self r)).
  pose proof (retry_at_most_three (backfill_token_request (Backfill.self r))
                (Backfill.world r)) as F.
  pose proof (retry_loop_answer (seq 0 Backfill.MAX_RETRIES) None
                (backfill_token_request (Backfill.self r)) (Backfill.world r)) as A.
  fold (Backfill._make_request_with_retry (backfill_token_request (Backfill.self r))) in A.
  destruct (Backfill._make_request_with_retry _ (Backfill.world r)) as [w' [resp|e]];
    cbn [fst snd] in *; [|by cbn].
  destruct (A resp eq_refl) as [|In]; [discriminate|].
  destruct (status_code resp =? 200) eqn:S; cbn [negb]; [|by cbn].
  apply Z.eqb_eq in S.
  unfold response_json.
  destruct (payload resp) as [[| | | | |token_data]|] eqn:P; try by cbn.
  cbn. split; [exact F|]. split; [reflexivity|]. exists resp, token_data. auto.
Qed.

(** X21. The batch script's token: whatever the provider does,
    [get_access_token] sends its form between once and three times and
    nothing else.  When it returns, one of the provider's answers had
    status 200 and a JSON object for a body, and the token returned and
    kept in [self.access_token] is that object's [access_token], or
    [None] when the object has none: no error is raised for it.  When it
    raises, [self.access_token] is what it was.  The counters never
    move. *)
Theorem backfill_token_is_the_providers (r : Backfill.Run) :
  let run := Backfill.get_access_token r in
  (exists n : nat,
     (1 <= n <= 3)%nat
     /\ requests_of (trace (Backfill.world run.1))
        = requests_of (trace (Backfill.world r))
          ++ replicate n (backfill_token_request (Backfill.self r)))
  /\ stats_of run.1 = stats_of r
  /\ match run.2 with
     | Ok tok =>
         Backfill.access_token (Backfill.self run.1) = tok
         /\ exists (response : Response) (token_data : list (string * json)),
              Responds response ∈ provider (Backfill.world r)
              /\ status_code response = 200
              /\ payload response = Some (JObj token_data)
              /\ tok = default JNull (assoc_get "access_token" token_data)
     | Raise _ =>
         Backfill.access_token (Backfill.self run.1) = Backfill.access_token (Backfill.self r)
     end.
Proof.
  intros run. destruct (backfill_get_access_token_frame r) as [F H]. fold run in F, H.
  destruct F as (n & Hn & Hp & Htr & _). split.
  { exists n. split; [lia|exact Htr]. }
  unfold stats_of. destruct run.2 as [tok|e].
  - destruct H as [-> H]. split; [reflexivity|]. split; [reflexivity|exact H].
  - rewrite H. split; reflexivity.
Qed.
(** ** A whole run *)





Lemma writes_of_app (tr : list event) (sent : list Request) :
  writes_of tr ++ List.filter (fun rq => String.eqb (rq_method rq) "PUT") sent
  = List.filter (fun rq => String.eqb (rq_method rq) "PUT") (requests_of tr ++ sent).
Proof. unfold writes_of. by rewrite List.filter_app. Qed.







(** X24. A refresh the provider refuses ends the run at once: when the
    first answer has a status that is neither 200 nor 429, the run stops
    with the error that carries that status after this one request,
    whatever the page budget; nothing is listed and nothing renamed. *)
Theorem refused_refresh_ends_the_run (fuel : nat) (cid sec rt tz : string)
    (dry : bool) (after_timestamp : Z) (w : World) (bad : Response)
    (others : list outcome) :
  provider w = Responds bad :: others ->
  status_code bad <> 200 -> status_code bad <> 429 ->
  let b := Backfill.__init__ cid sec rt tz dry in
  Backfill.main_run fuel cid sec rt tz dry after_timestamp w
  = Some (Backfill.mk_run b (after_send (backfill_token_request b) w),
          Raise (Failure "Failed to refresh token" (status_code bad))).
Proof.
  intros P S2 S4 b. unfold Backfill.main_run. cbv zeta. fold b.
  unfold Backfill.get_access_token.
  cbv beta iota delta [mbind M_bind gets lift raise mret M_ret modify Backfill.io
                       Backfill.set_access_token].
  fold (backfill_token_request (Backfill.self (Backfill.mk_run b w))).
  cbn [Backfill.self Backfill.world].
  rewrite (retry_passes_other _ _ _ _ P S4).
  apply Z.eqb_neq in S2. rewrite S2. reflexivity.
Qed.

Lemma refused_refresh_ends_the_run_witness :
  let w := mk_world [Responds (mk_response 401 ∅ None)] 0 None [] [] in
  let b := Backfill.__init__ "id" "secret" "stale" "UTC" false in
  Backfill.main_run 0 "id" "secret" "stale" "UTC" false 0 w
  = Some (Backfill.mk_run b (after_send (backfill_token_request b) w),
          Raise (Failure "Failed to refresh token" 401)).
Proof.
  intros w b.
  apply (refused_refresh_ends_the_run 0 "id" "secret" "stale" "UTC" false 0 w
           (mk_response 401 ∅ None) []); [reflexivity|discriminate|discriminate].
Defined.



(** ** Reading what was written *)
















(** ** The credentials of a run *)

Lemma firestore_call_frame (w : World) :
  let w' := (Main.firestore_call w).1 in
  firestore_doc w' = firestore_doc w /\ trace w' = trace w /\ provider w' = provider w.
Proof. by cbn. Qed.

(** X27. The credentials a run starts with: when the script gets past
    its credentials block, the three values are all truthy, and each is
    the flag when the flag is there and not empty, otherwise the
    environment variable (for the id and the secret) or the refresh
    token stored in Firestore; nothing was sent or written to get them,
    and with all three flags given Firestore was not even called. *)
Theorem credentials_prefer_flags (available : bool) (env_id env_secret : option string)
    (args : Script.Args) (w w' : World) (cid sec tok : json) :
  Script.main_credentials available env_id env_secret args w = (w', Some (cid, sec, tok)) ->
  truthy cid = true /\ truthy sec = true /\ truthy tok = true
  /\ cid = Script.py_or (Main.env_json (Script.arg_client_id args)) (Main.env_json env_id)
  /\ sec = Script.py_or (Main.env_json (Script.arg_client_secret args))
                        (Main.env_json env_secret)
  /\ tok = Script.py_or (Main.env_json (Script.arg_refresh_token args))
                        (stored_refresh_token w)
  /\ trace w' = trace w /\ firestore_doc w' = firestore_doc w
  /\ (flags_complete args = true -> w' = w).
Proof.
  unfold Script.main_credentials, flags_complete. cbv zeta.
  destruct (truthy (Main.env_json (Script.arg_client_id args))
            && truthy (Main.env_json (Script.arg_client_secret args))
            && truthy (Main.env_json (Script.arg_refresh_token args))) eqn:F.
  { intros [= <- <- <- <-].
    apply andb_true_iff in F as [F T]. apply andb_true_iff in F as [I S].
    unfold Script.py_or. rewrite I, S, T. auto 10. }
  unfold Script.get_credentials_from_firestore.
  destruct available; cbn [negb]; [|discriminate].
  destruct (firestore_call_frame w) as (D1 & T1 & _).
  destruct (Main.firestore_call w) as [w1 [[]|e]]; [|discriminate].
  destruct (firestore_call_frame w1) as (D2 & T2 & _).
  destruct (Main.firestore_call w1) as [w2 [[]|e]]; [|discriminate].
  cbn [fst] in *. unfold stored_refresh_token. rewrite <- D1, <- D2.
  destruct (firestore_doc w2) as [config|] eqn:Doc; [|discriminate].
  cbn [Script.client_id Script.client_secret Script.refresh_token].
  match goal with
  | |- context [negb (?a && ?b && ?c)] => destruct a eqn:A, b eqn:B, c eqn:C
  end; cbn [negb andb]; try discriminate.
  intros [= <- <- <- <-]. repeat split; auto; congruence.
Qed.

Lemma credentials_prefer_flags_witness :
  let args := Script.mk_args None (Some "") (Some "flag-token") in
  let w := mk_world [] 0 (Some (list_to_map [("refresh_token", JStr "stored")])) [] [] in
  let w' := Main.after_firestore_call (Main.after_firestore_call w) in
  truthy (JStr "env-id") = true /\ truthy (JStr "env-secret") = true
  /\ truthy (JStr "flag-token") = true
  /\ JStr "env-id" = Script.py_or JNull (JStr "env-id")
  /\ JStr "env-secret" = Script.py_or (JStr "") (JStr "env-secret")
  /\ JStr "flag-token" = Script.py_or (JStr "flag-token") (stored_refresh_token w)
  /\ trace w' = trace w /\ firestore_doc w' = firestore_doc w
  /\ (flags_complete args = true -> w' = w).
Proof.
  intros args w w'.
  apply (credentials_prefer_flags true (Some "env-id") (Some "env-secret") args w w'
           (JStr "env-id") (JStr "env-secret") (JStr "flag-token")).
  reflexivity.
Defined.

(** X28. Flags that are not complete make the script depend on
    Firestore: when one of the three flags is missing or empty and the
    library is not installed, or the document does not exist, the script
    exits with status 1, even if the flags and the environment together
    hold all three credentials. *)
Theorem incomplete_flags_need_firestore (available : bool)
    (env_id env_secret : option string) (args : Script.Args) (w : World) :
  flags_complete args = false ->
  available = false \/ firestore_doc w = None ->
  (Script.main_credentials available env_id env_secret args w).2 = None.
Proof.
  unfold Script.main_credentials, flags_complete. cbv zeta. intros -> H.
  unfold Script.get_credentials_from_firestore.
  destruct available; cbn [negb]; [|reflexivity].
  destruct H as [|H]; [discriminate|].
  destruct (firestore_call_frame w) as (D1 & _).
  destruct (Main.firestore_call w) as [w1 [[]|e]]; [|reflexivity].
  destruct (firestore_call_frame w1) as (D2 & _).
  destruct (Main.firestore_call w1) as [w2 [[]|e]]; [|reflexivity].
  cbn [fst] in *. by rewrite D2, D1, H.
Qed.

Lemma incomplete_flags_need_firestore_witness :
  (Script.main_credentials true (Some "env-id") (Some "env-secret")
     (Script.mk_args None None (Some "flag-token")) (mk_world [] 0 None [] [])).2 = None.
Proof.
  apply incomplete_flags_need_firestore; [reflexivity|]. by right.
Defined.
